(** * Uptime Kuma resource transformers (app/resources/uptime_kuma.py)

    A shallow embedding of the response-reshaping code of the service mesh
    backend: the field normalizer, the certificate, heartbeat, uptime and
    instance-info transformers, the per-monitor statistics aggregator and the
    fleet aggregator, followed by the properties claimed of them.

    Modelling conventions
    - Python values are the JSON-like values the upstream client returns:
      None, bool, int (unbounded, [Z]), float (binary64, as a [spec_float]
      in canonical form), str, list and dict with string keys.  A dict is an
      association list in insertion order with pairwise distinct keys.
    - Strings are sequences of 8-bit characters; [str.lower] and the regular
      expressions act on the ASCII letters.  Comparison of strings is
      lexicographic on character codes, as in Python.
    - A call that can raise returns [res]: [Ok v] or [Raise e] with the
      Python exception class.  Statements are sequenced in program order, so
      the first exception of the program is the one of the model.
    - Library calls whose code is not part of the repository
      ([datetime.fromisoformat], [datetime.now], [statistics.stdev]) are
      fields of a [Runtime] record passed to the transformers.  Timestamps
      are naive instants, so any two of them compare; the comparison of an
      aware with a naive datetime, which raises in Python, is not modelled.
    - [list.sort] is the stable sort: keys are computed first (a raising key
      function leaves the list untouched), then the elements are arranged by
      insertion.  On keys that are totally preordered this is the arrangement
      CPython produces.
    - Float arithmetic is IEEE 754 binary64 with round to nearest even, on
      the specification of the standard library ([SpecFloat]); [sum] adds
      from left to right, as CPython does before version 3.12. *)

From Stdlib Require Import ZArith List String Ascii Bool Lia.
From Stdlib Require Import Sorting.Sorted Sorting.Permutation.
From Stdlib Require Import Floats.SpecFloat.
From Stdlib Require Import Structures.OrderedTypeEx.
Import ListNotations.

Local Open Scope string_scope.
Local Open Scope Z_scope.

(** ** Results and exceptions *)

Inductive exn : Type :=
| TypeError
| ValueError
| AttributeError
| ZeroDivisionError
| OverflowError
| StatisticsError.

Inductive res (A : Type) : Type :=
| Ok (a : A)
| Raise (e : exn).

Arguments Ok {A} a.
Arguments Raise {A} e.

Definition bind {A B : Type} (m : res A) (k : A -> res B) : res B :=
  match m with
  | Ok a => k a
  | Raise e => Raise e
  end.

Notation "'do' x <- m ; k" := (bind m (fun x => k))
  (at level 10, x name, m at level 100, k at level 200).

Fixpoint mapM {A B : Type} (f : A -> res B) (l : list A) : res (list B) :=
  match l with
  | [] => Ok []
  | x :: l' => do y <- f x; do ys <- mapM f l'; Ok (y :: ys)
  end.

Definition exn_eqb (a b : exn) : bool :=
  match a, b with
  | TypeError, TypeError | ValueError, ValueError
  | AttributeError, AttributeError | ZeroDivisionError, ZeroDivisionError
  | OverflowError, OverflowError | StatisticsError, StatisticsError => true
  | _, _ => false
  end.

(** [try: m except (handled): dflt] *)
Definition try_except {A : Type} (m : res A) (handled : list exn) (dflt : A)
  : res A :=
  match m with
  | Ok a => Ok a
  | Raise e => if existsb (exn_eqb e) handled then Ok dflt else Raise e
  end.

(** ** Values *)

Unset Elimination Schemes.
Inductive pyval : Type :=
| VNone
| VBool (b : bool)
| VInt (z : Z)
| VFloat (f : spec_float)
| VStr (s : string)
| VList (l : list pyval)
| VDict (d : list (string * pyval)).
Set Elimination Schemes.

Section PyvalInd.
Variable P : pyval -> Prop.
Hypothesis HNone : P VNone.
Hypothesis HBool : forall b, P (VBool b).
Hypothesis HInt : forall z, P (VInt z).
Hypothesis HFloat : forall f, P (VFloat f).
Hypothesis HStr : forall s, P (VStr s).
Hypothesis HList : forall l, Forall P l -> P (VList l).
Hypothesis HDict : forall d, Forall (fun kv => P (snd kv)) d -> P (VDict d).

Fixpoint pyval_ind (v : pyval) : P v :=
  match v with
  | VNone => HNone
  | VBool b => HBool b
  | VInt z => HInt z
  | VFloat f => HFloat f
  | VStr s => HStr s
  | VList l =>
      HList l
        ((fix all (l : list pyval) : Forall P l :=
            match l with
            | [] => Forall_nil P
            | x :: l' => Forall_cons x (pyval_ind x) (all l')
            end) l)
  | VDict d =>
      HDict d
        ((fix all (d : list (string * pyval))
            : Forall (fun kv => P (snd kv)) d :=
            match d with
            | [] => Forall_nil _
            | (k, x) :: d' =>
                Forall_cons (P := fun kv => P (snd kv)) (k, x)
                  (pyval_ind x) (all d')
            end) d)
  end.
End PyvalInd.

(** The missing-value sentinel. *)
Definition SENTINEL : pyval := VStr "-".

Definition dict := list (string * pyval).

(** [d.get(k)] on the association list. *)
Fixpoint lookup (d : dict) (k : string) : option pyval :=
  match d with
  | [] => None
  | (k', v) :: d' => if String.eqb k' k then Some v else lookup d' k
  end.

(** [k in d] *)
Definition has_key (d : dict) (k : string) : bool :=
  match lookup d k with Some _ => true | None => false end.

(** [d.get(k, dflt)] *)
Definition get_or (d : dict) (k : string) (dflt : pyval) : pyval :=
  match lookup d k with Some v => v | None => dflt end.

(** [d.get(k)], whose default is None. *)
Definition get (d : dict) (k : string) : pyval := get_or d k VNone.

(** [d[k] = v]: overwrite in place, or append a new key. *)
Fixpoint dict_set (d : dict) (k : string) (v : pyval) : dict :=
  match d with
  | [] => [(k, v)]
  | (k', v') :: d' =>
      if String.eqb k' k then (k', v) :: d' else (k', v') :: dict_set d' k v
  end.

(** A dict literal or comprehension: the entries are stored one by one. *)
Definition dict_of (kvs : list (string * pyval)) : dict :=
  fold_left (fun d kv => dict_set d (fst kv) (snd kv)) kvs [].

(** [v.get(k, dflt)] on any value: only a dict has the method. *)
Definition py_get_or (v : pyval) (k : string) (dflt : pyval) : res pyval :=
  match v with
  | VDict d => Ok (get_or d k dflt)
  | _ => Raise AttributeError
  end.

Definition py_get (v : pyval) (k : string) : res pyval := py_get_or v k VNone.

(** ** Field normalizer: class UptimeKumaResource *)

Module UptimeKumaResource.

Definition is_upper (c : ascii) : bool :=
  let n := N_of_ascii c in (65 <=? n)%N && (n <=? 90)%N.

Definition is_lower (c : ascii) : bool :=
  let n := N_of_ascii c in (97 <=? n)%N && (n <=? 122)%N.

Definition is_digit (c : ascii) : bool :=
  let n := N_of_ascii c in (48 <=? n)%N && (n <=? 57)%N.

(** [.] matches every character but the newline. *)
Definition is_dot (c : ascii) : bool :=
  negb (N_of_ascii c =? 10)%N.

Definition to_lower (c : ascii) : ascii :=
  if is_upper c then ascii_of_N (N_of_ascii c + 32) else c.

Fixpoint lower (s : string) : string :=
  match s with
  | EmptyString => EmptyString
  | String c s' => String (to_lower c) (lower s')
  end.

(** [re.sub('(.)([A-Z][a-z]+)', r'\1_\2', s)].  The scan goes left to
    right; [inrun] is set while the greedy [[a-z]+] of the last match is
    still being consumed. *)
Fixpoint sub_word (inrun : bool) (s : string) : string :=
  match s with
  | EmptyString => EmptyString
  | String c s1 =>
      if inrun && is_lower c then String c (sub_word true s1)
      else
        match s1 with
        | String u (String l _ as s2) =>
            if is_dot c && is_upper u && is_lower l
            then String c (String "_" (String u (sub_word true s2)))
            else String c (sub_word false s1)
        | _ => String c (sub_word false s1)
        end
  end.

(** [re.sub('([a-z0-9])([A-Z])', r'\1_\2', s)] *)
Fixpoint sub_hump (s : string) : string :=
  match s with
  | EmptyString => EmptyString
  | String c s1 =>
      match s1 with
      | String u s2 =>
          if (is_lower c || is_digit c) && is_upper u
          then String c (String "_" (String u (sub_hump s2)))
          else String c (sub_hump s1)
      | EmptyString => String c EmptyString
      end
  end.

Definition camel_to_snake (name : string) : string :=
  if String.eqb name "" then name
  else lower (sub_hump (sub_word false name)).

Fixpoint clean_value (value : pyval) : pyval :=
  match value with
  | VNone => VStr "-"
  | VStr s => if String.eqb s "" then VStr "-" else VStr s
  | VDict d =>
      VDict (map (fun kv => let '(k, v) := kv in (k, clean_value v)) d)
  | VList l => VList (map clean_value l)
  | _ => value
  end.

End UptimeKumaResource.

Import UptimeKumaResource.

(** ** Numbers: Python's int and float *)

Definition prec : Z := 53.
Definition emax : Z := 1024.

Inductive num : Type :=
| NInt (z : Z)
| NFloat (f : spec_float).

(** The numeric reading of a value; bool is a subclass of int. *)
Definition as_num (v : pyval) : option num :=
  match v with
  | VBool b => Some (NInt (if b then 1 else 0))
  | VInt z => Some (NInt z)
  | VFloat f => Some (NFloat f)
  | _ => None
  end.

Definition of_num (n : num) : pyval :=
  match n with
  | NInt z => VInt z
  | NFloat f => VFloat f
  end.

(** [isinstance(v, (int, float))] *)
Definition is_number (v : pyval) : bool :=
  match as_num v with Some _ => true | None => false end.

Definition no_inf (f : spec_float) : res spec_float :=
  match f with
  | S754_infinity _ => Raise OverflowError
  | _ => Ok f
  end.

(** [float(z)]: the nearest double, ties to even; too large an int raises. *)
Definition float_of_Z (z : Z) : res spec_float :=
  no_inf (binary_normalize prec emax z 0 false).

(** The double nearest to the fraction [a / b], for [b <> 0]. *)
Definition nearest_quotient (a b : Z) : spec_float :=
  let s := xorb (a <? 0) (b <? 0) in
  match a with
  | Z0 => S754_zero s
  | _ =>
      let '(mz, ez, lz) :=
        SFdiv_core_binary prec emax (Z.abs a) 0 (Z.abs b) 0 in
      binary_round_aux prec emax s mz ez lz
  end.

(** [a / b] on ints: true division, correctly rounded. *)
Definition int_truediv (a b : Z) : res spec_float :=
  if b =? 0 then Raise ZeroDivisionError
  else no_inf (nearest_quotient a b).

Definition to_float (n : num) : res spec_float :=
  match n with
  | NInt z => float_of_Z z
  | NFloat f => Ok f
  end.

Definition num_add (x y : num) : res num :=
  match x, y with
  | NInt a, NInt b => Ok (NInt (a + b))
  | _, _ =>
      do fx <- to_float x; do fy <- to_float y;
      Ok (NFloat (SFadd prec emax fx fy))
  end.

Definition num_sub (x y : num) : res num :=
  match x, y with
  | NInt a, NInt b => Ok (NInt (a - b))
  | _, _ =>
      do fx <- to_float x; do fy <- to_float y;
      Ok (NFloat (SFsub prec emax fx fy))
  end.

Definition num_mul (x y : num) : res num :=
  match x, y with
  | NInt a, NInt b => Ok (NInt (a * b))
  | _, _ =>
      do fx <- to_float x; do fy <- to_float y;
      Ok (NFloat (SFmul prec emax fx fy))
  end.

Definition is_fzero (f : spec_float) : bool :=
  match f with S754_zero _ => true | _ => false end.

Definition num_truediv (x y : num) : res num :=
  match x, y with
  | NInt a, NInt b => do f <- int_truediv a b; Ok (NFloat f)
  | _, _ =>
      do fx <- to_float x; do fy <- to_float y;
      if is_fzero fy then Raise ZeroDivisionError
      else Ok (NFloat (SFdiv prec emax fx fy))
  end.

(** Exact comparison of ints and floats.  A finite number is [m * 2^e]. *)
Inductive extended : Type :=
| XNan
| XInf (negative : bool)
| XFin (m e : Z).

Definition extend (n : num) : extended :=
  match n with
  | NInt z => XFin z 0
  | NFloat S754_nan => XNan
  | NFloat (S754_infinity s) => XInf s
  | NFloat (S754_zero _) => XFin 0 0
  | NFloat (S754_finite s m e) => XFin (if s then Z.neg m else Z.pos m) e
  end.

Definition fin_compare (m1 e1 m2 e2 : Z) : comparison :=
  let e := Z.min e1 e2 in
  Z.compare (m1 * 2 ^ (e1 - e)) (m2 * 2 ^ (e2 - e)).

(** [None] when a NaN is involved: every ordering test is then false. *)
Definition num_compare (x y : num) : option comparison :=
  match extend x, extend y with
  | XNan, _ | _, XNan => None
  | XInf s1, XInf s2 =>
      Some (match s1, s2 with
            | true, false => Lt
            | false, true => Gt
            | _, _ => Eq
            end)
  | XInf s, XFin _ _ => Some (if s then Lt else Gt)
  | XFin _ _, XInf s => Some (if s then Gt else Lt)
  | XFin m1 e1, XFin m2 e2 => Some (fin_compare m1 e1 m2 e2)
  end.

Definition num_lt (x y : num) : bool :=
  match num_compare x y with Some Lt => true | _ => false end.
Definition num_le (x y : num) : bool :=
  match num_compare x y with Some Lt | Some Eq => true | _ => false end.
Definition num_gt (x y : num) : bool :=
  match num_compare x y with Some Gt => true | _ => false end.
Definition num_ge (x y : num) : bool :=
  match num_compare x y with Some Gt | Some Eq => true | _ => false end.
Definition num_eq (x y : num) : bool :=
  match num_compare x y with Some Eq => true | _ => false end.

(** The nearest integer to [n / d] for [d > 0], ties to the even one. *)
Definition div_half_even (n d : Z) : Z :=
  let q := n / d in
  let r := n mod d in
  match Z.compare (2 * r) d with
  | Lt => q
  | Gt => q + 1
  | Eq => if Z.even q then q else q + 1
  end.

(** [round(f, ndigits)] on a float, for [ndigits >= 0]: the exact value is
    rounded to [ndigits] decimals, ties to even, and the decimal is read
    back as the nearest double.  NaN, the infinities, the zeros and the
    integral values round to themselves. *)
Definition round_float (f : spec_float) (ndigits : Z) : spec_float :=
  match f with
  | S754_finite s m e =>
      if 0 <=? e then f
      else
        let n := div_half_even (Z.pos m * 10 ^ ndigits) (2 ^ (- e)) in
        if n =? 0 then S754_zero s
        else nearest_quotient (if s then - n else n) (10 ^ ndigits)
  | _ => f
  end.

(** [round(v, ndigits)] for [ndigits >= 0]; an int rounds to itself. *)
Definition py_round (v : pyval) (ndigits : Z) : res pyval :=
  match as_num v with
  | Some (NInt z) => Ok (VInt z)
  | Some (NFloat f) => Ok (VFloat (round_float f ndigits))
  | None => Raise TypeError
  end.

(** Binary operators on arbitrary values, as far as the transformers use
    them: on numbers they compute, on anything else they raise. *)
Definition py_arith (op : num -> num -> res num) (v w : pyval) : res pyval :=
  match as_num v, as_num w with
  | Some x, Some y => do r <- op x y; Ok (of_num r)
  | _, _ => Raise TypeError
  end.

Definition py_add := py_arith num_add.
Definition py_sub := py_arith num_sub.
Definition py_mul := py_arith num_mul.
Definition py_truediv := py_arith num_truediv.

(** [sum(l)]: the fold of [+] from the int 0. *)
Definition py_sum (l : list pyval) : res pyval :=
  fold_left (fun acc v => do a <- acc; py_add a v) l (Ok (VInt 0)).

(** The float literal with the decimal value [n / d]. *)
Definition float_lit (n d : Z) : pyval := VFloat (nearest_quotient n d).

(** ** Truth value, equality and ordering of values *)

(** [bool(v)] *)
Definition truthy (v : pyval) : bool :=
  match v with
  | VNone => false
  | VBool b => b
  | VInt z => negb (z =? 0)
  | VFloat f => negb (is_fzero f)
  | VStr s => negb (String.eqb s "")
  | VList l => match l with [] => false | _ => true end
  | VDict d => match d with [] => false | _ => true end
  end.

(** [a == b]: numbers compare by value across bool, int and float, a NaN
    equals nothing, lists compare elementwise and dicts key by key. *)
Fixpoint py_eq (a b : pyval) {struct a} : bool :=
  match a, b with
  | VNone, VNone => true
  | VStr s, VStr t => String.eqb s t
  | VList l1, VList l2 =>
      (fix go (l1 l2 : list pyval) {struct l1} : bool :=
         match l1, l2 with
         | [], [] => true
         | x :: l1', y :: l2' => py_eq x y && go l1' l2'
         | _, _ => false
         end) l1 l2
  | VDict d1, VDict d2 =>
      (List.length d1 =? List.length d2)%nat &&
      (fix go (d1 : list (string * pyval)) : bool :=
         match d1 with
         | [] => true
         | (k, v) :: d1' =>
             match lookup d2 k with
             | Some w => py_eq v w
             | None => false
             end && go d1'
         end) d1
  | _, _ =>
      match as_num a, as_num b with
      | Some x, Some y => num_eq x y
      | _, _ => false
      end
  end.

(** [v != "-"] *)
Definition not_sentinel (v : pyval) : bool := negb (py_eq v SENTINEL).

(** [a < b]: defined between two strings, two numbers and two lists. *)
Fixpoint py_lt (a b : pyval) {struct a} : res bool :=
  match a, b with
  | VStr s, VStr t => Ok (String.ltb s t)
  | VList l1, VList l2 =>
      (fix go (l1 l2 : list pyval) {struct l1} : res bool :=
         match l1, l2 with
         | [], [] => Ok false
         | [], _ :: _ => Ok true
         | _ :: _, [] => Ok false
         | x :: l1', y :: l2' => if py_eq x y then go l1' l2' else py_lt x y
         end) l1 l2
  | _, _ =>
      match as_num a, as_num b with
      | Some x, Some y => Ok (num_lt x y)
      | _, _ => Raise TypeError
      end
  end.

(** An ordering test of any value against a number. *)
Definition py_test (test : num -> num -> bool) (v w : pyval) : res bool :=
  match as_num v, as_num w with
  | Some x, Some y => Ok (test x y)
  | _, _ => Raise TypeError
  end.

(** [max(0, v)]: the second argument wins only when it is greater. *)
Definition py_max0 (v : pyval) : res pyval :=
  do b <- py_test num_gt v (VInt 0);
  Ok (if b then v else VInt 0).

(** ** list.sort *)

Section Sort.
Context {K A : Type}.
Variable lt : K -> K -> res bool.

(** Ascending: [x] stood before every element of [l] and stays before the
    ones that are not smaller. *)
Fixpoint insert_asc (x : K * A) (l : list (K * A)) : res (list (K * A)) :=
  match l with
  | [] => Ok [x]
  | y :: r =>
      do b <- lt (fst y) (fst x);
      if b then do r' <- insert_asc x r; Ok (y :: r') else Ok (x :: l)
  end.

(** Descending ([reverse=True]): [x] stays before the ones that are not
    greater. *)
Fixpoint insert_desc (x : K * A) (l : list (K * A)) : res (list (K * A)) :=
  match l with
  | [] => Ok [x]
  | y :: r =>
      do b <- lt (fst x) (fst y);
      if b then do r' <- insert_desc x r; Ok (y :: r') else Ok (x :: l)
  end.

Fixpoint sort_keyed (reverse : bool) (l : list (K * A))
  : res (list (K * A)) :=
  match l with
  | [] => Ok []
  | x :: l' =>
      do s <- sort_keyed reverse l';
      if reverse then insert_desc x s else insert_asc x s
  end.

(** [l.sort(key=key, reverse=reverse)] *)
Definition list_sort (key : A -> res K) (reverse : bool) (l : list A)
  : res (list A) :=
  do ks <- mapM (fun x => do k <- key x; Ok (k, x)) l;
  do s <- sort_keyed reverse ks;
  Ok (map snd s).
End Sort.

(** ** Sequences and conversions *)

Fixpoint chars (s : string) : list pyval :=
  match s with
  | EmptyString => []
  | String c s' => VStr (String c EmptyString) :: chars s'
  end.

(** The values that can be sliced and iterated: a list, or a str as the
    sequence of its characters.  Any other value raises; the class is
    TypeError for all of them here. *)
Definition as_seq (v : pyval) : res (list pyval) :=
  match v with
  | VList l => Ok l
  | VStr s => Ok (chars s)
  | _ => Raise TypeError
  end.

(** [a + b] on two sequences of the same kind. *)
Definition seq_concat (a b : pyval) : res (list pyval) :=
  match a, b with
  | VList l1, VList l2 => Ok (l1 ++ l2)%list
  | VStr s1, VStr s2 => Ok (chars (s1 ++ s2))
  | _, _ => Raise TypeError
  end.

Definition is_space (c : ascii) : bool :=
  let n := N_of_ascii c in
  (n =? 32)%N || ((9 <=? n)%N && (n <=? 13)%N).

Fixpoint lstrip (s : string) : string :=
  match s with
  | String c s' => if is_space c then lstrip s' else s
  | EmptyString => EmptyString
  end.

Fixpoint rstrip (s : string) : string :=
  match s with
  | EmptyString => EmptyString
  | String c s' =>
      let r := rstrip s' in
      if is_space c && String.eqb r "" then EmptyString else String c r
  end.

Definition digit_val (c : ascii) : Z := Z.of_N (N_of_ascii c) - 48.

(** Decimal digits, with single underscores between digits. *)
Fixpoint digits (acc : Z) (s : string) : option Z :=
  match s with
  | EmptyString => Some acc
  | String c s' =>
      if UptimeKumaResource.is_digit c then digits (acc * 10 + digit_val c) s'
      else if Ascii.eqb c "_" then
        match s' with
        | String c' _ =>
            if UptimeKumaResource.is_digit c' then digits acc s' else None
        | EmptyString => None
        end
      else None
  end.

Definition unsigned (s : string) : option Z :=
  match s with
  | String c _ => if UptimeKumaResource.is_digit c then digits 0 s else None
  | EmptyString => None
  end.

(** [int(s)] on a str: surrounding whitespace, an optional sign, decimal
    digits.  (The limit CPython 3.11 puts on the number of digits is left
    out.) *)
Definition int_of_string (s : string) : res Z :=
  let body := rstrip (lstrip s) in
  let r :=
    match body with
    | String "-" t => option_map Z.opp (unsigned t)
    | String "+" t => unsigned t
    | _ => unsigned body
    end in
  match r with
  | Some z => Ok z
  | None => Raise ValueError
  end.

(** ** Library calls *)

(** An instant of the naive time line, as a natural number that grows with
    time; [datetime.min] is the first one. *)
Definition datetime := N.
Definition datetime_min : datetime := 0%N.

Record Runtime : Type := {
  (** [datetime.fromisoformat] on a str; [None] is its ValueError. *)
  fromisoformat : string -> option datetime;
  (** [datetime.now().isoformat()] *)
  now_isoformat : string;
  (** [statistics.stdev] on a list of numbers. *)
  stdev : list pyval -> res spec_float
}.

(** ** class MonitorResource *)

Definition is_list (v : pyval) : bool :=
  match v with VList _ => true | _ => false end.

Module MonitorResource.

Definition list_fields : list string :=
  ["children_ids"; "notification_id_list"; "tags"; "kafka_producer_brokers"].

(** The loop over [monitor.items()]. *)
Definition normalize (monitor : dict) : dict :=
  fold_left
    (fun result kv => dict_set result (camel_to_snake (fst kv))
                        (clean_value (snd kv)))
    monitor [].

(** One round of the loop over the list fields. *)
Definition ensure_list (result : dict) (list_field : string) : dict :=
  if has_key result list_field && negb (is_list (get result list_field))
  then dict_set result list_field (VList [])
  else result.

(** The body of [transform] once [monitor] is known to be a dict. *)
Definition transform_dict (monitor : dict) : dict :=
  let result := normalize monitor in
  let result := dict_set result "active"
                  (VBool (truthy (get monitor "active"))) in
  let result := dict_set result "force_inactive"
                  (VBool (truthy (get monitor "forceInactive"))) in
  let result := dict_set result "status"
                  (VInt (if truthy (get monitor "active") then 1 else 0)) in
  let result := dict_set result "maintenance"
                  (VBool (truthy (get monitor "maintenance"))) in
  fold_left ensure_list list_fields result.

Definition transform (monitor : pyval) : res dict :=
  if negb (truthy monitor) then Ok []
  else
    match monitor with
    | VDict m => Ok (transform_dict m)
    | _ => Raise AttributeError
    end.

End MonitorResource.

(** ** class CertificateInfoResource *)

Module CertificateInfoResource.

(** [cert_details.get(outer, {}).get(inner)] *)
Definition nested (cert_details : pyval) (outer inner : string) : res pyval :=
  do o <- py_get_or cert_details outer (VDict []);
  py_get o inner.

Definition expiry_status (days_remaining : pyval) : pyval :=
  match (if not_sentinel days_remaining then as_num days_remaining
         else None) with
  | Some n =>
      if num_le n (NInt 0) then VStr "expired"
      else if num_le n (NInt 7) then VStr "critical"
      else if num_le n (NInt 30) then VStr "warning"
      else VStr "ok"
  | None => VStr "-"
  end.

Definition transform (cert_info : pyval) : res dict :=
  if negb (truthy cert_info) then Ok []
  else
    do cert_details <- py_get_or cert_info "certInfo" (VDict []);
    do valid <- py_get cert_info "valid";
    do subject_cn <- nested cert_details "subject" "CN";
    do subject_c <- nested cert_details "subject" "C";
    do subject_st <- nested cert_details "subject" "ST";
    do subject_l <- nested cert_details "subject" "L";
    do subject_o <- nested cert_details "subject" "O";
    do issuer_cn <- nested cert_details "issuer" "CN";
    do issuer_c <- nested cert_details "issuer" "C";
    do issuer_o <- nested cert_details "issuer" "O";
    do subject_alt_name <- py_get cert_details "subjectaltname";
    do info_access <- py_get cert_details "infoAccess";
    do valid_from <- py_get cert_info "valid_from";
    do valid_to <- py_get cert_info "valid_to";
    do days_remaining <- py_get cert_info "days_remaining";
    do fingerprint <- py_get cert_details "fingerprint";
    do serial_number <- py_get cert_details "serialNumber";
    do signature_algorithm <- py_get cert_details "signatureAlgorithm";
    let result := dict_of [
      ("valid", clean_value valid);
      ("subject_cn", clean_value subject_cn);
      ("subject_c", clean_value subject_c);
      ("subject_st", clean_value subject_st);
      ("subject_l", clean_value subject_l);
      ("subject_o", clean_value subject_o);
      ("issuer_cn", clean_value issuer_cn);
      ("issuer_c", clean_value issuer_c);
      ("issuer_o", clean_value issuer_o);
      ("subject_alt_name", clean_value subject_alt_name);
      ("info_access", clean_value info_access);
      ("valid_from", clean_value valid_from);
      ("valid_to", clean_value valid_to);
      ("days_remaining", clean_value days_remaining);
      ("fingerprint", clean_value fingerprint);
      ("serial_number", clean_value serial_number);
      ("signature_algorithm", clean_value signature_algorithm)
    ] in
    Ok (dict_set result "expiry_status"
          (expiry_status (get result "days_remaining"))).

End CertificateInfoResource.

(** ** class HeartbeatResource *)

(** The tier of a latency, shared by the heartbeat and the monitor
    statistics: [v != "-" and isinstance(v, (int, float))], then the
    thresholds. *)
Definition ping_tier (v : pyval) : pyval :=
  match (if not_sentinel v then as_num v else None) with
  | Some n =>
      if num_lt n (NInt 100) then VStr "excellent"
      else if num_lt n (NInt 300) then VStr "good"
      else if num_lt n (NInt 600) then VStr "fair"
      else VStr "poor"
  | None => VStr "-"
  end.

Module HeartbeatResource.

(** The body of [transform] once [heartbeat] is known to be a dict. *)
Definition transform_dict (heartbeat : dict) : dict :=
  let monitor_id := get_or heartbeat "monitor_id" (get heartbeat "monitorID") in
  let result := dict_of [
    ("id", clean_value (get heartbeat "id"));
    ("monitor_id", clean_value monitor_id);
    ("status", clean_value (get heartbeat "status"));
    ("time", clean_value (get heartbeat "time"));
    ("msg", clean_value (get heartbeat "msg"));
    ("ping", clean_value (get heartbeat "ping"));
    ("duration", clean_value (get heartbeat "duration"));
    ("important", VBool (truthy (get_or heartbeat "important" (VBool false))));
    ("down_count", clean_value (get_or heartbeat "down_count" (VInt 0)))
  ] in
  dict_set result "ping_quality" (ping_tier (get result "ping")).

Definition transform (heartbeat : pyval) : res dict :=
  if negb (truthy heartbeat) then Ok []
  else
    match heartbeat with
    | VDict hb => Ok (transform_dict hb)
    | _ => Raise AttributeError
    end.

End HeartbeatResource.

(** ** class UptimeKumaInfoResource *)

Module UptimeKumaInfoResource.

Definition normalize (info : dict) : dict :=
  fold_left
    (fun result kv => dict_set result (camel_to_snake (fst kv))
                        (clean_value (snd kv)))
    info [].

Definition memory_usage (result : dict) : res dict :=
  if has_key result "mem_total" && has_key result "mem_used" then
    if not_sentinel (get result "mem_total")
       && not_sentinel (get result "mem_used")
    then
      do pct <- try_except
                  (do q <- py_truediv (get result "mem_used")
                             (get result "mem_total");
                   do x <- py_mul q (VInt 100);
                   py_round x 2)
                  [TypeError; ZeroDivisionError] (VStr "-");
      Ok (dict_set result "memory_usage_percent" pct)
    else Ok (dict_set result "memory_usage_percent" (VStr "-"))
  else Ok result.

Definition transform (info : pyval) : res dict :=
  if negb (truthy info) then Ok []
  else
    match info with
    | VDict d => memory_usage (normalize d)
    | _ => Raise AttributeError
    end.

End UptimeKumaInfoResource.

(** ** class UptimeResource *)

Module UptimeResource.

(** First loop, one period: the cleaned ratio and its percentage. *)
Definition add_percent (result : dict) (period : string) (value : pyval)
  : res dict :=
  let cv := clean_value value in
  let result := dict_set result (period ++ "h") cv in
  if not_sentinel cv then
    do x <- py_mul value (VInt 100);
    do pct <- py_round x 2;
    Ok (dict_set result (period ++ "h_percent") pct)
  else Ok (dict_set result (period ++ "h_percent") (VStr "-")).

Definition quality (pct : pyval) : res pyval :=
  do b1 <- py_test num_ge pct (float_lit 999 10);
  if b1 then Ok (VStr "excellent")
  else
    do b2 <- py_test num_ge pct (float_lit 99 1);
    if b2 then Ok (VStr "good")
    else
      do b3 <- py_test num_ge pct (float_lit 95 1);
      if b3 then Ok (VStr "fair") else Ok (VStr "poor").

(** Second loop, one period: the quality tier. *)
Definition add_quality (result : dict) (period : string) : res dict :=
  let percent_key := period ++ "h_percent" in
  if has_key result percent_key && not_sentinel (get result percent_key)
  then
    do q <- quality (get result percent_key);
    Ok (dict_set result (period ++ "h_quality") q)
  else Ok (dict_set result (period ++ "h_quality") (VStr "-")).

Definition transform (uptime : pyval) : res dict :=
  if negb (truthy uptime) then Ok []
  else
    match uptime with
    | VDict u =>
        do result <- fold_left
                       (fun acc kv =>
                          do r <- acc; add_percent r (fst kv) (snd kv))
                       u (Ok []);
        fold_left (fun acc kv => do r <- acc; add_quality r (fst kv))
          u (Ok result)
    | _ => Raise AttributeError
    end.

End UptimeResource.

(** ** class MonitorStatisticsResource *)

Definition is_none (v : pyval) : bool :=
  match v with VNone => true | _ => false end.

(** The receiver of a method call on a dict. *)
Definition as_dict (v : pyval) : res dict :=
  match v with
  | VDict d => Ok d
  | _ => Raise AttributeError
  end.

Module MonitorStatisticsResource.

(** [[hb.get("ping") for hb in all_heartbeats if hb.get("ping") is not None]] *)
Definition valid_pings (all_heartbeats : list pyval) : res (list pyval) :=
  do pings <- mapM (fun hb => py_get hb "ping") all_heartbeats;
  Ok (filter (fun p => negb (is_none p)) pings).

(** [sum(valid_pings) / len(valid_pings) if valid_pings else None] *)
Definition average (valid_pings : list pyval) : res pyval :=
  match valid_pings with
  | [] => Ok VNone
  | _ =>
      do s <- py_sum valid_pings;
      py_truediv s (VInt (Z.of_nat (List.length valid_pings)))
  end.

(** Adjacent pairs of [heartbeats] whose statuses differ. *)
Fixpoint status_changes (heartbeats : list pyval) : res Z :=
  match heartbeats with
  | prev :: (cur :: _) as rest =>
      do a <- py_get cur "status";
      do b <- py_get prev "status";
      do n <- status_changes rest;
      Ok (if py_eq a b then n else n + 1)
  | _ => Ok 0
  end.

(** The time of the first heartbeat flagged important, else None. *)
Fixpoint last_status_change_time (heartbeats : list pyval) : res pyval :=
  match heartbeats with
  | [] => Ok VNone
  | hb :: rest =>
      do imp <- py_get_or hb "important" (VBool false);
      if truthy imp then py_get hb "time"
      else last_status_change_time rest
  end.

Definition ping_stability (rt : Runtime) (valid_pings : list pyval)
  : res pyval :=
  if (1 <? Z.of_nat (List.length valid_pings)) then
    try_except
      (do sd <- stdev rt valid_pings; py_round (VFloat sd) 2)
      [StatisticsError] (VStr "-")
  else Ok (VStr "-").

(** The key of the first sort: the parsed time, or [datetime.min] when the
    time is falsy or the sentinel. *)
Definition time_key (rt : Runtime) (x : pyval) : res datetime :=
  do t <- py_get x "time";
  if truthy t && not_sentinel t then
    match t with
    | VStr s =>
        match fromisoformat rt s with
        | Some d => Ok d
        | None => Raise ValueError
        end
    | _ => Raise TypeError
    end
  else Ok datetime_min.

(** The key of the fallback sort: [x.get("time", "")]. *)
Definition raw_time_key (x : pyval) : res pyval :=
  py_get_or x "time" (VStr "").

Definition datetime_lt (a b : datetime) : res bool := Ok (N.ltb a b).

(** The sort of the merged heartbeats, newest first; any exception of the
    first sort switches the whole list to the comparison of raw values. *)
Definition sort_combined (rt : Runtime) (combined : list pyval)
  : res (list pyval) :=
  match combined with
  | [] => Ok []
  | _ =>
      match list_sort datetime_lt (time_key rt) true combined with
      | Ok l => Ok l
      | Raise _ => list_sort py_lt raw_time_key true combined
      end
  end.

Definition log_entry (monitor_name : pyval) (hb : pyval) : res pyval :=
  do st <- py_get hb "status";
  do time_str <- py_get_or hb "time" (VStr "-");
  do message <- py_get_or hb "msg" (VStr "-");
  Ok (VDict (dict_of [
    ("name", monitor_name);
    ("status", VStr (if py_eq st (VInt 1) then "UP" else "DOWN"));
    ("time", time_str);
    ("message", message)
  ])).

Definition health_score (uptime_data : dict) (avg_ping_calculated : pyval)
  : res pyval :=
  if not_sentinel (get_or uptime_data "24h_percent" (VStr "-"))
     && not_sentinel avg_ping_calculated
  then
    try_except
      (do uptime_score <- py_mul (get uptime_data "24h_percent")
                            (float_lit 7 10);
       do tenth <- py_truediv avg_ping_calculated (VInt 10);
       do rest <- py_sub (VInt 100) tenth;
       do best <- py_max0 rest;
       do ping_score <- py_mul best (float_lit 3 10);
       do total <- py_add uptime_score ping_score;
       py_round total 1)
      [TypeError; ValueError] (VStr "-")
  else Ok (VStr "-").

(** The dict literal bound to [result]. *)
Definition result_literal (monitor : dict) (avg_ping avg_ping_calculated : pyval)
  (uptime_data cert : dict) (recent_heartbeats : list dict)
  (heartbeats_count : nat) (transformed_important_heartbeats : list dict)
  (important_heartbeats_count : nat) (changes : Z)
  (last_change stability : pyval) (log_entries : list pyval) : dict :=
  dict_of [
    ("id", clean_value (get monitor "id"));
    ("name", clean_value (get monitor "name"));
    ("url", clean_value (get monitor "url"));
    ("type", clean_value (get monitor "type"));
    ("description", clean_value (get monitor "description"));
    ("method", clean_value (get monitor "method"));
    ("status", VInt (if truthy (get monitor "active") then 1 else 0));
    ("active", VBool (truthy (get monitor "active")));
    ("maintenance", VBool (truthy (get monitor "maintenance")));
    ("interval", clean_value (get monitor "interval"));
    ("timeout", clean_value (get monitor "timeout"));
    ("avg_ping", clean_value avg_ping);
    ("avg_ping_calculated", clean_value avg_ping_calculated);
    ("uptime", VDict uptime_data);
    ("cert_info", VDict cert);
    ("recent_heartbeats", VList (map VDict recent_heartbeats));
    ("heartbeats_count", VInt (Z.of_nat heartbeats_count));
    ("important_heartbeats",
      VList (map VDict transformed_important_heartbeats));
    ("important_heartbeats_count", VInt (Z.of_nat important_heartbeats_count));
    ("tags", clean_value (get_or monitor "tags" (VList [])));
    ("notification_ids",
      clean_value (get_or monitor "notificationIDList" (VList [])));
    ("weight", clean_value (get monitor "weight"));
    ("accepted_statuscodes",
      clean_value (get_or monitor "accepted_statuscodes" (VList [])));
    ("maxredirects", clean_value (get monitor "maxredirects"));
    ("dns_resolve_type", clean_value (get monitor "dns_resolve_type"));
    ("dns_resolve_server", clean_value (get monitor "dns_resolve_server"));
    ("status_changes_count", VInt changes);
    ("last_status_change", clean_value last_change);
    ("ping_stability", stability);
    ("logs", VList log_entries)
  ].

Definition transform (rt : Runtime) (data : pyval) : res dict :=
  if negb (truthy data) then Ok []
  else
    do monitor <- py_get_or data "monitor" (VDict []);
    do heartbeats <- py_get_or data "heartbeats" (VList []);
    do important_heartbeats <-
      py_get_or data "important_heartbeats" (VList []);
    do hbs <- as_seq heartbeats;
    do recent_heartbeats <- mapM HeartbeatResource.transform (firstn 10 hbs);
    do ihbs <- as_seq important_heartbeats;
    do transformed_important_heartbeats <-
      mapM HeartbeatResource.transform (firstn 25 ihbs);
    do all_heartbeats <- seq_concat heartbeats important_heartbeats;
    do pings <- valid_pings all_heartbeats;
    do avg_ping_calculated <- average pings;
    do uptime <- py_get_or data "uptime" (VDict []);
    do uptime_data <- UptimeResource.transform uptime;
    do changes <- status_changes hbs;
    do last_change <- last_status_change_time hbs;
    do stability <- ping_stability rt pings;
    do combined_heartbeats <- sort_combined rt all_heartbeats;
    do monitor <- as_dict monitor;
    let monitor_name := get_or monitor "name" (VStr "Unknown") in
    do log_entries <- mapM (log_entry monitor_name) combined_heartbeats;
    do avg_ping <- py_get data "avg_ping";
    do cert_info <- py_get_or data "cert_info" (VDict []);
    do cert <- CertificateInfoResource.transform cert_info;
    let result :=
      result_literal monitor avg_ping avg_ping_calculated uptime_data cert
        recent_heartbeats (List.length hbs) transformed_important_heartbeats
        (List.length ihbs) changes last_change stability log_entries in
    let result :=
      dict_set result "ping_quality"
        (ping_tier (get result "avg_ping_calculated")) in
    do score <- health_score uptime_data (get result "avg_ping_calculated");
    Ok (dict_set result "health_score" score).

End MonitorStatisticsResource.

(** ** class AllMonitorsStatisticsResource *)

(** The dict returned for a non-empty input, one field per key. *)
Record FleetStatistics : Type := {
  uptime_kuma_info : dict;
  monitors : list dict;
  monitors_count : Z;
  up_monitors : list dict;
  down_monitors : list dict;
  maintenance_monitors : list dict;
  up_monitors_count : Z;
  down_monitors_count : Z;
  maintenance_monitors_count : Z;
  up_percentage : pyval;
  timestamp : string;
  avg_health_score : pyval;
  monitor_types : list pyval;
  monitors_by_type : list (pyval * Z);
  avg_response_time : pyval
}.

Module AllMonitorsStatisticsResource.

(** One iteration of the loop over [data["monitors"].items()]. *)
Definition monitor_entry (rt : Runtime) (item : string * pyval) : res dict :=
  do monitor_stats <- MonitorStatisticsResource.transform rt (snd item);
  do id <- int_of_string (fst item);
  Ok (dict_set monitor_stats "id" (VInt id)).

(** [x.get("name", "").lower()] *)
Definition name_key (m : dict) : res string :=
  match get_or m "name" (VStr "") with
  | VStr s => Ok (lower s)
  | _ => Raise AttributeError
  end.

Definition string_lt (a b : string) : res bool := Ok (String.ltb a b).

Definition in_maintenance (m : dict) : bool := truthy (get m "maintenance").

Definition is_up (m : dict) : bool :=
  py_eq (get m "status") (VInt 1) && negb (in_maintenance m).

Definition is_down (m : dict) : bool :=
  py_eq (get m "status") (VInt 0) && negb (in_maintenance m).

Definition up_view (m : dict) : res dict :=
  do uptime_24h <- py_get (get_or m "uptime" (VDict [])) "24h_percent";
  Ok (dict_of [
    ("id", get m "id");
    ("name", get m "name");
    ("url", get m "url");
    ("status", get m "status");
    ("active", get m "active");
    ("type", get m "type");
    ("avg_ping", get m "avg_ping_calculated");
    ("ping_quality", get m "ping_quality");
    ("uptime_24h", uptime_24h);
    ("health_score", get m "health_score")
  ]).

(** [seq[0]] *)
Definition first_item (v : pyval) : res pyval :=
  match v with
  | VList (x :: _) => Ok x
  | VStr (String c _) => Ok (VStr (String c EmptyString))
  | _ => Raise TypeError
  end.

(** [m.get("important_heartbeats")[0].get(k) if m.get("important_heartbeats") else "-"] *)
Definition first_important (m : dict) (k : string) : res pyval :=
  let ihb := get m "important_heartbeats" in
  if truthy ihb then do h <- first_item ihb; py_get h k
  else Ok (VStr "-").

Definition down_view (m : dict) : res dict :=
  do last_error <- first_important m "msg";
  do down_since <- first_important m "time";
  Ok (dict_of [
    ("id", get m "id");
    ("name", get m "name");
    ("url", get m "url");
    ("status", get m "status");
    ("active", get m "active");
    ("type", get m "type");
    ("last_error", last_error);
    ("down_since", down_since)
  ]).

Definition maintenance_view (m : dict) : dict :=
  dict_of [
    ("id", get m "id");
    ("name", get m "name");
    ("url", get m "url");
    ("status", get m "status");
    ("active", get m "active");
    ("type", get m "type")
  ].

(** The mean of [values] rounded to [ndigits]. *)
Definition mean (values : list pyval) (ndigits : Z) : res pyval :=
  do s <- py_sum values;
  do q <- py_truediv s (VInt (Z.of_nat (List.length values)));
  py_round q ndigits.

Definition avg_health (ms : list dict) : res pyval :=
  let health_scores :=
    map (fun m => get m "health_score")
      (filter (fun m => not_sentinel (get m "health_score")
                        && negb (in_maintenance m)) ms) in
  match health_scores with
  | [] => Ok (VStr "-")
  | _ => try_except (mean health_scores 1) [TypeError; ZeroDivisionError]
           (VStr "-")
  end.

Definition hashable (v : pyval) : bool :=
  match v with
  | VList _ | VDict _ => false
  | _ => true
  end.

(** The elements of a set, each kept once.  The order in which a set is
    iterated is not specified by Python; they are listed by first
    occurrence. *)
Fixpoint distinct (seen l : list pyval) : list pyval :=
  match l with
  | [] => []
  | x :: l' =>
      if existsb (py_eq x) seen then distinct seen l'
      else x :: distinct (x :: seen) l'
  end.

(** [set(m.get("type") for m in monitors if m.get("type") != "-")] *)
Definition type_set (ms : list dict) : res (list pyval) :=
  let types :=
    filter not_sentinel (map (fun m => get m "type") ms) in
  if forallb hashable types then Ok (distinct [] types)
  else Raise TypeError.

Definition count_of_type (ms : list dict) (t : pyval) : Z :=
  Z.of_nat (List.length (filter (fun m => py_eq (get m "type") t) ms)).

Definition response_time (ms : list dict) : res pyval :=
  let timed :=
    filter (fun m => not_sentinel (get m "avg_ping_calculated")
                     && negb (in_maintenance m)) ms in
  match timed with
  | [] => Ok (VStr "-")
  | _ => mean (map (fun m => get m "avg_ping_calculated") timed) 2
  end.

Definition percentage (up down : Z) : res pyval :=
  if 0 <? up + down then
    do q <- py_truediv (VInt up) (VInt (up + down));
    do x <- py_mul q (VInt 100);
    py_round x 2
  else Ok (VInt 0).

(** [None] stands for the empty dict returned on a falsy input. *)
Definition transform (rt : Runtime) (data : pyval)
  : res (option FleetStatistics) :=
  if negb (truthy data) then Ok None
  else
    do raw <- py_get_or data "monitors" (VDict []);
    do items <- as_dict raw;
    do unsorted <- mapM (monitor_entry rt) items;
    do ms <- list_sort string_lt name_key false unsorted;
    do ups <- mapM up_view (filter is_up ms);
    do downs <- mapM down_view (filter is_down ms);
    let maint := map maintenance_view (filter in_maintenance ms) in
    let current_time := now_isoformat rt in
    do health <- avg_health ms;
    do info_raw <- py_get_or data "uptime_kuma_info" (VDict []);
    do info <- UptimeKumaInfoResource.transform info_raw;
    let n_up := Z.of_nat (List.length ups) in
    let n_down := Z.of_nat (List.length downs) in
    do pct <- percentage n_up n_down;
    do types <- type_set ms;
    do types' <- type_set ms;
    let by_type := map (fun t => (t, count_of_type ms t)) types' in
    do response <- response_time ms;
    Ok (Some {|
      uptime_kuma_info := info;
      monitors := ms;
      monitors_count := Z.of_nat (List.length ms);
      up_monitors := ups;
      down_monitors := downs;
      maintenance_monitors := maint;
      up_monitors_count := n_up;
      down_monitors_count := n_down;
      maintenance_monitors_count := Z.of_nat (List.length maint);
      up_percentage := pct;
      timestamp := current_time;
      avg_health_score := health;
      monitor_types := types;
      monitors_by_type := by_type;
      avg_response_time := response
    |}).

End AllMonitorsStatisticsResource.

(** ** A runtime to run the transformers on examples *)

Definition digit_of (c : ascii) : option N :=
  if is_digit c then Some (N_of_ascii c - 48)%N else None.

Fixpoint number_of (cs : list ascii) (acc : N) : option N :=
  match cs with
  | [] => Some acc
  | c :: cs' =>
      match digit_of c with
      | Some d => number_of cs' (acc * 10 + d)%N
      | None => None
      end
  end.

(** Reads the layout [YYYY-MM-DD HH:MM:SS] (or with a [T]) that Uptime Kuma
    emits, into a number that grows with time and is 0 at
    [0001-01-01 00:00:00]; everything else is rejected. *)
Definition sample_fromisoformat (s : string) : option datetime :=
  match list_ascii_of_string s with
  | [y1; y2; y3; y4; a; m1; m2; b; d1; d2; sep; h1; h2; c; n1; n2; e; s1; s2] =>
      if Ascii.eqb a "-" && Ascii.eqb b "-" && Ascii.eqb c ":"
         && Ascii.eqb e ":" && (Ascii.eqb sep " " || Ascii.eqb sep "T")
      then
        match number_of [y1; y2; y3; y4] 0, number_of [m1; m2] 0,
              number_of [d1; d2] 0, number_of [h1; h2] 0,
              number_of [n1; n2] 0, number_of [s1; s2] 0 with
        | Some y, Some m, Some d, Some h, Some n, Some x =>
            if ((1 <=? y) && (1 <=? m) && (m <=? 12) && (1 <=? d)
                && (d <=? 31) && (h <? 24) && (n <? 60) && (x <? 60))%N
            then Some (((((y * 100 + m) * 100 + d) * 100 + h) * 100 + n)
                       * 100 + x - 10101000000)%N
            else None
        | _, _, _, _, _, _ => None
        end
      else None
  | _ => None
  end.

(** The sample standard deviation of finite numbers: the exact variance,
    rounded to a double, then its square root. *)
Definition sample_stdev (l : list pyval) : res spec_float :=
  do fins <- mapM (fun v =>
                     match as_num v with
                     | Some n =>
                         match extend n with
                         | XFin m e => Ok (m, e)
                         | _ => Raise ValueError
                         end
                     | None => Raise TypeError
                     end) l;
  let n := Z.of_nat (List.length fins) in
  if n <? 2 then Raise StatisticsError
  else
    let e0 := fold_right (fun me acc => Z.min (snd me) acc) 0 fins in
    let ms := map (fun me => fst me * 2 ^ (snd me - e0)) fins in
    let total := fold_right Z.add 0 ms in
    let squares := fold_right (fun m acc => m * m + acc) 0 ms in
    let variance :=
      nearest_quotient (n * squares - total * total)
        (n * (n - 1) * 2 ^ (- 2 * e0)) in
    Ok (SFsqrt prec emax variance).

Definition sample_runtime : Runtime := {|
  fromisoformat := sample_fromisoformat;
  now_isoformat := "2024-05-01T12:00:00";
  stdev := sample_stdev
|}.

(** ** Vocabulary of the specification *)

#[local] Set Warnings "-register-all".

(** What the specification asks of the normalizer on values: None and the
    empty string become the sentinel, every other leaf stays, and mappings
    and sequences are rebuilt entry by entry with the same keys. *)
Inductive cleaned : pyval -> pyval -> Prop :=
| cleaned_none : cleaned VNone SENTINEL
| cleaned_empty : cleaned (VStr "") SENTINEL
| cleaned_bool : forall b, cleaned (VBool b) (VBool b)
| cleaned_int : forall z, cleaned (VInt z) (VInt z)
| cleaned_float : forall f, cleaned (VFloat f) (VFloat f)
| cleaned_str : forall s, s <> "" -> cleaned (VStr s) (VStr s)
| cleaned_list : forall l l',
    Forall2 cleaned l l' -> cleaned (VList l) (VList l')
| cleaned_dict : forall d d',
    Forall2 (fun kv kv' => fst kv = fst kv' /\ cleaned (snd kv) (snd kv'))
      d d' ->
    cleaned (VDict d) (VDict d').

(** A snake_case key: lower-case letters, digits and underscores. *)
Fixpoint is_snake (s : string) : bool :=
  match s with
  | EmptyString => true
  | String c s' =>
      (is_lower c || is_digit c || Ascii.eqb c "_") && is_snake s'
  end.

Fixpoint no_upper (s : string) : bool :=
  match s with
  | EmptyString => true
  | String c s' => negb (is_upper c) && no_upper s'
  end.

(** Some leaf of the value is None. *)
Fixpoint has_none (v : pyval) : bool :=
  match v with
  | VNone => true
  | VList l => existsb has_none l
  | VDict d => existsb (fun kv => let '(_, x) := kv in has_none x) d
  | _ => false
  end.

(** No leaf of the value is None or the empty string. *)
Fixpoint normalized (v : pyval) : bool :=
  match v with
  | VNone => false
  | VStr s => negb (String.eqb s "")
  | VList l => forallb normalized l
  | VDict d => forallb (fun kv => let '(_, x) := kv in normalized x) d
  | _ => true
  end.

(** The monitor identifier a heartbeat is said to carry: the first
    non-missing of the values under [monitor_id] and [monitorID], the
    sentinel when both are missing. *)
Definition first_non_missing (heartbeat : dict) : pyval :=
  if negb (is_none (get heartbeat "monitor_id"))
  then clean_value (get heartbeat "monitor_id")
  else clean_value (get heartbeat "monitorID").

(** The key is absent or holds a dict. *)
Definition dict_or_absent (d : dict) (k : string) : bool :=
  match lookup d k with
  | None | Some (VDict _) => true
  | Some _ => false
  end.

(** A certificate payload whose nested objects, where present, are
    mappings: [certInfo], and inside it [subject] and [issuer]. *)
Definition cert_well_formed (cert_info : pyval) : bool :=
  negb (truthy cert_info) ||
  match cert_info with
  | VDict c =>
      match lookup c "certInfo" with
      | None => true
      | Some (VDict details) =>
          dict_or_absent details "subject" && dict_or_absent details "issuer"
      | Some _ => false
      end
  | _ => false
  end.

Definition certificate_keys : list string :=
  ["valid"; "subject_cn"; "subject_c"; "subject_st"; "subject_l";
   "subject_o"; "issuer_cn"; "issuer_c"; "issuer_o"; "subject_alt_name";
   "info_access"; "valid_from"; "valid_to"; "days_remaining"; "fingerprint";
   "serial_number"; "signature_algorithm"; "expiry_status"].

(** The stages a successful run of [transform] went through. *)
Inductive stages (rt : Runtime) (d : dict) (out : dict) : Prop :=
| Stages : forall (monitor : dict) (hbs ihbs all pings : list pyval)
    (avg : pyval) (uptime_data : dict) (stability : pyval)
    (combined logs : list pyval) (score : pyval),
    get_or d "monitor" (VDict []) = VDict monitor ->
    as_seq (get_or d "heartbeats" (VList [])) = Ok hbs ->
    as_seq (get_or d "important_heartbeats" (VList [])) = Ok ihbs ->
    seq_concat (get_or d "heartbeats" (VList []))
      (get_or d "important_heartbeats" (VList [])) = Ok all ->
    MonitorStatisticsResource.valid_pings all = Ok pings ->
    MonitorStatisticsResource.average pings = Ok avg ->
    UptimeResource.transform (get_or d "uptime" (VDict [])) = Ok uptime_data ->
    MonitorStatisticsResource.ping_stability rt pings = Ok stability ->
    MonitorStatisticsResource.sort_combined rt all = Ok combined ->
    mapM (MonitorStatisticsResource.log_entry (get_or monitor "name" (VStr "Unknown"))) combined
      = Ok logs ->
    MonitorStatisticsResource.health_score uptime_data (clean_value avg) = Ok score ->
    get out "avg_ping_calculated" = clean_value avg ->
    get out "ping_quality" = ping_tier (clean_value avg) ->
    get out "ping_stability" = stability ->
    get out "uptime" = VDict uptime_data ->
    get out "logs" = VList logs ->
    get out "health_score" = score ->
    get out "status"
      = VInt (if truthy (get monitor "active") then 1 else 0) ->
    get out "maintenance" = VBool (truthy (get monitor "maintenance")) ->
    get out "name" = clean_value (get monitor "name") ->
    stages rt d out.

(** The input contract of the monitor statistics aggregator: a non-empty
    bundle whose sections, where present, have the expected kinds.  The
    monitor is a mapping, the two heartbeat sections are lists of mappings
    whose time is a string when present, the uptime section maps each window
    to a number or a missing value, and the certificate section is well
    formed. *)
Definition heartbeat_ok (hb : pyval) : bool :=
  match hb with
  | VDict h =>
      match lookup h "time" with
      | None | Some (VStr _) => true
      | Some _ => false
      end
  | _ => false
  end.

Definition heartbeat_list (v : pyval) : bool :=
  match v with
  | VList l => forallb heartbeat_ok l
  | _ => false
  end.

Definition ratio_ok (v : pyval) : bool :=
  is_number v || is_none v
  || match v with
     | VStr s => String.eqb s "" || String.eqb s "-"
     | _ => false
     end.

Definition uptime_well_formed (u : pyval) : bool :=
  negb (truthy u) ||
  match u with
  | VDict ud => forallb (fun kv => ratio_ok (snd kv)) ud
  | _ => false
  end.

Definition is_dict (v : pyval) : bool :=
  match v with VDict _ => true | _ => false end.

Definition bundle_well_formed (data : pyval) : bool :=
  match data with
  | VDict d =>
      truthy data
      && is_dict (get_or d "monitor" (VDict []))
      && heartbeat_list (get_or d "heartbeats" (VList []))
      && heartbeat_list (get_or d "important_heartbeats" (VList []))
      && uptime_well_formed (get_or d "uptime" (VDict []))
      && cert_well_formed (get_or d "cert_info" (VDict []))
  | _ => false
  end.

(** No heartbeat of the section carries a ping other than None. *)
Definition pingless (v : pyval) : bool :=
  match v with
  | VList l =>
      forallb (fun hb =>
                 match hb with
                 | VDict h => is_none (get h "ping")
                 | _ => false
                 end) l
  | _ => false
  end.

Definition no_valid_ping (data : pyval) : bool :=
  match data with
  | VDict d =>
      pingless (get_or d "heartbeats" (VList []))
      && pingless (get_or d "important_heartbeats" (VList []))
  | _ => false
  end.

(** The health score as the specification writes it:
    [round(0.7 * p + 0.3 * max(0, 100 - a / 10), 1)]. *)
Definition HealthScore (p a : pyval) : res pyval :=
  do uptime_part <- py_mul (float_lit 7 10) p;
  do tenth <- py_truediv a (VInt 10);
  do rest <- py_sub (VInt 100) tenth;
  do best <- py_max0 rest;
  do ping_part <- py_mul (float_lit 3 10) best;
  do total <- py_add uptime_part ping_part;
  py_round total 1.

Fixpoint last_char (s : string) : option ascii :=
  match s with
  | EmptyString => None
  | String c EmptyString => Some c
  | String _ s' => last_char s'
  end.

(** A bundle whose log leaks a missing message. *)
Definition leaky_bundle : pyval :=
  VDict [("monitor", VDict [("name", VStr "api")]);
         ("heartbeats",
          VList [VDict [("status", VInt 1);
                        ("time", VStr "2024-05-01 10:00:00");
                        ("msg", VNone);
                        ("ping", VInt 20)]])].

(** Every entry of an uptime record under a key ending in [t], as the
    percentage keys do, holds the sentinel or a number. *)
Definition percent_entries (r : dict) : Prop :=
  forall k v, lookup r k = Some v -> last_char k = Some "t"%char ->
              v = SENTINEL \/ is_number v = true.

(** The exceptions arithmetic on numbers can raise. *)
Definition arith_exn (e : exn) : Prop :=
  e = OverflowError \/ e = ZeroDivisionError.

(** A bundle with full uptime and a steady ping of 50 ms. *)
Definition healthy_bundle : pyval :=
  VDict [("monitor",
          VDict [("id", VInt 1); ("name", VStr "api"); ("type", VStr "http");
                 ("active", VBool true)]);
         ("heartbeats",
          VList [VDict [("status", VInt 1);
                        ("time", VStr "2024-05-01 10:01:00");
                        ("msg", VStr "200 - OK"); ("ping", VInt 50)];
                 VDict [("status", VInt 1);
                        ("time", VStr "2024-05-01 10:00:00");
                        ("msg", VStr "200 - OK"); ("ping", VInt 50)]]);
         ("important_heartbeats", VList []);
         ("uptime", VDict [("24", float_lit 1 1)]);
         ("avg_ping", VInt 50)].

Definition healthy_output : dict :=
  Eval vm_compute in
    match MonitorStatisticsResource.transform sample_runtime healthy_bundle with
    | Ok out => out
    | Raise _ => []
    end.

(** The raw time of a heartbeat as the fallback sort reads it: the string
    under [time], the empty string when there is none. *)
Definition raw_time (hb : pyval) : string :=
  match MonitorStatisticsResource.raw_time_key hb with
  | Ok (VStr s) => s
  | _ => EmptyString
  end.

(** The instant the first sort reads, for a heartbeat whose time parses. *)
Definition instant (rt : Runtime) (hb : pyval) : datetime :=
  match MonitorStatisticsResource.time_key rt hb with
  | Ok t => t
  | Raise _ => datetime_min
  end.

Definition parses (rt : Runtime) (hb : pyval) : Prop :=
  exists t, MonitorStatisticsResource.time_key rt hb = Ok t.

Definition str_of (v : pyval) : string :=
  match v with VStr s => s | _ => EmptyString end.

Definition str_key_ltb (a b : pyval) : bool :=
  String.ltb (str_of a) (str_of b).

Definition is_str (v : pyval) : Prop := exists s, v = VStr s.

(** Three heartbeats, the second with a time that is no ISO timestamp. *)
Definition corrupt_heartbeats : list pyval :=
  [VDict [("status", VInt 1); ("time", VStr "2024-05-01 10:00:00");
          ("msg", VStr "first")];
   VDict [("status", VInt 0); ("time", VStr "not-a-time");
          ("msg", VStr "second")];
   VDict [("status", VInt 1); ("time", VStr "2024-05-02 09:00:00");
          ("msg", VStr "third")]].

Definition corrupt_fields : dict :=
  [("monitor", VDict [("name", VStr "api")]);
   ("heartbeats", VList corrupt_heartbeats)].

Definition corrupt_output : dict :=
  Eval vm_compute in
    match MonitorStatisticsResource.transform sample_runtime
            (VDict corrupt_fields) with
    | Ok out => out
    | Raise _ => []
    end.

(** The same three heartbeats with the second time repaired. *)
Definition repaired_fields : dict :=
  [("monitor", VDict [("name", VStr "api")]);
   ("heartbeats",
    VList [VDict [("status", VInt 1); ("time", VStr "2024-05-01 10:00:00");
                  ("msg", VStr "first")];
           VDict [("status", VInt 0); ("time", VStr "2024-05-03 08:00:00");
                  ("msg", VStr "second")];
           VDict [("status", VInt 1); ("time", VStr "2024-05-02 09:00:00");
                  ("msg", VStr "third")]])].

(** A well-formed bundle none of whose heartbeats carries a ping. *)
Definition pingless_bundle : pyval :=
  VDict [("monitor", VDict [("name", VStr "api"); ("active", VBool true)]);
         ("heartbeats",
          VList [VDict [("status", VInt 1);
                        ("time", VStr "2024-05-01 10:01:00");
                        ("ping", VNone)];
                 VDict [("status", VInt 0);
                        ("time", VStr "2024-05-01 10:00:00")]]);
         ("important_heartbeats", VList []);
         ("uptime", VDict [("24", float_lit 999 1000)]);
         ("cert_info", VNone)].

(** The up percentage as the specification writes it:
    [round(up / (up + down) * 100, 2)]. *)
Definition UpPercentage (up down : Z) : res pyval :=
  do q <- py_truediv (VInt up) (VInt (up + down));
  do x <- py_mul q (VInt 100);
  py_round x 2.

(** The groups a transformed monitor belongs to. *)
Definition group_count (m : dict) : nat :=
  ((if AllMonitorsStatisticsResource.is_up m then 1 else 0)
   + (if AllMonitorsStatisticsResource.is_down m then 1 else 0)
   + (if AllMonitorsStatisticsResource.in_maintenance m then 1 else 0))%nat.

(** What a successful run of the fleet aggregator establishes. *)
Inductive fleet_run (rt : Runtime) (data : pyval) (f : FleetStatistics)
  : Prop :=
| FleetRun : forall (items : dict) (unsorted : list dict),
    py_get_or data "monitors" (VDict []) = Ok (VDict items) ->
    mapM (AllMonitorsStatisticsResource.monitor_entry rt) items
      = Ok unsorted ->
    list_sort AllMonitorsStatisticsResource.string_lt
      AllMonitorsStatisticsResource.name_key false unsorted
      = Ok (monitors f) ->
    mapM AllMonitorsStatisticsResource.up_view
      (filter AllMonitorsStatisticsResource.is_up (monitors f))
      = Ok (up_monitors f) ->
    mapM AllMonitorsStatisticsResource.down_view
      (filter AllMonitorsStatisticsResource.is_down (monitors f))
      = Ok (down_monitors f) ->
    maintenance_monitors f
      = map AllMonitorsStatisticsResource.maintenance_view
          (filter AllMonitorsStatisticsResource.in_maintenance (monitors f)) ->
    monitors_count f = Z.of_nat (List.length (monitors f)) ->
    up_monitors_count f = Z.of_nat (List.length (up_monitors f)) ->
    down_monitors_count f = Z.of_nat (List.length (down_monitors f)) ->
    maintenance_monitors_count f
      = Z.of_nat (List.length (maintenance_monitors f)) ->
    AllMonitorsStatisticsResource.percentage (up_monitors_count f)
      (down_monitors_count f) = Ok (up_percentage f) ->
    AllMonitorsStatisticsResource.response_time (monitors f)
      = Ok (avg_response_time f) ->
    fleet_run rt data f.

(** The transformed monitor [m] stems from a non-empty bundle of the input,
    whose raw monitor decides its status and its maintenance flag. *)
Definition from_bundle (items : dict) (m : dict) : Prop :=
  exists (key : string) (d monitor : dict),
    In (key, VDict d) items /\
    get_or d "monitor" (VDict []) = VDict monitor /\
    get m "status" = VInt (if truthy (get monitor "active") then 1 else 0) /\
    get m "maintenance" = VBool (truthy (get monitor "maintenance")).

(** A fleet of three monitors up, one down and two in maintenance. *)
Definition fleet_member (name : string) (active maintenance : bool) : pyval :=
  VDict [("monitor",
          VDict [("name", VStr name); ("type", VStr "http");
                 ("active", VBool active);
                 ("maintenance", VBool maintenance)]);
         ("heartbeats", VList []);
         ("important_heartbeats", VList [])].

Definition fleet_of_six : pyval :=
  VDict [("monitors",
          VDict [("1", fleet_member "api" true false);
                 ("2", fleet_member "web" true false);
                 ("3", fleet_member "db" true false);
                 ("4", fleet_member "mail" false false);
                 ("5", fleet_member "cache" true true);
                 ("6", fleet_member "queue" false true)])].

Definition fleet_of_six_output : FleetStatistics :=
  Eval vm_compute in
    match AllMonitorsStatisticsResource.transform sample_runtime
            fleet_of_six with
    | Ok (Some f) => f
    | _ => Build_FleetStatistics [] [] 0 [] [] [] 0 0 0 VNone "" VNone [] []
             VNone
    end.

(** A fleet with no monitor at all. *)
Definition fleet_of_none : pyval := VDict [("monitors", VDict [])].

(** [x] may stand before [y] in a descending arrangement by keys: its key
    is not smaller. *)
Definition not_below {K A : Type} (ltb : K -> K -> bool) (x y : K * A)
  : Prop :=
  ltb (fst x) (fst y) = false.

(** ** Vocabulary of the further properties *)

(** The string without its underscores. *)
Fixpoint strip_underscores (s : string) : string :=
  match s with
  | EmptyString => EmptyString
  | String c s' =>
      if Ascii.eqb c "_" then strip_underscores s'
      else String c (strip_underscores s')
  end.

Definition heartbeat_keys : list string :=
  ["id"; "monitor_id"; "status"; "time"; "msg"; "ping"; "duration";
   "important"; "down_count"; "ping_quality"].

(** Every key of the record is free of upper-case letters and every value
    free of None and of the empty string. *)
Definition tidy (r : dict) : Prop :=
  Forall (fun kv => no_upper (fst kv) = true /\ normalized (snd kv) = true) r.

(** The percentage stored for a ratio, and the tier stored for the entry
    found under a percentage key. *)
Definition percent_of (value : pyval) : res pyval :=
  if not_sentinel (clean_value value) then
    do x <- py_mul value (VInt 100); py_round x 2
  else Ok (VStr "-").

Definition tier_of (entry : option pyval) : res pyval :=
  match entry with
  | Some pct =>
      if not_sentinel pct then UptimeResource.quality pct else Ok (VStr "-")
  | None => Ok (VStr "-")
  end.


(** The cleaned value of the last entry of the mapping whose key has the
    snake-case name [k]. *)
Fixpoint latest (m : dict) (k : string) : option pyval :=
  match m with
  | [] => None
  | (k', v) :: m' =>
      match latest m' k with
      | Some x => Some x
      | None =>
          if String.eqb (camel_to_snake k') k then Some (clean_value v)
          else None
      end
  end.

(** A list as it is, anything else as the empty list. *)
Definition as_list (v : pyval) : pyval := if is_list v then v else VList [].

Definition flag_keys : list string :=
  ["active"; "force_inactive"; "status"; "maintenance"].

(** Every value of the record is free of None and of the empty string. *)
Definition clean_entries (r : dict) : Prop :=
  Forall (fun kv => normalized (snd kv) = true) r.

(** What a returning run of [MonitorStatisticsResource.transform] on the
    bundle [d] went through, and the record it built. *)
Inductive run (rt : Runtime) (d : dict) (out : dict) : Prop :=
| Run : forall (monitor : dict) (hbs ihbs all pings : list pyval)
    (recent important : list dict) (avg : pyval) (uptime_data cert : dict)
    (changes : Z) (last_change stability : pyval)
    (combined logs : list pyval) (score : pyval),
    get_or d "monitor" (VDict []) = VDict monitor ->
    as_seq (get_or d "heartbeats" (VList [])) = Ok hbs ->
    as_seq (get_or d "important_heartbeats" (VList [])) = Ok ihbs ->
    mapM HeartbeatResource.transform (firstn 10 hbs) = Ok recent ->
    mapM HeartbeatResource.transform (firstn 25 ihbs) = Ok important ->
    seq_concat (get_or d "heartbeats" (VList []))
      (get_or d "important_heartbeats" (VList [])) = Ok all ->
    MonitorStatisticsResource.valid_pings all = Ok pings ->
    MonitorStatisticsResource.average pings = Ok avg ->
    UptimeResource.transform (get_or d "uptime" (VDict [])) = Ok uptime_data ->
    MonitorStatisticsResource.status_changes hbs = Ok changes ->
    MonitorStatisticsResource.last_status_change_time hbs = Ok last_change ->
    MonitorStatisticsResource.ping_stability rt pings = Ok stability ->
    MonitorStatisticsResource.sort_combined rt all = Ok combined ->
    mapM (MonitorStatisticsResource.log_entry
            (get_or monitor "name" (VStr "Unknown"))) combined = Ok logs ->
    CertificateInfoResource.transform (get_or d "cert_info" (VDict []))
      = Ok cert ->
    MonitorStatisticsResource.health_score uptime_data (clean_value avg)
      = Ok score ->
    out = dict_set
            (dict_set
               (MonitorStatisticsResource.result_literal monitor
                  (get d "avg_ping") avg uptime_data cert recent
                  (List.length hbs) important (List.length ihbs) changes
                  last_change stability logs)
               "ping_quality" (ping_tier (clean_value avg)))
            "health_score" score ->
    run rt d out.

(** The key by which the fleet orders a monitor record: its name in lower
    case (the empty string for a record without a name). *)
Definition lower_name (m : dict) : string :=
  match get_or m "name" (VStr "") with
  | VStr s => lower s
  | _ => ""
  end.

(** [a] may stand before [b] in the fleet: [b]'s name is not smaller. *)
Definition name_ordered (a b : dict) : Prop :=
  String.ltb (lower_name b) (lower_name a) = false.

(** The record the fleet makes of one entry of the [monitors] mapping. *)
Definition entry_of (rt : Runtime) (item : string * pyval) (m : dict) : Prop :=
  exists (stats : dict) (id : Z),
    MonitorStatisticsResource.transform rt (snd item) = Ok stats /\
    int_of_string (fst item) = Ok id /\
    m = dict_set stats "id" (VInt id) /\
    get m "id" = VInt id.
(** * Properties *)

(** ** The field normalizer *)

Example camel_to_snake_ex1 :
  camel_to_snake "notificationIDList" = "notification_id_list".
Proof. reflexivity. Qed.

Example camel_to_snake_ex2 : camel_to_snake "forceInactive" = "force_inactive".
Proof. reflexivity. Qed.

Example camel_to_snake_ex3 : camel_to_snake "aBcDe" = "a_bc_de".
Proof. reflexivity. Qed.

Lemma clean_value_cleaned : forall v, cleaned v (clean_value v).
Proof.
  induction v using pyval_ind; simpl; try constructor.
  - destruct (String.eqb_spec s ""); subst; constructor; assumption.
  - induction H; simpl; constructor; auto.
  - induction H as [|[k x] d Hx Hd IH]; simpl; constructor; auto.
Qed.

Lemma cleaned_functional : forall v w, cleaned v w -> w = clean_value v.
Proof.
  induction v using pyval_ind; intros w Hc; inversion Hc; subst; simpl;
    try reflexivity.
  - destruct (String.eqb_spec s ""); congruence.
  - f_equal. clear Hc. rename H1 into HF. revert l' HF.
    induction H as [|x l Hx Hl IH]; intros l' HF; inversion HF; subst.
    + reflexivity.
    + simpl. f_equal; [apply Hx; assumption | apply IH; assumption].
  - f_equal. clear Hc. rename H1 into HF. revert d' HF.
    induction H as [|[k x] d Hx Hd IH]; intros d' HF; inversion HF; subst.
    + reflexivity.
    + match goal with
      | Hy : fst _ = fst ?y /\ _ |- _ =>
          destruct y as [k' x']; simpl in Hy; destruct Hy as [<- Hx']
      end.
      simpl. f_equal; [f_equal; apply Hx; assumption | apply IH; assumption].
Qed.

(** C6.  [clean_value] is defined on every value; its result replaces
    exactly the None and empty-string leaves by the sentinel, recursing
    through mappings and sequences, and keeps every other leaf and the shape
    of the input: the result is the one value the specification allows.  In
    particular False, 0 and the empty sequence and mapping are unchanged. *)
Theorem clean_value_spec :
  forall v : pyval,
    cleaned v (clean_value v) /\
    (forall w, cleaned v w -> w = clean_value v) /\
    clean_value (VBool false) = VBool false /\
    clean_value (VInt 0) = VInt 0 /\
    clean_value (VList []) = VList [] /\
    clean_value (VDict []) = VDict [].
Proof.
  intro v. split; [apply clean_value_cleaned|].
  split; [apply cleaned_functional|].
  repeat split.
Qed.

Lemma clean_value_idempotent :
  forall v, clean_value (clean_value v) = clean_value v.
Proof.
  induction v using pyval_ind; simpl; try reflexivity.
  - destruct (String.eqb_spec s ""); simpl; [reflexivity|].
    destruct (String.eqb_spec s ""); congruence.
  - f_equal. induction H; simpl; [reflexivity|]. f_equal; assumption.
  - f_equal. induction H as [|[k x] d Hx Hd IH]; simpl; [reflexivity|].
    simpl in Hx. rewrite Hx. f_equal. assumption.
Qed.

Lemma to_lower_not_upper : forall c, is_upper (to_lower c) = false.
Proof.
  intros [[] [] [] [] [] [] [] []]; vm_compute; reflexivity.
Qed.

Lemma lower_no_upper : forall s, no_upper (lower s) = true.
Proof.
  induction s; simpl; [reflexivity|].
  rewrite to_lower_not_upper. assumption.
Qed.

Lemma lower_fixed : forall s, no_upper s = true -> lower s = s.
Proof.
  induction s; simpl; intros H; [reflexivity|].
  apply andb_prop in H. destruct H as [Hc Hs].
  unfold to_lower. destruct (is_upper a); [discriminate|].
  rewrite IHs by assumption. reflexivity.
Qed.

Lemma sub_word_cons : forall inrun c s1,
  sub_word inrun (String c s1) =
  if inrun && is_lower c then String c (sub_word true s1)
  else
    match s1 with
    | String u (String l _ as s2) =>
        if is_dot c && is_upper u && is_lower l
        then String c (String "_" (String u (sub_word true s2)))
        else String c (sub_word false s1)
    | _ => String c (sub_word false s1)
    end.
Proof. reflexivity. Qed.

Lemma sub_hump_cons : forall c s1,
  sub_hump (String c s1) =
  match s1 with
  | String u s2 =>
      if (is_lower c || is_digit c) && is_upper u
      then String c (String "_" (String u (sub_hump s2)))
      else String c (sub_hump s1)
  | EmptyString => String c EmptyString
  end.
Proof. reflexivity. Qed.

Lemma no_upper_head : forall u s, no_upper (String u s) = true ->
  is_upper u = false.
Proof.
  intros u s H. simpl in H. apply andb_prop in H. destruct H as [H _].
  destruct (is_upper u); [discriminate | reflexivity].
Qed.

Lemma no_upper_tail : forall u s, no_upper (String u s) = true ->
  no_upper s = true.
Proof.
  intros u s H. simpl in H. apply andb_prop in H. apply H.
Qed.

Lemma sub_word_fixed :
  forall s inrun, no_upper s = true -> sub_word inrun s = s.
Proof.
  induction s as [|c s1 IH]; intros inrun H; [reflexivity|].
  apply no_upper_tail in H.
  rewrite sub_word_cons, !IH by assumption.
  destruct (inrun && is_lower c); [reflexivity|].
  destruct s1 as [|u [|l s3]]; try reflexivity.
  rewrite (no_upper_head _ _ H), andb_false_r. reflexivity.
Qed.

Lemma sub_hump_fixed : forall s, no_upper s = true -> sub_hump s = s.
Proof.
  induction s as [|c s1 IH]; intros H; [reflexivity|].
  apply no_upper_tail in H.
  rewrite sub_hump_cons, IH by assumption.
  destruct s1 as [|u s2]; [reflexivity|].
  rewrite (no_upper_head _ _ H), andb_false_r. reflexivity.
Qed.

Lemma camel_to_snake_fixed :
  forall k, no_upper k = true -> camel_to_snake k = k.
Proof.
  intros k H. unfold camel_to_snake.
  destruct (String.eqb k ""); [reflexivity|].
  rewrite sub_word_fixed, sub_hump_fixed, lower_fixed by assumption.
  reflexivity.
Qed.

Lemma camel_to_snake_no_upper : forall k, no_upper (camel_to_snake k) = true.
Proof.
  intro k. unfold camel_to_snake.
  destruct (String.eqb_spec k ""); [subst; reflexivity|].
  apply lower_no_upper.
Qed.

Lemma is_snake_no_upper : forall s, is_snake s = true -> no_upper s = true.
Proof.
  induction s as [|c s IH]; simpl; intros H; [reflexivity|].
  apply andb_prop in H. destruct H as [Hc Hs].
  rewrite IH by assumption. rewrite andb_true_r.
  revert Hc. destruct c as [[] [] [] [] [] [] [] []]; vm_compute; congruence.
Qed.

(** C7.  The normalizer is idempotent: cleaning a cleaned value changes
    nothing, converting a converted key changes nothing, and a key that is
    already snake_case is left as it is. *)
Theorem normalizer_idempotent :
  forall (x : pyval) (k : string),
    clean_value (clean_value x) = clean_value x /\
    camel_to_snake (camel_to_snake k) = camel_to_snake k /\
    (is_snake k = true -> camel_to_snake k = k).
Proof.
  intros x k. split; [apply clean_value_idempotent|]. split.
  - apply camel_to_snake_fixed, camel_to_snake_no_upper.
  - intro H. apply camel_to_snake_fixed, is_snake_no_upper, H.
Qed.

Lemma normalizer_idempotent_witness :
  is_snake "mem_total" = true /\ camel_to_snake "mem_total" = "mem_total".
Proof.
  split; [reflexivity|].
  apply (proj2 (proj2 (normalizer_idempotent VNone "mem_total"))).
  reflexivity.
Defined.

(** ** The heartbeat transformer *)

Lemma clean_value_normalized : forall v, normalized (clean_value v) = true.
Proof.
  induction v using pyval_ind; simpl; try reflexivity.
  - destruct (String.eqb s "") eqn:E; simpl; [reflexivity|].
    rewrite E. reflexivity.
  - induction H; simpl; [reflexivity|]. rewrite H. assumption.
  - induction H as [|[k x] d Hx Hd IH]; simpl; [reflexivity|].
    simpl in Hx. rewrite Hx. assumption.
Qed.

Lemma truthy_dict_cons : forall kv d, truthy (VDict (kv :: d)) = true.
Proof. reflexivity. Qed.

(** C8, as the code has it.  The fallback from [monitor_id] to [monitorID]
    goes by the presence of the key, not by its value: the output is the
    cleaned value under [monitor_id] whenever that key is present, whatever
    it holds, and the cleaned value under [monitorID] (the sentinel when
    that is absent too) only when the key [monitor_id] is absent. *)
Theorem heartbeat_monitor_id :
  forall hb : dict,
    hb <> [] ->
    exists out,
      HeartbeatResource.transform (VDict hb) = Ok out /\
      get out "monitor_id" =
        clean_value (match lookup hb "monitor_id" with
                     | Some v => v
                     | None => get hb "monitorID"
                     end).
Proof.
  intros hb Hne. destruct hb as [|kv hb]; [congruence|].
  eexists. split; [reflexivity|].
  unfold HeartbeatResource.transform_dict, get at 1, get_or.
  reflexivity.
Qed.

Lemma heartbeat_monitor_id_witness :
  exists out,
    HeartbeatResource.transform (VDict [("monitorID", VInt 5)]) = Ok out /\
    get out "monitor_id" = VInt 5.
Proof.
  apply (heartbeat_monitor_id [("monitorID", VInt 5)]). discriminate.
Defined.

(** C8, as claimed, fails: a [monitor_id] key holding None hides the
    [monitorID] that is present. *)
Lemma heartbeat_monitor_id_shadowed :
  exists out,
    HeartbeatResource.transform
      (VDict [("monitor_id", VNone); ("monitorID", VInt 5)]) = Ok out /\
    get out "monitor_id" = VStr "-" /\
    first_non_missing [("monitor_id", VNone); ("monitorID", VInt 5)] = VInt 5.
Proof.
  eexists. split; [reflexivity|]. split; reflexivity.
Qed.

(** ** The certificate transformer *)

Lemma expiry_status_normalized :
  forall v, normalized (CertificateInfoResource.expiry_status v) = true.
Proof.
  intro v. unfold CertificateInfoResource.expiry_status.
  destruct (if not_sentinel v then as_num v else None); [|reflexivity].
  destruct (num_le n (NInt 0)); [reflexivity|].
  destruct (num_le n (NInt 7)); [reflexivity|].
  destruct (num_le n (NInt 30)); reflexivity.
Qed.

Lemma nested_ok : forall details outer inner,
  dict_or_absent details outer = true ->
  exists v, CertificateInfoResource.nested (VDict details) outer inner = Ok v.
Proof.
  intros details outer inner H.
  unfold CertificateInfoResource.nested, py_get_or, get_or, dict_or_absent in *.
  destruct (lookup details outer) as [[]|]; try discriminate;
    simpl; eexists; reflexivity.
Qed.

Lemma cert_transform_details :
  forall (c : dict) (details : dict),
    c <> [] ->
    get_or c "certInfo" (VDict []) = VDict details ->
    dict_or_absent details "subject" = true ->
    dict_or_absent details "issuer" = true ->
    exists r,
      CertificateInfoResource.transform (VDict c) = Ok r /\
      map fst r = certificate_keys /\
      forallb (fun kv => normalized (snd kv)) r = true.
Proof.
  intros c details Hne Hd Hs Hi.
  destruct c as [|kv c]; [congruence|].
  unfold CertificateInfoResource.transform.
  rewrite truthy_dict_cons. cbn [negb].
  unfold py_get_or at 1. rewrite Hd. cbn [bind].
  destruct (nested_ok details "subject" "CN" Hs) as [v1 ->].
  destruct (nested_ok details "subject" "C" Hs) as [v2 ->].
  destruct (nested_ok details "subject" "ST" Hs) as [v3 ->].
  destruct (nested_ok details "subject" "L" Hs) as [v4 ->].
  destruct (nested_ok details "subject" "O" Hs) as [v5 ->].
  destruct (nested_ok details "issuer" "CN" Hi) as [v6 ->].
  destruct (nested_ok details "issuer" "C" Hi) as [v7 ->].
  destruct (nested_ok details "issuer" "O" Hi) as [v8 ->].
  cbn [bind py_get py_get_or].
  eexists. split; [reflexivity|]. split; [reflexivity|].
  cbn -[clean_value CertificateInfoResource.expiry_status normalized].
  rewrite !clean_value_normalized, expiry_status_normalized. reflexivity.
Qed.

(** C9, as the code has it.  On a payload whose nested objects are mappings
    wherever they are present, [transform] raises nothing: a falsy payload
    gives the empty record, any other the flat record of its eighteen
    fields, none of which holds None or the empty string.  A nested object
    whose key is missing counts as the empty mapping. *)
Theorem certificate_transform_total :
  forall cert_info : pyval,
    cert_well_formed cert_info = true ->
    exists r,
      CertificateInfoResource.transform cert_info = Ok r /\
      (truthy cert_info = false -> r = []) /\
      (truthy cert_info = true -> map fst r = certificate_keys) /\
      forallb (fun kv => normalized (snd kv)) r = true.
Proof.
  intros cert_info Hwf. unfold cert_well_formed in Hwf.
  destruct (truthy cert_info) eqn:Ht.
  - simpl in Hwf. destruct cert_info as [| | | | | |c]; try discriminate.
    assert (Hne : c <> []) by (destruct c; [discriminate | congruence]).
    assert (Hcase : exists details,
               get_or c "certInfo" (VDict []) = VDict details /\
               dict_or_absent details "subject" = true /\
               dict_or_absent details "issuer" = true).
    { unfold get_or. destruct (lookup c "certInfo") as [[]|]; try discriminate.
      + apply andb_prop in Hwf. eexists. split; [reflexivity | exact Hwf].
      + exists []. repeat split. }
    destruct Hcase as (details & Hd & Hs & Hi).
    destruct (cert_transform_details c details Hne Hd Hs Hi) as (r & Hr & Hk & Hn).
    exists r. repeat split; try assumption; [discriminate | intros _; assumption].
  - exists []. unfold CertificateInfoResource.transform. rewrite Ht.
    repeat split. discriminate.
Qed.

Lemma certificate_transform_total_witness :
  exists r,
    CertificateInfoResource.transform
      (VDict [("valid", VBool true); ("days_remaining", VInt 12)]) = Ok r /\
    (truthy (VDict [("valid", VBool true); ("days_remaining", VInt 12)])
     = false -> r = []) /\
    (truthy (VDict [("valid", VBool true); ("days_remaining", VInt 12)])
     = true -> map fst r = certificate_keys) /\
    forallb (fun kv => normalized (snd kv)) r = true.
Proof.
  apply (certificate_transform_total
           (VDict [("valid", VBool true); ("days_remaining", VInt 12)])).
  reflexivity.
Defined.

(** C9, as claimed, fails: a nested [certInfo] that is present but is not a
    mapping makes [transform] raise. *)
Lemma certificate_transform_raises :
  CertificateInfoResource.transform
    (VDict [("valid", VBool true); ("certInfo", VNone)])
  = Raise AttributeError.
Proof. reflexivity. Qed.

(** ** Sequencing, mapping and sorting *)

Lemma bind_ok : forall (A B : Type) (m : res A) (k : A -> res B) (r : B),
  bind m k = Ok r -> exists x, m = Ok x /\ k x = Ok r.
Proof.
  intros A B [x|e] k r H;
    [exists x; split; [reflexivity | exact H] | discriminate].
Qed.

Ltac bind_inv H :=
  let x := fresh "x" in
  let E := fresh "E" in
  apply bind_ok in H; destruct H as (x & E & H).

Lemma mapM_Forall2 : forall (A B : Type) (f : A -> res B) l ys,
  mapM f l = Ok ys -> Forall2 (fun x y => f x = Ok y) l ys.
Proof.
  induction l as [|x l IH]; simpl; intros ys H.
  - inversion H. constructor.
  - bind_inv H. bind_inv H. inversion H; subst. constructor; auto.
Qed.

Lemma mapM_total : forall (A B : Type) (f : A -> res B) l,
  Forall (fun x => exists y, f x = Ok y) l -> exists ys, mapM f l = Ok ys.
Proof.
  induction 1 as [|x l [y Hy] _ [ys Hys]]; simpl.
  - eexists; reflexivity.
  - rewrite Hy, Hys. eexists; reflexivity.
Qed.

Lemma mapM_raise : forall (A B : Type) (f : A -> res B) l e,
  mapM f l = Raise e -> Exists (fun x => exists e', f x = Raise e') l.
Proof.
  induction l as [|x l IH]; simpl; intros e H; [discriminate|].
  destruct (f x) as [y|e'] eqn:E.
  - right. simpl in H. destruct (mapM f l) as [ys|e''] eqn:E'.
    + discriminate.
    + eapply IH. reflexivity.
  - left. exists e'. exact E.
Qed.

Lemma mapM_pure : forall (A B : Type) (g : A -> B) l,
  mapM (fun x => Ok (g x)) l = Ok (map g l).
Proof.
  induction l as [|x l IH]; simpl; [reflexivity|]. rewrite IH. reflexivity.
Qed.

Lemma mapM_ext : forall (A B : Type) (f g : A -> res B) l,
  Forall (fun x => f x = g x) l -> mapM f l = mapM g l.
Proof.
  induction 1 as [|x l Hx _ IH]; simpl; [reflexivity|].
  rewrite Hx, IH. reflexivity.
Qed.

Lemma mapM_length : forall (A B : Type) (f : A -> res B) l ys,
  mapM f l = Ok ys -> List.length ys = List.length l.
Proof.
  intros A B f l ys H. apply mapM_Forall2 in H.
  induction H; simpl; congruence.
Qed.

Section SortFacts.
Context {K A : Type}.
Variable lt : K -> K -> res bool.

Lemma insert_desc_perm : forall (x : K * A) l l',
  insert_desc lt x l = Ok l' -> Permutation (x :: l) l'.
Proof.
  induction l as [|y r IH]; simpl; intros l' H.
  - inversion H. apply Permutation_refl.
  - bind_inv H. destruct x0.
    + bind_inv H. inversion H; subst.
      eapply perm_trans; [apply perm_swap|].
      apply perm_skip. apply IH. assumption.
    + inversion H. apply Permutation_refl.
Qed.

Lemma insert_asc_perm : forall (x : K * A) l l',
  insert_asc lt x l = Ok l' -> Permutation (x :: l) l'.
Proof.
  induction l as [|y r IH]; simpl; intros l' H.
  - inversion H. apply Permutation_refl.
  - bind_inv H. destruct x0.
    + bind_inv H. inversion H; subst.
      eapply perm_trans; [apply perm_swap|].
      apply perm_skip. apply IH. assumption.
    + inversion H. apply Permutation_refl.
Qed.

Lemma sort_keyed_perm : forall reverse (l s : list (K * A)),
  sort_keyed lt reverse l = Ok s -> Permutation l s.
Proof.
  induction l as [|x l IH]; simpl; intros s H.
  - inversion H. constructor.
  - bind_inv H.
    eapply perm_trans; [apply perm_skip, IH; eassumption|].
    destruct reverse; [eapply insert_desc_perm | eapply insert_asc_perm];
      eassumption.
Qed.

(** The keys on which the comparison is a decidable strict order. *)
Variable ltb : K -> K -> bool.
Variable P : K -> Prop.
Hypothesis lt_total : forall a b, P a -> P b -> lt a b = Ok (ltb a b).
Hypothesis ltb_asym : forall a b, ltb a b = true -> ltb b a = false.
Hypothesis ltb_negtrans :
  forall a b c, ltb a b = false -> ltb b c = false -> ltb a c = false.

Lemma insert_desc_sorted : forall (x : K * A) l,
  Forall (fun p => P (fst p)) (x :: l) ->
  StronglySorted (not_below ltb) l ->
  exists l', insert_desc lt x l = Ok l' /\ StronglySorted (not_below ltb) l'.
Proof.
  induction l as [|y r IH]; intros HP Hs; simpl.
  - eexists. split; [reflexivity|]. repeat constructor.
  - inversion HP as [|? ? Px HPl]; subst.
    inversion HPl as [|? ? Py HPr]; subst.
    inversion Hs as [|? ? Hsr Hyr]; subst.
    rewrite (lt_total _ _ Px Py). cbn [bind].
    destruct (ltb (fst x) (fst y)) eqn:E.
    + destruct (IH (Forall_cons _ Px HPr) Hsr) as (l' & Hl' & Hs').
      rewrite Hl'. cbn [bind]. eexists. split; [reflexivity|].
      constructor; [assumption|].
      apply insert_desc_perm in Hl'.
      eapply Permutation_Forall; [exact Hl'|].
      constructor; [apply ltb_asym; exact E | assumption].
    + eexists. split; [reflexivity|].
      constructor; [assumption|].
      constructor; [exact E|].
      eapply Forall_impl; [|exact Hyr].
      intros z Hz. eapply ltb_negtrans; [exact E | exact Hz].
Qed.

Lemma sort_keyed_desc_sorted : forall l : list (K * A),
  Forall (fun p => P (fst p)) l ->
  exists s, sort_keyed lt true l = Ok s /\ StronglySorted (not_below ltb) s.
Proof.
  induction l as [|x l IH]; intros HP; simpl.
  - eexists. split; [reflexivity | constructor].
  - inversion HP as [|? ? Px HPl]; subst.
    destruct (IH HPl) as (s & Hs & Hsorted). rewrite Hs. cbn [bind].
    apply insert_desc_sorted; [|assumption].
    constructor; [assumption|].
    eapply Permutation_Forall; [eapply sort_keyed_perm; exact Hs | assumption].
Qed.

Lemma insert_asc_total : forall (x : K * A) l,
  Forall (fun p => P (fst p)) (x :: l) ->
  exists l', insert_asc lt x l = Ok l'.
Proof.
  induction l as [|y r IH]; intros HP; simpl.
  - eexists; reflexivity.
  - inversion HP as [|? ? Px HPl]; subst.
    inversion HPl as [|? ? Py HPr]; subst.
    rewrite (lt_total _ _ Py Px). cbn [bind].
    destruct (ltb (fst y) (fst x)).
    + destruct (IH (Forall_cons _ Px HPr)) as (l' & Hl').
      rewrite Hl'. eexists; reflexivity.
    + eexists; reflexivity.
Qed.

Lemma sort_keyed_asc_total : forall l : list (K * A),
  Forall (fun p => P (fst p)) l -> exists s, sort_keyed lt false l = Ok s.
Proof.
  induction l as [|x l IH]; intros HP; simpl.
  - eexists; reflexivity.
  - inversion HP as [|? ? Px HPl]; subst.
    destruct (IH HPl) as (s & Hs). rewrite Hs. cbn [bind].
    apply insert_asc_total.
    constructor; [assumption|].
    eapply Permutation_Forall; [eapply sort_keyed_perm; exact Hs | assumption].
Qed.
End SortFacts.

Lemma keyed_snd : forall (K A : Type) (key : A -> res K) l ks,
  mapM (fun x => do k <- key x; Ok (k, x)) l = Ok ks ->
  map snd ks = l /\ Forall (fun p => key (snd p) = Ok (fst p)) ks.
Proof.
  induction l as [|x l IH]; simpl; intros ks H.
  - inversion H. split; constructor.
  - bind_inv H. bind_inv H. bind_inv E. inversion E; subst.
    inversion H; subst. destruct (IH _ E0) as [Hm Hf].
    simpl. split; [congruence|]. constructor; assumption.
Qed.

Lemma list_sort_perm :
  forall (K A : Type) (lt : K -> K -> res bool) (key : A -> res K)
         reverse l s,
    list_sort lt key reverse l = Ok s -> Permutation l s.
Proof.
  intros K A lt key reverse l s H. unfold list_sort in H.
  bind_inv H. bind_inv H. inversion H; subst.
  destruct (keyed_snd _ _ _ _ _ E) as [Hm _]. rewrite <- Hm.
  apply Permutation_map. eapply sort_keyed_perm. eassumption.
Qed.

(** ** The monitor statistics aggregator *)

Lemma transform_stages : forall rt data out,
  truthy data = true ->
  MonitorStatisticsResource.transform rt data = Ok out ->
  exists d, data = VDict d /\ stages rt d out.
Proof.
  intros rt data out Ht H. unfold MonitorStatisticsResource.transform in H.
  rewrite Ht in H. cbn [negb] in H.
  destruct data as [| | | | | |d]; try discriminate H.
  exists d. split; [reflexivity|].
  cbn [py_get_or py_get bind] in H.
  repeat bind_inv H.
  inversion H; subst out; clear H.
  destruct (get_or d "monitor" (VDict [])) eqn:Em; try discriminate.
  match goal with E : as_dict _ = Ok _ |- _ => inversion E; subst; clear E end.
  econstructor; try eassumption; reflexivity.
Qed.

(** C1, at an input where it fails.  A heartbeat whose message is None is
    cleaned in [recent_heartbeats], where the message becomes the sentinel,
    but is copied as it is into the log entry: the output has a None leaf. *)
Theorem monitor_logs_leak_none :
  forall rt : Runtime,
  exists out,
    MonitorStatisticsResource.transform rt leaky_bundle = Ok out /\
    get out "logs" =
      VList [VDict [("name", VStr "api"); ("status", VStr "UP");
                    ("time", VStr "2024-05-01 10:00:00");
                    ("message", VNone)]] /\
    has_none (VDict out) = true /\
    (exists hb, get out "recent_heartbeats" = VList [VDict hb] /\
                get hb "msg" = VStr "-").
Proof.
  intros [parse now sd].
  destruct (parse "2024-05-01 10:00:00") as [t|] eqn:E.
  - eexists. split.
    + vm_compute. rewrite E. vm_compute. reflexivity.
    + split; [reflexivity|]. split; [reflexivity|].
      eexists. split; reflexivity.
  - eexists. split.
    + vm_compute. rewrite E. vm_compute. reflexivity.
    + split; [reflexivity|]. split; [reflexivity|].
      eexists. split; reflexivity.
Qed.

Lemma lookup_dict_set : forall d k v k',
  lookup (dict_set d k v) k' = if String.eqb k k' then Some v else lookup d k'.
Proof.
  induction d as [|[k0 v0] d IH]; intros k v k'; simpl.
  - reflexivity.
  - destruct (String.eqb_spec k0 k) as [->|Hne]; simpl.
    + destruct (String.eqb k k'); reflexivity.
    + rewrite IH. destruct (String.eqb_spec k0 k') as [->|Hne'].
      * destruct (String.eqb_spec k k'); [congruence | reflexivity].
      * reflexivity.
Qed.

Lemma last_char_app : forall a b,
  b <> EmptyString -> last_char (a ++ b) = last_char b.
Proof.
  induction a as [|c a IH]; intros b Hb; [reflexivity|].
  simpl. rewrite IH by assumption.
  destruct (a ++ b)%string eqn:E; [|reflexivity].
  destruct a; simpl in E; [congruence | discriminate].
Qed.

Lemma fold_bind_raise : forall (A B : Type) (f : B -> A -> res B) l e,
  fold_left (fun acc x => do b <- acc; f b x) l (Raise e) = Raise e.
Proof. induction l; simpl; auto. Qed.

Lemma fold_bind_inv :
  forall (A B : Type) (f : B -> A -> res B) (Inv : B -> Prop) l r0 r,
    fold_left (fun acc x => do b <- acc; f b x) l (Ok r0) = Ok r ->
    Inv r0 ->
    (forall b x b', Inv b -> f b x = Ok b' -> Inv b') ->
    Inv r.
Proof.
  induction l as [|x l IH]; simpl; intros r0 r H H0 Hstep.
  - inversion H; subst; assumption.
  - destruct (f r0 x) as [b'|e] eqn:E.
    + eapply IH; [exact H | eapply Hstep; eassumption | exact Hstep].
    + rewrite fold_bind_raise in H. discriminate.
Qed.

Lemma fold_bind_total :
  forall (A B : Type) (f : B -> A -> res B) (Inv : B -> Prop)
         (Q : A -> Prop) l r0,
    Forall Q l ->
    Inv r0 ->
    (forall b x, Q x -> Inv b -> exists b', f b x = Ok b' /\ Inv b') ->
    exists r, fold_left (fun acc x => do b <- acc; f b x) l (Ok r0) = Ok r
              /\ Inv r.
Proof.
  induction l as [|x l IH]; simpl; intros r0 HQ H0 Hstep.
  - eexists; split; [reflexivity | assumption].
  - inversion HQ; subst.
    destruct (Hstep r0 x) as (b' & Hb & Hi); [assumption..|].
    rewrite Hb. apply IH; assumption.
Qed.

Lemma py_eq_sentinel : forall v, py_eq v SENTINEL = true <-> v = SENTINEL.
Proof.
  intro v. unfold SENTINEL. split.
  - destruct v as [|b|z|f|s|l|d]; simpl; try discriminate.
    intro H. apply String.eqb_eq in H. congruence.
  - intros ->. reflexivity.
Qed.

Lemma not_sentinel_true : forall v, not_sentinel v = true <-> v <> SENTINEL.
Proof.
  intro v. unfold not_sentinel. rewrite negb_true_iff.
  rewrite <- py_eq_sentinel. destruct (py_eq v SENTINEL); split; congruence.
Qed.

Lemma not_sentinel_false : forall v, not_sentinel v = false <-> v = SENTINEL.
Proof.
  intro v. unfold not_sentinel. rewrite negb_false_iff. apply py_eq_sentinel.
Qed.

Lemma py_round_number : forall v n r,
  py_round v n = Ok r -> is_number r = true.
Proof.
  intros v n r H. unfold py_round in H.
  destruct (as_num v) as [[z|f]|]; inversion H; reflexivity.
Qed.

Lemma percent_entries_set : forall r k v,
  percent_entries r ->
  (last_char k = Some "t"%char -> v = SENTINEL \/ is_number v = true) ->
  percent_entries (dict_set r k v).
Proof.
  intros r k v Hr Hv k' v' Hl Ht. rewrite lookup_dict_set in Hl.
  destruct (String.eqb_spec k k') as [->|Hne].
  - inversion Hl; subst. auto.
  - eauto.
Qed.

Lemma add_percent_entries : forall r p v r',
  percent_entries r ->
  UptimeResource.add_percent r p v = Ok r' -> percent_entries r'.
Proof.
  intros r p v r' Hr H. unfold UptimeResource.add_percent in H.
  assert (H1 : percent_entries (dict_set r (p ++ "h") (clean_value v))).
  { apply percent_entries_set; [assumption|].
    rewrite last_char_app by discriminate. discriminate. }
  destruct (not_sentinel (clean_value v)).
  - bind_inv H. bind_inv H. inversion H; subst.
    apply percent_entries_set; [assumption|].
    intros _. right. eapply py_round_number; eassumption.
  - inversion H; subst. apply percent_entries_set; [assumption|].
    intros _. left. reflexivity.
Qed.

Lemma add_quality_entries : forall r p r',
  percent_entries r ->
  UptimeResource.add_quality r p = Ok r' -> percent_entries r'.
Proof.
  intros r p r' Hr H. unfold UptimeResource.add_quality in H.
  destruct (has_key r (p ++ "h_percent")
            && not_sentinel (get r (p ++ "h_percent"))).
  - bind_inv H. inversion H; subst. apply percent_entries_set; [assumption|].
    rewrite last_char_app by discriminate. discriminate.
  - inversion H; subst. apply percent_entries_set; [assumption|].
    rewrite last_char_app by discriminate. discriminate.
Qed.

Lemma uptime_percent_entries : forall u r,
  UptimeResource.transform u = Ok r -> percent_entries r.
Proof.
  intros u r H. unfold UptimeResource.transform in H.
  destruct (negb (truthy u)).
  - inversion H. intros k v Hk. discriminate.
  - destruct u as [| | | | | |ud]; try discriminate.
    bind_inv H.
    eapply (fold_bind_inv _ _ (fun r kv => UptimeResource.add_quality r (fst kv)));
      [exact H | |].
    + eapply (fold_bind_inv _ _
               (fun r kv => UptimeResource.add_percent r (fst kv) (snd kv)));
        [exact E | |].
      * intros k v Hk. discriminate.
      * intros b kv b' Hb Hs. eapply add_percent_entries; eassumption.
    + intros b kv b' Hb Hs. eapply add_quality_entries; eassumption.
Qed.

Lemma uptime_24h_percent : forall u r,
  UptimeResource.transform u = Ok r ->
  get_or r "24h_percent" SENTINEL = SENTINEL \/
  is_number (get_or r "24h_percent" SENTINEL) = true.
Proof.
  intros u r H. apply uptime_percent_entries in H. unfold get_or.
  destruct (lookup r "24h_percent") as [v|] eqn:E; [|left; reflexivity].
  apply (H _ _ E). reflexivity.
Qed.

(** ** Arithmetic facts *)

Lemma to_float_raise : forall x e, to_float x = Raise e -> e = OverflowError.
Proof.
  intros [z|f] e H; simpl in H; [|discriminate].
  unfold float_of_Z, no_inf in H.
  destruct (binary_normalize prec emax z 0 false); congruence.
Qed.

Lemma SFmul_comm : forall x y,
  SFmul prec emax x y = SFmul prec emax y x.
Proof.
  intros [sx|sx| |sx mx ex] [sy|sy| |sy my ey]; simpl;
    try rewrite (xorb_comm sx sy); try reflexivity.
  rewrite (Pos.mul_comm mx my), (Z.add_comm ex ey). reflexivity.
Qed.

Lemma num_mul_comm : forall x y, num_mul x y = num_mul y x.
Proof.
  intros [a|f] [b|g]; simpl.
  - rewrite Z.mul_comm. reflexivity.
  - destruct (float_of_Z a); simpl; [rewrite SFmul_comm|]; reflexivity.
  - destruct (float_of_Z b); simpl; [rewrite SFmul_comm|]; reflexivity.
  - rewrite SFmul_comm. reflexivity.
Qed.

Lemma py_mul_comm : forall v w, py_mul v w = py_mul w v.
Proof.
  intros v w. unfold py_mul, py_arith.
  destruct (as_num v), (as_num w); try reflexivity.
  rewrite num_mul_comm. reflexivity.
Qed.

Lemma num_add_raise : forall x y e,
  num_add x y = Raise e -> arith_exn e.
Proof.
  intros [a|f] [b|g] e H; simpl in H; try discriminate;
    repeat match type of H with
      | context [float_of_Z ?z] =>
          let E := fresh "E" in
          destruct (float_of_Z z) eqn:E; simpl in H;
          [|left; apply (to_float_raise (NInt z)); simpl; congruence]
      end; discriminate.
Qed.

Lemma num_sub_raise : forall x y e,
  num_sub x y = Raise e -> arith_exn e.
Proof.
  intros [a|f] [b|g] e H; simpl in H; try discriminate;
    repeat match type of H with
      | context [float_of_Z ?z] =>
          let E := fresh "E" in
          destruct (float_of_Z z) eqn:E; simpl in H;
          [|left; apply (to_float_raise (NInt z)); simpl; congruence]
      end; discriminate.
Qed.

Lemma num_mul_raise : forall x y e,
  num_mul x y = Raise e -> arith_exn e.
Proof.
  intros [a|f] [b|g] e H; simpl in H; try discriminate;
    repeat match type of H with
      | context [float_of_Z ?z] =>
          let E := fresh "E" in
          destruct (float_of_Z z) eqn:E; simpl in H;
          [|left; apply (to_float_raise (NInt z)); simpl; congruence]
      end; discriminate.
Qed.

Lemma num_truediv_raise : forall x y e,
  num_truediv x y = Raise e -> arith_exn e.
Proof.
  intros [a|f] [b|g] e H; simpl in H.
  - unfold int_truediv, no_inf in H. destruct (b =? 0).
    + right. simpl in H. congruence.
    + destruct (nearest_quotient a b); simpl in H; try discriminate.
      left. congruence.
  - destruct (float_of_Z a) eqn:E; simpl in H.
    + destruct (is_fzero g); [right; congruence | discriminate].
    + left. apply (to_float_raise (NInt a)). simpl. congruence.
  - destruct (float_of_Z b) eqn:E; simpl in H.
    + destruct (is_fzero a); [right; congruence | discriminate].
    + left. apply (to_float_raise (NInt b)). simpl. congruence.
  - destruct (is_fzero g); [right; congruence | discriminate].
Qed.

Lemma num_truediv_float : forall x y r,
  num_truediv x y = Ok r -> exists f, r = NFloat f.
Proof.
  intros [a|f] [b|g] r H; simpl in H.
  - bind_inv H. inversion H. eexists; reflexivity.
  - bind_inv H. destruct (is_fzero g); inversion H. eexists; reflexivity.
  - bind_inv H. destruct (is_fzero x); inversion H. eexists; reflexivity.
  - destruct (is_fzero g); inversion H. eexists; reflexivity.
Qed.

Lemma is_number_of_num : forall n, is_number (of_num n) = true.
Proof. intros [z|f]; reflexivity. Qed.

(** An operator applied to two numbers returns a number or raises an
    arithmetic exception. *)
Lemma py_arith_cases : forall op v w,
  (forall x y e, op x y = Raise e -> arith_exn e) ->
  is_number v = true -> is_number w = true ->
  (exists r, py_arith op v w = Ok r /\ is_number r = true) \/
  (exists e, py_arith op v w = Raise e /\ arith_exn e).
Proof.
  intros op v w Hop Hv Hw. unfold py_arith, is_number in *.
  destruct (as_num v) as [x|]; [|discriminate].
  destruct (as_num w) as [y|]; [|discriminate].
  destruct (op x y) as [r|e] eqn:E; simpl.
  - left. eexists. split; [reflexivity | apply is_number_of_num].
  - right. eexists. split; [reflexivity | eapply Hop; eassumption].
Qed.

Lemma py_max0_number : forall v,
  is_number v = true ->
  exists r, py_max0 v = Ok r /\ is_number r = true.
Proof.
  intros v Hv. unfold py_max0, py_test. unfold is_number in Hv.
  destruct (as_num v) as [x|] eqn:E; [|discriminate]. simpl.
  destruct (num_gt x (NInt 0)); eexists; (split; [reflexivity|]).
  - unfold is_number. rewrite E. reflexivity.
  - reflexivity.
Qed.

Lemma py_round_total : forall v n,
  is_number v = true -> exists r, py_round v n = Ok r.
Proof.
  intros v n Hv. unfold py_round, is_number in *.
  destruct (as_num v) as [[z|f]|]; [eexists; reflexivity.. | discriminate].
Qed.

Lemma HealthScore_cases : forall p a,
  is_number p = true -> is_number a = true ->
  (exists r, HealthScore p a = Ok r) \/
  (exists e, HealthScore p a = Raise e /\ arith_exn e).
Proof.
  intros p a Hp Ha. unfold HealthScore.
  destruct (py_arith_cases num_mul (float_lit 7 10) p num_mul_raise eq_refl Hp)
    as [(u & Hu & Nu)|(e & He & Ae)]; fold py_mul in *;
    [rewrite Hu | rewrite He; right; eexists; split; [reflexivity | exact Ae]].
  cbn [bind].
  destruct (py_arith_cases num_truediv a (VInt 10) num_truediv_raise Ha eq_refl)
    as [(t & Ht & Nt)|(e & He & Ae)]; fold py_truediv in *;
    [rewrite Ht | rewrite He; right; eexists; split; [reflexivity | exact Ae]].
  cbn [bind].
  destruct (py_arith_cases num_sub (VInt 100) t num_sub_raise eq_refl Nt)
    as [(r & Hr & Nr)|(e & He & Ae)]; fold py_sub in *;
    [rewrite Hr | rewrite He; right; eexists; split; [reflexivity | exact Ae]].
  cbn [bind].
  destruct (py_max0_number r Nr) as (b & Hb & Nb). rewrite Hb. cbn [bind].
  destruct (py_arith_cases num_mul (float_lit 3 10) b num_mul_raise eq_refl Nb)
    as [(g & Hg & Ng)|(e & He & Ae)]; fold py_mul in *;
    [rewrite Hg | rewrite He; right; eexists; split; [reflexivity | exact Ae]].
  cbn [bind].
  destruct (py_arith_cases num_add u g num_add_raise Nu Ng)
    as [(s & Hs & Ns)|(e & He & Ae)]; fold py_add in *;
    [rewrite Hs | rewrite He; right; eexists; split; [reflexivity | exact Ae]].
  cbn [bind]. left. apply py_round_total. assumption.
Qed.

Lemma average_kind : forall pings avg,
  MonitorStatisticsResource.average pings = Ok avg ->
  avg = VNone \/ exists f, avg = VFloat f.
Proof.
  intros pings avg H. unfold MonitorStatisticsResource.average in H.
  destruct pings as [|p ps]; [inversion H; left; reflexivity|].
  right. bind_inv H. unfold py_truediv, py_arith in H.
  destruct (as_num x) as [n|]; [|discriminate]. cbn [as_num] in H.
  bind_inv H. inversion H; subst.
  apply num_truediv_float in E0. destruct E0 as [f ->].
  eexists; reflexivity.
Qed.

Lemma get_or_present : forall d k dflt,
  get_or d k dflt <> dflt -> get d k = get_or d k dflt.
Proof.
  intros d k dflt H. unfold get, get_or in *.
  destruct (lookup d k); [reflexivity | congruence].
Qed.

(** The score the code computes is the one of the specification. *)
Lemma health_score_refines : forall uptime_data a score,
  let p := get_or uptime_data "24h_percent" SENTINEL in
  (p = SENTINEL \/ is_number p = true) ->
  (a = SENTINEL \/ is_number a = true) ->
  MonitorStatisticsResource.health_score uptime_data a = Ok score ->
  (p <> SENTINEL -> a <> SENTINEL -> HealthScore p a = Ok score) /\
  (p = SENTINEL \/ a = SENTINEL -> score = SENTINEL).
Proof.
  intros uptime_data a score p Hp Ha H.
  unfold MonitorStatisticsResource.health_score in H.
  change (get_or uptime_data "24h_percent" (VStr "-")) with p in H.
  destruct (not_sentinel p) eqn:Np; destruct (not_sentinel a) eqn:Na;
    cbn [andb] in H;
    try apply not_sentinel_true in Np; try apply not_sentinel_false in Np;
    try apply not_sentinel_true in Na; try apply not_sentinel_false in Na.
  - split; [intros _ _ | intros [?|?]; congruence].
    rewrite (get_or_present uptime_data "24h_percent" SENTINEL Np) in H.
    fold p in H.
    assert (Hs : try_except (HealthScore p a) [TypeError; ValueError]
                   (VStr "-") = Ok score).
    { rewrite <- H. f_equal. unfold HealthScore.
      rewrite (py_mul_comm p).
      destruct (py_mul (float_lit 7 10) p); [|reflexivity]. cbn [bind].
      destruct (py_truediv a (VInt 10)); [|reflexivity]. cbn [bind].
      destruct (py_sub (VInt 100) a1); [|reflexivity]. cbn [bind].
      destruct (py_max0 a2); [|reflexivity]. cbn [bind].
      rewrite (py_mul_comm a3). reflexivity. }
    destruct Hp as [?|Hp]; [congruence|]. destruct Ha as [?|Ha]; [congruence|].
    destruct (HealthScore_cases p a Hp Ha) as [(r & Hr)|(e & He & [->| ->])];
      rewrite ?Hr, ?He in Hs; simpl in Hs; congruence.
  - inversion H. split; [congruence | reflexivity].
  - inversion H. split; [congruence | reflexivity].
  - inversion H. split; [congruence | reflexivity].
Qed.

(** C3.  For a non-empty bundle on which [transform] returns, the health
    score is [round(0.7 * p + 0.3 * max(0, 100 - a / 10), 1)] of the 24-hour
    percentage [p] and the calculated average ping [a] whenever neither is
    the sentinel, and the sentinel whenever one of them is; a percentage of
    100.0 with an average ping of 50 gives 98.5, and a sentinel percentage
    gives the sentinel. *)
Theorem health_score_formula :
  forall (rt : Runtime) (data : pyval) (out : dict),
    truthy data = true ->
    MonitorStatisticsResource.transform rt data = Ok out ->
    (exists uptime_data,
       get out "uptime" = VDict uptime_data /\
       let p := get_or uptime_data "24h_percent" SENTINEL in
       let a := get out "avg_ping_calculated" in
       (p <> SENTINEL -> a <> SENTINEL ->
        HealthScore p a = Ok (get out "health_score")) /\
       (p = SENTINEL \/ a = SENTINEL ->
        get out "health_score" = SENTINEL)) /\
    MonitorStatisticsResource.health_score
      [("24h_percent", float_lit 100 1)] (VInt 50) = Ok (float_lit 985 10) /\
    HealthScore (float_lit 100 1) (VInt 50) = Ok (float_lit 985 10) /\
    MonitorStatisticsResource.health_score
      [("24h_percent", SENTINEL)] (VInt 50) = Ok SENTINEL.
Proof.
  intros rt data out Ht H.
  split; [|repeat split; vm_compute; reflexivity].
  destruct (transform_stages rt data out Ht H) as (d & -> & S).
  destruct S as [monitor hbs ihbs all pings avg uptime_data stability
                 combined logs score Hm Hh Hi Ha Hp Havg Hu Hst Hc Hl Hs
                 Oavg Oq Ost Oup Ol Osc Ostat Omt Onm].
  exists uptime_data. split; [assumption|]. cbv zeta.
  rewrite Oavg, Osc.
  apply health_score_refines; [|
    | assumption].
  - eapply uptime_24h_percent; eassumption.
  - destruct (average_kind _ _ Havg) as [->|[f ->]];
      [left | right]; reflexivity.
Qed.

Lemma health_score_formula_witness :
  get healthy_output "health_score" = float_lit 985 10 /\
  HealthScore (float_lit 100 1) (float_lit 50 1)
  = Ok (get healthy_output "health_score").
Proof.
  assert (Ht : truthy healthy_bundle = true) by reflexivity.
  assert (Hr : MonitorStatisticsResource.transform sample_runtime
                 healthy_bundle = Ok healthy_output)
    by (vm_compute; reflexivity).
  destruct (health_score_formula sample_runtime healthy_bundle healthy_output
              Ht Hr) as [(u & Hu & Hp & _) _].
  split; [vm_compute; reflexivity|].
  assert (Eu : u = [("24h", float_lit 1 1); ("24h_percent", float_lit 100 1);
                    ("24h_quality", VStr "excellent")]).
  { vm_compute in Hu. vm_compute. congruence. }
  subst u. apply Hp; vm_compute; discriminate.
Defined.

(** ** Ordering facts *)

Lemma string_ltb_asym : forall a b,
  String.ltb a b = true -> String.ltb b a = false.
Proof.
  intros a b H. unfold String.ltb in *.
  rewrite String.compare_antisym.
  destruct (String.compare a b); simpl; congruence.
Qed.

Lemma string_ltb_negtrans : forall a b c,
  String.ltb a b = false -> String.ltb b c = false -> String.ltb a c = false.
Proof.
  intros a b c Hab Hbc. unfold String.ltb in *.
  destruct (String.compare a c) eqn:Eac; try reflexivity.
  exfalso. apply String_as_OT.cmp_lt in Eac.
  destruct (String.compare a b) eqn:Eab; try discriminate.
  - apply String_as_OT.cmp_eq in Eab. subst b.
    apply String_as_OT.cmp_lt in Eac. unfold String_as_OT.cmp in Eac.
    rewrite Eac in Hbc. discriminate.
  - assert (Hba : String_as_OT.lt b a).
    { apply String_as_OT.cmp_lt. unfold String_as_OT.cmp.
      rewrite String.compare_antisym, Eab. reflexivity. }
    pose proof (String_as_OT.lt_trans _ _ _ Hba Eac) as Hbc'.
    apply String_as_OT.cmp_lt in Hbc'. unfold String_as_OT.cmp in Hbc'.
    rewrite Hbc' in Hbc. discriminate.
Qed.

Lemma string_leb_ltb : forall a b,
  String.leb a b = true <-> String.ltb b a = false.
Proof.
  intros a b. unfold String.leb, String.ltb.
  rewrite (String.compare_antisym a b).
  destruct (String.compare b a); simpl; split; congruence.
Qed.

Lemma py_lt_str : forall a b,
  is_str a -> is_str b -> py_lt a b = Ok (str_key_ltb a b).
Proof. intros a b [s ->] [t ->]. reflexivity. Qed.

Lemma datetime_lt_total : forall a b : datetime,
  True -> True -> MonitorStatisticsResource.datetime_lt a b = Ok (N.ltb a b).
Proof. reflexivity. Qed.

Lemma N_ltb_asym : forall a b : N, N.ltb a b = true -> N.ltb b a = false.
Proof.
  intros a b H. apply N.ltb_lt in H. apply N.ltb_ge. lia.
Qed.

Lemma N_ltb_negtrans : forall a b c : N,
  N.ltb a b = false -> N.ltb b c = false -> N.ltb a c = false.
Proof.
  intros a b c H1 H2. apply N.ltb_ge in H1, H2. apply N.ltb_ge. lia.
Qed.

Lemma Forall_True : forall (A : Type) (l : list A), Forall (fun _ => True) l.
Proof. induction l; constructor; auto. Qed.

Lemma StronglySorted_map :
  forall (A B : Type) (f : A -> B) (R : A -> A -> Prop) (S : B -> B -> Prop) l,
    (forall x y, In x l -> In y l -> R x y -> S (f x) (f y)) ->
    StronglySorted R l -> StronglySorted S (map f l).
Proof.
  induction l as [|x l IH]; intros HRS Hs; simpl; [constructor|].
  inversion Hs as [|? ? Hl Hx]; subst. constructor.
  - apply IH; [|assumption]. intros; apply HRS; simpl; auto.
  - rewrite Forall_forall in *. intros y Hy.
    apply in_map_iff in Hy. destruct Hy as (z & <- & Hz).
    apply HRS; simpl; auto.
Qed.

(** A successful sort in descending order, on keys that compare as the
    decidable strict order [ltb], arranges the list by its keys. *)
Lemma list_sort_desc_sorted :
  forall (K A : Type) (lt : K -> K -> res bool) (ltb : K -> K -> bool)
         (P : K -> Prop) (key : A -> res K) (l : list A),
    (forall a b, P a -> P b -> lt a b = Ok (ltb a b)) ->
    (forall a b, ltb a b = true -> ltb b a = false) ->
    (forall a b c, ltb a b = false -> ltb b c = false -> ltb a c = false) ->
    Forall (fun x => exists k, key x = Ok k /\ P k) l ->
    exists s,
      list_sort lt key true l = Ok s /\
      Permutation l s /\
      StronglySorted
        (fun x y => forall kx ky, key x = Ok kx -> key y = Ok ky ->
                                  ltb kx ky = false) s.
Proof.
  intros K A lt ltb P key l Htot Hasym Hneg Hkeys.
  assert (Hm : exists ks, mapM (fun x => do k <- key x; Ok (k, x)) l = Ok ks).
  { apply mapM_total. eapply Forall_impl; [|exact Hkeys].
    intros x (k & Hk & _). rewrite Hk. eexists; reflexivity. }
  destruct Hm as [ks Hks].
  destruct (keyed_snd _ _ _ _ _ Hks) as [Hsnd Hpairs].
  assert (HP : Forall (fun p => P (fst p)) ks).
  { rewrite Forall_forall in *. intros p Hp.
    assert (Hin : In (snd p) l) by (rewrite <- Hsnd; apply in_map; exact Hp).
    destruct (Hkeys _ Hin) as (k & Hk & Pk).
    rewrite (Hpairs _ Hp) in Hk. inversion Hk; subst. assumption. }
  destruct (sort_keyed_desc_sorted lt ltb P Htot Hasym Hneg ks HP)
    as (s & Hs & Hsorted).
  exists (map snd s). unfold list_sort. rewrite Hks. cbn [bind].
  rewrite Hs. cbn [bind]. split; [reflexivity|].
  pose proof (sort_keyed_perm lt true ks s Hs) as Hperm.
  split.
  - rewrite <- Hsnd. apply Permutation_map. assumption.
  - eapply StronglySorted_map; [|exact Hsorted].
    intros x y Hx Hy Hxy kx ky Kx Ky.
    assert (Hpx : key (snd x) = Ok (fst x)).
    { rewrite Forall_forall in Hpairs. apply Hpairs.
      eapply Permutation_in; [apply Permutation_sym; exact Hperm | exact Hx]. }
    assert (Hpy : key (snd y) = Ok (fst y)).
    { rewrite Forall_forall in Hpairs. apply Hpairs.
      eapply Permutation_in; [apply Permutation_sym; exact Hperm | exact Hy]. }
    rewrite Hpx in Kx. rewrite Hpy in Ky. inversion Kx; inversion Ky; subst.
    exact Hxy.
Qed.

Lemma StronglySorted_weaken :
  forall (A : Type) (R S : A -> A -> Prop) l,
    (forall x y, In x l -> In y l -> R x y -> S x y) ->
    StronglySorted R l -> StronglySorted S l.
Proof.
  intros A R S l H Hs. rewrite <- (map_id l).
  eapply StronglySorted_map; [|exact Hs]. exact H.
Qed.

Lemma heartbeat_ok_raw_time : forall hb,
  heartbeat_ok hb = true ->
  exists k, MonitorStatisticsResource.raw_time_key hb = Ok k /\ is_str k.
Proof.
  intros hb H. unfold heartbeat_ok in H.
  destruct hb as [| | | | | |h]; try discriminate.
  unfold MonitorStatisticsResource.raw_time_key, py_get_or, get_or.
  destruct (lookup h "time") as [[]|]; try discriminate;
    eexists; (split; [reflexivity | eexists; reflexivity]).
Qed.

Lemma list_sort_keys_ok :
  forall (K A : Type) (lt : K -> K -> res bool) (key : A -> res K) rev l s,
    list_sort lt key rev l = Ok s ->
    Forall (fun x => exists k, key x = Ok k) l.
Proof.
  intros K A lt key rev l s H. unfold list_sort in H. bind_inv H.
  apply mapM_Forall2 in E. clear H.
  induction E as [|x p l ks Hx _ IH]; constructor; [|assumption].
  destruct (key x) as [k|e]; [eexists; reflexivity | discriminate].
Qed.

(** The sort of the merged heartbeats whose times are strings: it returns a
    rearrangement of the list, ordered by instants when every time parses
    and by raw time strings as soon as one does not. *)
Lemma sort_combined_spec : forall rt all,
  Forall (fun hb => heartbeat_ok hb = true) all ->
  exists combined,
    MonitorStatisticsResource.sort_combined rt all = Ok combined /\
    Permutation all combined /\
    (Forall (parses rt) all ->
     StronglySorted (fun a b => (instant rt b <= instant rt a)%N) combined) /\
    (Exists (fun hb => ~ parses rt hb) all ->
     StronglySorted (fun a b => String.leb (raw_time b) (raw_time a) = true)
       combined).
Proof.
  intros rt all Hok. unfold MonitorStatisticsResource.sort_combined.
  destruct all as [|hb0 rest];
    [exists []; repeat split; intros; constructor|].
  set (all := hb0 :: rest) in *.
  destruct (list_sort MonitorStatisticsResource.datetime_lt
              (MonitorStatisticsResource.time_key rt) true all)
    as [l|e] eqn:E.
  - assert (Hall : Forall (parses rt) all)
      by (eapply list_sort_keys_ok; exact E).
    destruct (list_sort_desc_sorted _ _
                MonitorStatisticsResource.datetime_lt N.ltb (fun _ => True)
                (MonitorStatisticsResource.time_key rt) all
                datetime_lt_total N_ltb_asym N_ltb_negtrans)
      as (s & Hs & Hperm & Hsorted).
    { eapply Forall_impl; [|exact Hall]. intros x [t Ht]. eauto. }
    rewrite E in Hs. inversion Hs; subst s.
    exists l. split; [reflexivity|]. split; [assumption|]. split.
    + intros _. eapply StronglySorted_weaken; [|exact Hsorted].
      intros x y Hx Hy Hxy.
      assert (Px : parses rt x).
      { rewrite Forall_forall in Hall. apply Hall.
        eapply Permutation_in; [apply Permutation_sym; exact Hperm | exact Hx]. }
      assert (Py : parses rt y).
      { rewrite Forall_forall in Hall. apply Hall.
        eapply Permutation_in; [apply Permutation_sym; exact Hperm | exact Hy]. }
      destruct Px as [tx Hx']. destruct Py as [ty Hy'].
      unfold instant. rewrite Hx', Hy'.
      specialize (Hxy _ _ Hx' Hy'). apply N.ltb_ge in Hxy. exact Hxy.
    + intros Hex. exfalso. rewrite Exists_exists in Hex.
      destruct Hex as (x & Hx & Hn). rewrite Forall_forall in Hall. auto.
  - destruct (list_sort_desc_sorted _ _ py_lt str_key_ltb is_str
                MonitorStatisticsResource.raw_time_key all py_lt_str)
      as (s & Hs & Hperm & Hsorted).
    { intros a b. apply string_ltb_asym. }
    { intros a b c. apply string_ltb_negtrans. }
    { eapply Forall_impl; [|exact Hok]. intros x Hx.
      apply heartbeat_ok_raw_time. exact Hx. }
    exists s. split; [exact Hs|]. split; [assumption|]. split.
    + intros Hall. exfalso.
      destruct (list_sort_desc_sorted _ _
                  MonitorStatisticsResource.datetime_lt N.ltb (fun _ => True)
                  (MonitorStatisticsResource.time_key rt) all
                  datetime_lt_total N_ltb_asym N_ltb_negtrans)
        as (s' & Hs' & _).
      { eapply Forall_impl; [|exact Hall]. intros x [t Ht]. eauto. }
      rewrite E in Hs'. discriminate.
    + intros _. eapply StronglySorted_weaken; [|exact Hsorted].
      intros x y Hx Hy Hxy.
      assert (Ox : heartbeat_ok x = true).
      { rewrite Forall_forall in Hok. apply Hok.
        eapply Permutation_in; [apply Permutation_sym; exact Hperm | exact Hx]. }
      assert (Oy : heartbeat_ok y = true).
      { rewrite Forall_forall in Hok. apply Hok.
        eapply Permutation_in; [apply Permutation_sym; exact Hperm | exact Hy]. }
      destruct (heartbeat_ok_raw_time _ Ox) as (kx & Kx & [sx ->]).
      destruct (heartbeat_ok_raw_time _ Oy) as (ky & Ky & [sy ->]).
      specialize (Hxy _ _ Kx Ky). unfold raw_time. rewrite Kx, Ky.
      apply string_leb_ltb. exact Hxy.
Qed.

(** C2.  For a bundle whose heartbeat times are strings, the log entries
    are the entries of a rearrangement of the merged heartbeats, in its
    order.  When every time parses, the rearrangement is in descending order
    of the parsed instants; as soon as the time of one entry fails to parse,
    the whole of it is in descending order of the raw time strings. *)
Theorem logs_follow_sorted_heartbeats :
  forall (rt : Runtime) (d out : dict) (hbs ihbs : list pyval),
    d <> [] ->
    get_or d "heartbeats" (VList []) = VList hbs ->
    get_or d "important_heartbeats" (VList []) = VList ihbs ->
    Forall (fun hb => heartbeat_ok hb = true) (hbs ++ ihbs)%list ->
    MonitorStatisticsResource.transform rt (VDict d) = Ok out ->
    exists (arranged logs : list pyval) (name : pyval),
      Permutation (hbs ++ ihbs)%list arranged /\
      get out "logs" = VList logs /\
      Forall2 (fun hb entry =>
                 MonitorStatisticsResource.log_entry name hb = Ok entry)
        arranged logs /\
      (Forall (parses rt) (hbs ++ ihbs)%list ->
       StronglySorted (fun a b => (instant rt b <= instant rt a)%N)
         arranged) /\
      (Exists (fun hb => ~ parses rt hb) (hbs ++ ihbs)%list ->
       StronglySorted
         (fun a b => String.leb (raw_time b) (raw_time a) = true) arranged).
Proof.
  intros rt d out hbs ihbs Hne Hh Hi Hok H.
  assert (Ht : truthy (VDict d) = true) by (destruct d; [congruence | reflexivity]).
  destruct (transform_stages rt _ out Ht H) as (d' & Hd & S).
  inversion Hd; subst d'; clear Hd.
  destruct S as [monitor hbs' ihbs' all pings avg uptime_data stability
                 combined logs score Hm Hh' Hi' Ha Hp Havg Hu Hst Hc Hl Hs
                 Oavg Oq Ost Oup Ol Osc Ostat Omt Onm].
  rewrite Hh, Hi in Ha. simpl in Ha. inversion Ha; subst all; clear Ha.
  destruct (sort_combined_spec rt _ Hok) as (c & Hc' & Hperm & Hdesc & Hraw).
  rewrite Hc in Hc'. inversion Hc'; subst c; clear Hc'.
  exists combined, logs, (get_or monitor "name" (VStr "Unknown")).
  split; [assumption|]. split; [assumption|].
  split; [apply mapM_Forall2; assumption|].
  split; assumption.
Qed.

Lemma logs_follow_sorted_heartbeats_witness :
  exists (arranged logs : list pyval) (name : pyval),
    Permutation (corrupt_heartbeats ++ [])%list arranged /\
    get corrupt_output "logs" = VList logs /\
    Forall2 (fun hb entry =>
               MonitorStatisticsResource.log_entry name hb = Ok entry)
      arranged logs /\
    (Forall (parses sample_runtime) (corrupt_heartbeats ++ [])%list ->
     StronglySorted
       (fun a b => (instant sample_runtime b <= instant sample_runtime a)%N)
       arranged) /\
    (Exists (fun hb => ~ parses sample_runtime hb)
       (corrupt_heartbeats ++ [])%list ->
     StronglySorted
       (fun a b => String.leb (raw_time b) (raw_time a) = true) arranged).
Proof.
  apply (logs_follow_sorted_heartbeats sample_runtime corrupt_fields
           corrupt_output corrupt_heartbeats []).
  - discriminate.
  - reflexivity.
  - reflexivity.
  - repeat constructor.
  - vm_compute. reflexivity.
Defined.

Example logs_of_corrupt_bundle :
  get corrupt_output "logs" =
  VList [VDict [("name", VStr "api"); ("status", VStr "DOWN");
                ("time", VStr "not-a-time"); ("message", VStr "second")];
         VDict [("name", VStr "api"); ("status", VStr "UP");
                ("time", VStr "2024-05-02 09:00:00");
                ("message", VStr "third")];
         VDict [("name", VStr "api"); ("status", VStr "UP");
                ("time", VStr "2024-05-01 10:00:00");
                ("message", VStr "first")]].
Proof. reflexivity. Qed.

Example logs_of_repaired_bundle :
  exists out,
    MonitorStatisticsResource.transform sample_runtime (VDict repaired_fields)
    = Ok out /\
    get out "logs" =
    VList [VDict [("name", VStr "api"); ("status", VStr "DOWN");
                  ("time", VStr "2024-05-03 08:00:00");
                  ("message", VStr "second")];
           VDict [("name", VStr "api"); ("status", VStr "UP");
                  ("time", VStr "2024-05-02 09:00:00");
                  ("message", VStr "third")];
           VDict [("name", VStr "api"); ("status", VStr "UP");
                  ("time", VStr "2024-05-01 10:00:00");
                  ("message", VStr "first")]].
Proof. eexists. split; vm_compute; reflexivity. Qed.

(** ** Totality on well-formed bundles *)

Lemma heartbeat_transform_total : forall hb,
  is_dict hb = true -> exists r, HeartbeatResource.transform hb = Ok r.
Proof.
  intros [| | | | | |h] H; try discriminate.
  unfold HeartbeatResource.transform.
  destruct (negb (truthy (VDict h))); eexists; reflexivity.
Qed.

Lemma Forall_firstn_keep : forall (A : Type) (P : A -> Prop) n l,
  Forall P l -> Forall P (firstn n l).
Proof.
  induction n as [|n IH]; intros l H; simpl; [constructor|].
  destruct l; [constructor|]. inversion H; subst. constructor; auto.
Qed.

Lemma heartbeat_ok_is_dict : forall hb,
  heartbeat_ok hb = true -> is_dict hb = true.
Proof. intros [| | | | | |h] H; try discriminate. reflexivity. Qed.

Lemma valid_pings_none : forall all,
  Forall (fun hb => match hb with
                    | VDict h => is_none (get h "ping")
                    | _ => false
                    end = true) all ->
  MonitorStatisticsResource.valid_pings all = Ok [].
Proof.
  unfold MonitorStatisticsResource.valid_pings.
  induction 1 as [|hb all Hhb _ IH]; [reflexivity|].
  bind_inv IH. inversion IH as [Hf]. simpl.
  destruct hb as [| | | | | |h]; try discriminate.
  assert (Eg : get_or h "ping" VNone = VNone)
    by (unfold get in Hhb; destruct (get_or h "ping" VNone);
        try discriminate; reflexivity).
  simpl. rewrite E, Eg. simpl. rewrite Hf. reflexivity.
Qed.

Lemma status_changes_total : forall hbs,
  Forall (fun hb => is_dict hb = true) hbs ->
  exists n, MonitorStatisticsResource.status_changes hbs = Ok n.
Proof.
  induction 1 as [|hb hbs Hhb Hrest IH]; [eexists; reflexivity|].
  destruct hbs as [|hb' hbs']; [eexists; reflexivity|].
  inversion Hrest; subst.
  destruct hb as [| | | | | |h]; try discriminate.
  destruct hb' as [| | | | | |h']; try discriminate.
  destruct IH as [n Hn].
  simpl in *. rewrite Hn. eexists; reflexivity.
Qed.

Lemma last_status_change_total : forall hbs,
  Forall (fun hb => is_dict hb = true) hbs ->
  exists t, MonitorStatisticsResource.last_status_change_time hbs = Ok t.
Proof.
  induction 1 as [|hb hbs Hhb _ [t IH]]; [eexists; reflexivity|].
  destruct hb as [| | | | | |h]; try discriminate. simpl.
  destruct (truthy (get_or h "important" (VBool false)));
    eexists; [reflexivity | exact IH].
Qed.

Lemma log_entry_total : forall name hb,
  is_dict hb = true ->
  exists e, MonitorStatisticsResource.log_entry name hb = Ok e.
Proof.
  intros name [| | | | | |h] H; try discriminate.
  eexists. reflexivity.
Qed.

Lemma cert_transform_returns : forall cert_info,
  cert_well_formed cert_info = true ->
  exists r, CertificateInfoResource.transform cert_info = Ok r.
Proof.
  intros cert_info Hwf. unfold cert_well_formed in Hwf.
  destruct (truthy cert_info) eqn:Ht.
  - simpl in Hwf. destruct cert_info as [| | | | | |c]; try discriminate.
    assert (Hne : c <> []) by (destruct c; [discriminate | congruence]).
    assert (Hcase : exists details,
               get_or c "certInfo" (VDict []) = VDict details /\
               dict_or_absent details "subject" = true /\
               dict_or_absent details "issuer" = true).
    { unfold get_or. destruct (lookup c "certInfo") as [[]|]; try discriminate.
      + apply andb_prop in Hwf. eexists. split; [reflexivity | exact Hwf].
      + exists []. repeat split. }
    destruct Hcase as (details & Hd & Hs & Hi).
    destruct (cert_transform_details c details Hne Hd Hs Hi) as (r & Hr & _).
    exists r. assumption.
  - exists []. unfold CertificateInfoResource.transform. rewrite Ht.
    reflexivity.
Qed.

Lemma float_of_Z_100 :
  float_of_Z 100 = Ok (S754_finite false 7036874417766400 (-46)).
Proof. vm_compute. reflexivity. Qed.

Lemma percent_of_number : forall v,
  is_number v = true ->
  exists pct, (do x <- py_mul v (VInt 100); py_round x 2) = Ok pct.
Proof.
  intros v H. unfold py_mul, py_arith, is_number in *.
  destruct (as_num v) as [[z|f]|]; [| |discriminate]; cbn [as_num num_mul bind of_num].
  - eexists. reflexivity.
  - cbn [to_float]. rewrite float_of_Z_100. cbn [bind of_num].
    eexists. reflexivity.
Qed.

Lemma add_percent_total : forall r p v,
  ratio_ok v = true ->
  percent_entries r ->
  exists r', UptimeResource.add_percent r p v = Ok r' /\ percent_entries r'.
Proof.
  intros r p v Hv Hr.
  assert (Hex : exists r', UptimeResource.add_percent r p v = Ok r').
  { unfold UptimeResource.add_percent.
    destruct (not_sentinel (clean_value v)) eqn:Hn; [|eexists; reflexivity].
    assert (Hnum : is_number v = true).
    { unfold ratio_ok in Hv. destruct v as [|b|z|f|s|l|d]; try reflexivity;
        try discriminate.
      simpl in Hv, Hn. destruct (String.eqb_spec s ""); [discriminate|].
      simpl in Hv. apply String.eqb_eq in Hv. subst s. discriminate. }
    destruct (percent_of_number v Hnum) as [pct Hp].
    apply bind_ok in Hp. destruct Hp as (x & Hx & Hp).
    rewrite Hx. cbn [bind]. rewrite Hp. eexists; reflexivity. }
  destruct Hex as [r' Hr']. exists r'. split; [assumption|].
  eapply add_percent_entries; eassumption.
Qed.

Lemma quality_total : forall pct,
  is_number pct = true -> exists q, UptimeResource.quality pct = Ok q.
Proof.
  intros pct H. unfold UptimeResource.quality, py_test, is_number in *.
  destruct (as_num pct) as [n|]; [|discriminate]. cbn [float_lit as_num bind].
  destruct (num_ge n _); [eexists; reflexivity|].
  destruct (num_ge n _); [eexists; reflexivity|].
  destruct (num_ge n _); eexists; reflexivity.
Qed.

Lemma add_quality_total : forall r p,
  percent_entries r ->
  exists r', UptimeResource.add_quality r p = Ok r' /\ percent_entries r'.
Proof.
  intros r p Hr.
  assert (Hex : exists r', UptimeResource.add_quality r p = Ok r').
  { unfold UptimeResource.add_quality.
    destruct (has_key r (p ++ "h_percent")
              && not_sentinel (get r (p ++ "h_percent"))) eqn:Hc;
      [|eexists; reflexivity].
    apply andb_prop in Hc. destruct Hc as [Hk Hn].
    assert (Hnum : is_number (get r (p ++ "h_percent")) = true).
    { unfold has_key in Hk. unfold get, get_or in *.
      destruct (lookup r (p ++ "h_percent")) as [v|] eqn:El; [|discriminate].
      destruct (Hr _ _ El) as [->|Hv]; [|discriminate|exact Hv].
      rewrite last_char_app by discriminate. reflexivity. }
    destruct (quality_total _ Hnum) as [q Hq]. rewrite Hq.
    eexists; reflexivity. }
  destruct Hex as [r' Hr']. exists r'. split; [assumption|].
  eapply add_quality_entries; eassumption.
Qed.

Lemma uptime_total : forall u,
  uptime_well_formed u = true ->
  exists r, UptimeResource.transform u = Ok r.
Proof.
  intros u H. unfold uptime_well_formed in H. unfold UptimeResource.transform.
  destruct (negb (truthy u)); [eexists; reflexivity|]. simpl in H.
  destruct u as [| | | | | |ud]; try discriminate.
  assert (HF : Forall (fun kv => ratio_ok (snd kv) = true) ud)
    by (apply Forall_forall; apply forallb_forall; exact H).
  destruct (fold_bind_total _ _
              (fun r kv => UptimeResource.add_percent r (fst kv) (snd kv))
              percent_entries (fun kv => ratio_ok (snd kv) = true) ud [] HF)
    as (r1 & Hr1 & I1).
  { intros k v Hk. discriminate. }
  { intros b kv Hkv Hb. apply add_percent_total; assumption. }
  destruct (fold_bind_total _ _
              (fun r kv => UptimeResource.add_quality r (fst kv))
              percent_entries (fun _ => True) ud r1 (Forall_True _ ud) I1)
    as (r2 & Hr2 & _).
  { intros b kv _ Hb. apply add_quality_total; assumption. }
  exists r2. cbv beta iota.
  match goal with
  | |- bind ?m _ = _ => replace m with (Ok r1) by (symmetry; exact Hr1)
  end.
  cbn [bind]. exact Hr2.
Qed.

Lemma result_literal_avg :
  forall monitor avg_ping avg uptime_data cert recent n timp n' changes
         last_change stability logs,
    get (MonitorStatisticsResource.result_literal monitor avg_ping avg
           uptime_data cert recent n timp n' changes last_change stability
           logs) "avg_ping_calculated" = clean_value avg.
Proof. reflexivity. Qed.

Lemma health_score_sentinel : forall uptime_data,
  MonitorStatisticsResource.health_score uptime_data (VStr "-")
  = Ok (VStr "-").
Proof.
  intro u. unfold MonitorStatisticsResource.health_score.
  change (not_sentinel (VStr "-")) with false.
  rewrite andb_false_r. reflexivity.
Qed.

Lemma get_dict_set : forall d k v k',
  get (dict_set d k v) k' = if String.eqb k k' then v else get d k'.
Proof.
  intros d k v k'. unfold get, get_or. rewrite lookup_dict_set.
  destruct (String.eqb k k'); reflexivity.
Qed.

Lemma bind_ret : forall (A B : Type) (x : A) (k : A -> res B),
  bind (Ok x) k = k x.
Proof. reflexivity. Qed.

Lemma py_get_or_dict : forall d k dflt,
  py_get_or (VDict d) k dflt = Ok (get_or d k dflt).
Proof. reflexivity. Qed.

(** One statement of a [do] block whose result is known. *)
Ltac stage H :=
  match type of H with
  | _ = Ok ?x =>
      match goal with
      | |- bind ?m _ = _ => replace m with (Ok x) by (symmetry; exact H)
      end
  end; rewrite bind_ret; cbv beta.

(** C5.  On a well-formed bundle none of whose heartbeats carries a ping,
    [transform] returns, and its average ping, ping quality and ping
    stability are the sentinel: the empty sample raises nothing. *)
Theorem pingless_bundle_sentinels :
  forall (rt : Runtime) (data : pyval),
    bundle_well_formed data = true ->
    no_valid_ping data = true ->
    exists out,
      MonitorStatisticsResource.transform rt data = Ok out /\
      get out "avg_ping_calculated" = SENTINEL /\
      get out "ping_quality" = SENTINEL /\
      get out "ping_stability" = SENTINEL.
Proof.
  intros rt data Hwf Hnp.
  destruct data as [| | | | | |d]; try discriminate.
  unfold bundle_well_formed in Hwf. unfold no_valid_ping in Hnp.
  repeat (apply andb_prop in Hwf; destruct Hwf as [Hwf ?]).
  apply andb_prop in Hnp. destruct Hnp as [Hnp1 Hnp2].
  destruct (get_or d "monitor" (VDict [])) as [| | | | | |monitor] eqn:Em;
    try discriminate.
  destruct (get_or d "heartbeats" (VList [])) as [| | | | |hbs|] eqn:Eh;
    try discriminate.
  destruct (get_or d "important_heartbeats" (VList []))
    as [| | | | |ihbs|] eqn:Ei; try discriminate.
  simpl heartbeat_list in *. simpl pingless in *.
  assert (Ohbs : Forall (fun hb => heartbeat_ok hb = true) hbs)
    by (apply Forall_forall; apply forallb_forall; assumption).
  assert (Oihbs : Forall (fun hb => heartbeat_ok hb = true) ihbs)
    by (apply Forall_forall; apply forallb_forall; assumption).
  assert (Oall : Forall (fun hb => heartbeat_ok hb = true) (hbs ++ ihbs)%list)
    by (apply Forall_app; split; assumption).
  assert (Dhbs : Forall (fun hb => is_dict hb = true) hbs)
    by (eapply Forall_impl; [apply heartbeat_ok_is_dict | exact Ohbs]).
  assert (Dihbs : Forall (fun hb => is_dict hb = true) ihbs)
    by (eapply Forall_impl; [apply heartbeat_ok_is_dict | exact Oihbs]).
  destruct (mapM_total _ _ HeartbeatResource.transform (firstn 10 hbs))
    as [recent Hrecent].
  { apply Forall_firstn_keep. eapply Forall_impl; [|exact Dhbs].
    apply heartbeat_transform_total. }
  destruct (mapM_total _ _ HeartbeatResource.transform (firstn 25 ihbs))
    as [timp Htimp].
  { apply Forall_firstn_keep. eapply Forall_impl; [|exact Dihbs].
    apply heartbeat_transform_total. }
  assert (Hpings : MonitorStatisticsResource.valid_pings (hbs ++ ihbs)%list
                   = Ok []).
  { apply valid_pings_none. apply Forall_app. split;
      apply Forall_forall; apply forallb_forall; assumption. }
  destruct (uptime_total _ H0) as [uptime_data Hup].
  destruct (status_changes_total _ Dhbs) as [changes Hch].
  destruct (last_status_change_total _ Dhbs) as [last_change Hlast].
  destruct (sort_combined_spec rt _ Oall) as (combined & Hsort & Hperm & _).
  destruct (mapM_total _ _
              (MonitorStatisticsResource.log_entry
                 (get_or monitor "name" (VStr "Unknown"))) combined)
    as [logs Hlogs].
  { eapply Permutation_Forall; [exact Hperm|].
    eapply Forall_impl; [|exact Oall]. intros hb Hhb.
    apply log_entry_total, heartbeat_ok_is_dict, Hhb. }
  destruct (cert_transform_returns _ H) as [cert Hcert].
  eexists. split.
  - unfold MonitorStatisticsResource.transform.
    rewrite Hwf. cbn [negb]. unfold py_get.
    rewrite !py_get_or_dict, Em, Eh, Ei.
    rewrite !bind_ret. cbv beta.
    stage (eq_refl (Ok hbs)). stage Hrecent.
    stage (eq_refl (Ok ihbs)). stage Htimp.
    stage (eq_refl (Ok (hbs ++ ihbs)%list)). stage Hpings.
    stage (eq_refl (Ok VNone)).
    rewrite bind_ret. cbv beta.
    stage Hup. stage Hch. stage Hlast.
    stage (eq_refl (Ok (VStr "-"))).
    stage Hsort. stage (eq_refl (Ok monitor)). cbv zeta.
    stage Hlogs. rewrite !bind_ret. cbv beta. stage Hcert.
    rewrite get_dict_set.
    change (String.eqb "ping_quality" "avg_ping_calculated") with false.
    cbv iota.
    rewrite result_literal_avg.
    change (clean_value VNone) with (VStr "-").
    rewrite health_score_sentinel, bind_ret. reflexivity.
  - split; [reflexivity | split; reflexivity].
Qed.

Lemma pingless_bundle_sentinels_witness :
  exists out,
    MonitorStatisticsResource.transform sample_runtime pingless_bundle
    = Ok out /\
    get out "avg_ping_calculated" = SENTINEL /\
    get out "ping_quality" = SENTINEL /\
    get out "ping_stability" = SENTINEL.
Proof.
  apply (pingless_bundle_sentinels sample_runtime pingless_bundle);
    reflexivity.
Defined.

(** ** The fleet aggregator *)

Lemma fleet_stages : forall rt data f,
  AllMonitorsStatisticsResource.transform rt data = Ok (Some f) ->
  fleet_run rt data f.
Proof.
  intros rt data f H. unfold AllMonitorsStatisticsResource.transform in H.
  destruct (negb (truthy data)); [discriminate|].
  repeat bind_inv H.
  inversion H; subst f; clear H.
  destruct x as [| | | | | |items]; try discriminate.
  match goal with E : as_dict _ = Ok _ |- _ => inversion E; subst; clear E end.
  econstructor; try eassumption; reflexivity.
Qed.

Import AllMonitorsStatisticsResource.

Lemma py_sum_from_numbers : forall l a s,
  fold_left (fun acc v => do x <- acc; py_add x v) l (Ok a) = Ok s ->
  Forall (fun v => is_number v = true) l.
Proof.
  induction l as [|v l IH]; intros a s H; [constructor|].
  simpl in H. destruct (py_add a v) as [r|e] eqn:E.
  - constructor; [|eapply IH; exact H].
    unfold py_add, py_arith in E. unfold is_number.
    destruct (as_num a); [|discriminate].
    destruct (as_num v); [reflexivity | discriminate].
  - rewrite fold_bind_raise in H. discriminate.
Qed.

Lemma py_sum_numbers : forall l s,
  py_sum l = Ok s -> Forall (fun v => is_number v = true) l.
Proof. intros l s H. eapply py_sum_from_numbers. exact H. Qed.

Lemma monitor_entry_shape : forall rt item m,
  monitor_entry rt item = Ok m ->
  (exists d monitor,
      snd item = VDict d /\
      get_or d "monitor" (VDict []) = VDict monitor /\
      get m "status"
        = VInt (if truthy (get monitor "active") then 1 else 0) /\
      get m "maintenance" = VBool (truthy (get monitor "maintenance")))
  \/ (get m "avg_ping_calculated" = VNone /\ get m "maintenance" = VNone).
Proof.
  intros rt [key bundle] m H. unfold monitor_entry in H. simpl in H.
  bind_inv H. bind_inv H. inversion H; subst m; clear H.
  destruct (truthy bundle) eqn:Ht.
  - left. destruct (transform_stages rt bundle x Ht E) as (d & -> & S).
    destruct S as [monitor hbs ihbs all pings avg uptime_data stability
                   combined logs score Hm Hh Hi Ha Hp Havg Hu Hst Hc Hl Hs
                   Oavg Oq Ost Oup Ol Osc Ostat Omt Onm].
    exists d, monitor. split; [reflexivity|]. split; [assumption|].
    rewrite !get_dict_set. split; assumption.
  - right. unfold MonitorStatisticsResource.transform in E. rewrite Ht in E.
    inversion E; subst x. split; reflexivity.
Qed.

Lemma response_time_numbers : forall ms r,
  response_time ms = Ok r ->
  Forall (fun m => not_sentinel (get m "avg_ping_calculated")
                   && negb (in_maintenance m) = true ->
                   is_number (get m "avg_ping_calculated") = true) ms.
Proof.
  intros ms r H. unfold response_time in H.
  set (keep := fun m => not_sentinel (get m "avg_ping_calculated")
                        && negb (in_maintenance m)) in *.
  destruct (filter keep ms) as [|m0 timed] eqn:Ef.
  - apply Forall_forall. intros m Hm Hk.
    assert (Hin : In m (filter keep ms)) by (apply filter_In; auto).
    rewrite Ef in Hin. contradiction.
  - unfold mean in H. bind_inv H. apply py_sum_numbers in E.
    rewrite <- Ef in E. apply Forall_forall. intros m Hm Hk.
    rewrite Forall_forall in E. apply E.
    apply (in_map (fun m => get m "avg_ping_calculated")).
    apply filter_In. auto.
Qed.

Lemma from_bundle_groups : forall items m,
  from_bundle items m ->
  (get m "status" = VInt 0 \/ get m "status" = VInt 1) /\
  group_count m = 1%nat.
Proof.
  intros items m (key & d & monitor & _ & _ & Hs & Hm).
  unfold group_count, is_up, is_down, in_maintenance. rewrite Hs, Hm.
  destruct (truthy (get monitor "active"));
    destruct (truthy (get monitor "maintenance")); simpl; auto.
Qed.

Lemma partition_lengths : forall ms : list dict,
  Forall (fun m => group_count m = 1%nat) ms ->
  (List.length (filter is_up ms) + List.length (filter is_down ms)
   + List.length (filter in_maintenance ms))%nat = List.length ms.
Proof.
  induction 1 as [|m ms Hm _ IH]; [reflexivity|].
  simpl. unfold group_count in Hm.
  destruct (is_up m), (is_down m), (in_maintenance m); simpl in *;
    try discriminate; lia.
Qed.

Lemma fleet_monitors_from_bundles : forall rt data f,
  AllMonitorsStatisticsResource.transform rt data = Ok (Some f) ->
  exists items,
    py_get_or data "monitors" (VDict []) = Ok (VDict items) /\
    Forall (from_bundle items) (monitors f).
Proof.
  intros rt data f H. destruct (fleet_stages rt data f H)
    as [items unsorted Hi Hu Hsort Hup Hdown Hmt Cn Cu Cd Cm Hpct Hresp].
  exists items. split; [assumption|].
  pose proof (response_time_numbers _ _ Hresp) as Hnum.
  pose proof (list_sort_perm _ _ _ _ _ _ _ Hsort) as Hperm.
  apply mapM_Forall2 in Hu.
  apply Forall_forall. intros m Hm.
  assert (Hin : In m unsorted)
    by (eapply Permutation_in; [apply Permutation_sym; exact Hperm | exact Hm]).
  assert (Hitem : exists item, In item items /\ monitor_entry rt item = Ok m).
  { clear - Hu Hin. induction Hu as [|item m' items ms Hx _ IH].
    - contradiction.
    - destruct Hin as [->|Hin].
      + exists item. split; [left; reflexivity | assumption].
      + destruct (IH Hin) as (it & Hit & He).
        exists it. split; [right; assumption | assumption]. }
  destruct Hitem as ([key bundle] & Hit & He).
  destruct (monitor_entry_shape _ _ _ He)
    as [(d & monitor & Hb & Hmon & Hs & Hmt')|[Havg Hmnt]].
  - simpl in Hb. subst bundle. exists key, d, monitor. auto.
  - exfalso. rewrite Forall_forall in Hnum. specialize (Hnum m Hm).
    unfold in_maintenance in Hnum. rewrite Havg, Hmnt in Hnum.
    specialize (Hnum eq_refl). discriminate.
Qed.

(** C10.  In every output of the fleet aggregator each transformed monitor
    stems from a non-empty bundle, its status is exactly 0 or 1 (1 when the
    raw active flag is truthy, else 0), it belongs to exactly one of the
    groups up, down and maintenance, and the three counts add up to the
    number of monitors. *)
Theorem fleet_groups_partition :
  forall (rt : Runtime) (data : pyval) (f : FleetStatistics),
    AllMonitorsStatisticsResource.transform rt data = Ok (Some f) ->
    (exists items,
       py_get_or data "monitors" (VDict []) = Ok (VDict items) /\
       Forall (from_bundle items) (monitors f)) /\
    Forall (fun m =>
              (get m "status" = VInt 0 \/ get m "status" = VInt 1) /\
              group_count m = 1%nat) (monitors f) /\
    List.length (up_monitors f) = List.length (filter is_up (monitors f)) /\
    List.length (down_monitors f)
      = List.length (filter is_down (monitors f)) /\
    List.length (maintenance_monitors f)
      = List.length (filter in_maintenance (monitors f)) /\
    up_monitors_count f + down_monitors_count f + maintenance_monitors_count f
      = monitors_count f.
Proof.
  intros rt data f H.
  destruct (fleet_monitors_from_bundles rt data f H) as (items & Hi & Hfrom).
  destruct (fleet_stages rt data f H)
    as [items' unsorted _ _ _ Hup Hdown Hmt Cn Cu Cd Cm _ _].
  assert (Hgroups : Forall (fun m =>
            (get m "status" = VInt 0 \/ get m "status" = VInt 1) /\
            group_count m = 1%nat) (monitors f)).
  { eapply Forall_impl; [|exact Hfrom].
    intros m Hm. eapply from_bundle_groups. exact Hm. }
  apply mapM_length in Hup, Hdown.
  assert (Hml : List.length (maintenance_monitors f)
                = List.length (filter in_maintenance (monitors f)))
    by (rewrite Hmt; apply length_map).
  split; [exists items; split; assumption|].
  split; [assumption|].
  split; [assumption|]. split; [assumption|]. split; [assumption|].
  rewrite Cn, Cu, Cd, Cm, Hup, Hdown, Hml.
  rewrite <- (partition_lengths (monitors f)).
  - lia.
  - eapply Forall_impl; [|exact Hgroups]. intros m [_ Hg]. exact Hg.
Qed.

Lemma fleet_groups_partition_witness :
  AllMonitorsStatisticsResource.transform sample_runtime fleet_of_six
    = Ok (Some fleet_of_six_output) /\
  up_monitors_count fleet_of_six_output = 3 /\
  down_monitors_count fleet_of_six_output = 1 /\
  maintenance_monitors_count fleet_of_six_output = 2 /\
  up_monitors_count fleet_of_six_output
  + down_monitors_count fleet_of_six_output
  + maintenance_monitors_count fleet_of_six_output
  = monitors_count fleet_of_six_output.
Proof.
  assert (Hr : AllMonitorsStatisticsResource.transform sample_runtime
                 fleet_of_six = Ok (Some fleet_of_six_output))
    by (vm_compute; reflexivity).
  split; [exact Hr|].
  split; [reflexivity|]. split; [reflexivity|]. split; [reflexivity|].
  apply (fleet_groups_partition sample_runtime fleet_of_six
           fleet_of_six_output Hr).
Defined.

Lemma percentage_refines : forall up down pct,
  percentage up down = Ok pct ->
  (0 < up + down -> UpPercentage up down = Ok pct) /\
  (up + down <= 0 -> pct = VInt 0).
Proof.
  intros up down pct H. unfold percentage in H.
  destruct (0 <? up + down) eqn:E.
  - apply Z.ltb_lt in E. split; [intros _; exact H | lia].
  - apply Z.ltb_ge in E. inversion H. split; [lia | reflexivity].
Qed.

(** C4.  In every output of the fleet aggregator the up percentage is
    [round(up / (up + down) * 100, 2)] of the sizes of the up and the down
    group, neither of which holds a monitor in maintenance, and is the int 0
    when both groups are empty; three up and one down give 75.0. *)
Theorem up_percentage_formula :
  forall (rt : Runtime) (data : pyval) (f : FleetStatistics),
    AllMonitorsStatisticsResource.transform rt data = Ok (Some f) ->
    let up := Z.of_nat (List.length (filter is_up (monitors f))) in
    let down := Z.of_nat (List.length (filter is_down (monitors f))) in
    (forall m, in_maintenance m = true -> is_up m = false /\ is_down m = false)
    /\ up_monitors_count f = up
    /\ down_monitors_count f = down
    /\ (0 < up + down -> UpPercentage up down = Ok (up_percentage f))
    /\ (up + down = 0 -> up_percentage f = VInt 0)
    /\ UpPercentage 3 1 = Ok (float_lit 75 1).
Proof.
  intros rt data f H up down.
  destruct (fleet_stages rt data f H)
    as [items unsorted _ _ _ Hup Hdown _ _ Cu Cd _ Hpct _].
  apply mapM_length in Hup, Hdown.
  assert (Eu : up_monitors_count f = up) by (rewrite Cu, Hup; reflexivity).
  assert (Ed : down_monitors_count f = down) by (rewrite Cd, Hdown; reflexivity).
  rewrite Eu, Ed in Hpct.
  destruct (percentage_refines _ _ _ Hpct) as [Hpos Hzero].
  split.
  { intros m Hm. unfold is_up, is_down. rewrite Hm.
    rewrite !andb_false_r. split; reflexivity. }
  split; [assumption|]. split; [assumption|].
  split; [assumption|].
  split; [intro Hz; apply Hzero; lia | vm_compute; reflexivity].
Qed.

Lemma up_percentage_formula_witness :
  AllMonitorsStatisticsResource.transform sample_runtime fleet_of_six
    = Ok (Some fleet_of_six_output) /\
  List.length (filter is_up (monitors fleet_of_six_output)) = 3%nat /\
  List.length (filter is_down (monitors fleet_of_six_output)) = 1%nat /\
  List.length (filter in_maintenance (monitors fleet_of_six_output)) = 2%nat /\
  up_percentage fleet_of_six_output = float_lit 75 1 /\
  UpPercentage 3 1 = Ok (up_percentage fleet_of_six_output).
Proof.
  assert (Hr : AllMonitorsStatisticsResource.transform sample_runtime
                 fleet_of_six = Ok (Some fleet_of_six_output))
    by (vm_compute; reflexivity).
  split; [exact Hr|].
  split; [reflexivity|]. split; [reflexivity|]. split; [reflexivity|].
  split; [vm_compute; reflexivity|].
  destruct (up_percentage_formula sample_runtime fleet_of_six
              fleet_of_six_output Hr) as (_ & _ & _ & Hpos & _).
  apply Hpos. vm_compute. reflexivity.
Defined.

Example up_percentage_of_empty_fleet :
  exists f,
    AllMonitorsStatisticsResource.transform sample_runtime fleet_of_none
      = Ok (Some f) /\
    up_monitors_count f = 0 /\ down_monitors_count f = 0 /\
    up_percentage f = VInt 0.
Proof. eexists. split; [vm_compute; reflexivity|]. repeat split. Qed.

Example empty_bundle_fails_the_fleet :
  AllMonitorsStatisticsResource.transform sample_runtime
    (VDict [("monitors", VDict [("1", VDict [])])]) = Raise TypeError.
Proof. vm_compute. reflexivity. Qed.

(** ** Worked examples *)

Example camel_to_snake_acronym :
  camel_to_snake "getHTTPResponseCode" = "get_http_response_code".
Proof. reflexivity. Qed.

Example clean_value_nested :
  clean_value (VDict [("a", VNone); ("b", VList [VStr ""; VInt 0; VBool false]);
                      ("c", VDict [("d", VStr "x"); ("e", VList [])])])
  = VDict [("a", VStr "-"); ("b", VList [VStr "-"; VInt 0; VBool false]);
           ("c", VDict [("d", VStr "x"); ("e", VList [])])].
Proof. reflexivity. Qed.

Example uptime_transform_example :
  UptimeResource.transform (VDict [("24", float_lit 999 1000)])
  = Ok [("24h", float_lit 999 1000); ("24h_percent", float_lit 999 10);
        ("24h_quality", VStr "excellent")].
Proof. vm_compute. reflexivity. Qed.

Example status_changes_example :
  MonitorStatisticsResource.status_changes
    (map (fun s => VDict [("status", VInt s)]) [1; 1; 0; 0; 1]) = Ok 2.
Proof. reflexivity. Qed.

Example heartbeat_tiers :
  map ping_tier [VInt 99; VInt 100; VInt 299; VInt 300; VInt 599; VInt 600;
                 VStr "-"; VStr "fast"; float_lit 995 10]
  = map VStr ["excellent"; "good"; "good"; "fair"; "fair"; "poor"; "-"; "-";
              "excellent"].
Proof. vm_compute. reflexivity. Qed.

Example expiry_tiers :
  map CertificateInfoResource.expiry_status
    [VInt 0; VInt 7; VInt 8; VInt 30; VInt 31; VStr "-"; VStr "soon"]
  = map VStr ["expired"; "critical"; "warning"; "warning"; "ok"; "-"; "-"].
Proof. vm_compute. reflexivity. Qed.

Example malformed_time_beside_none_raises :
  MonitorStatisticsResource.transform sample_runtime
    (VDict [("heartbeats",
             VList [VDict [("time", VNone)];
                    VDict [("time", VStr "not-a-time")]])])
  = Raise TypeError.
Proof. vm_compute. reflexivity. Qed.

(** Without any assumption on the other sections: whenever [transform]
    returns on a non-empty bundle that carries no ping, the three ping
    fields are the sentinel. *)
Lemma pingless_outputs : forall rt data out,
  truthy data = true ->
  no_valid_ping data = true ->
  MonitorStatisticsResource.transform rt data = Ok out ->
  get out "avg_ping_calculated" = SENTINEL /\
  get out "ping_quality" = SENTINEL /\
  get out "ping_stability" = SENTINEL.
Proof.
  intros rt data out Ht Hnp H.
  destruct (transform_stages rt data out Ht H) as (d & -> & S).
  destruct S as [monitor hbs ihbs all pings avg uptime_data stability
                 combined logs score Hm Hh Hi Ha Hp Havg Hu Hst Hc Hl Hs
                 Oavg Oq Ost Oup Ol Osc Ostat Omt Onm].
  unfold no_valid_ping in Hnp. apply andb_prop in Hnp.
  destruct Hnp as [Hn1 Hn2].
  destruct (get_or d "heartbeats" (VList [])) as [| | | | |l1|];
    try discriminate.
  destruct (get_or d "important_heartbeats" (VList [])) as [| | | | |l2|];
    try discriminate.
  simpl in Ha, Hn1, Hn2. inversion Ha; subst all; clear Ha.
  assert (Hnone : MonitorStatisticsResource.valid_pings (l1 ++ l2)%list
                  = Ok []).
  { apply valid_pings_none. apply Forall_app. split;
      apply Forall_forall; apply forallb_forall; assumption. }
  rewrite Hnone in Hp. inversion Hp; subst pings; clear Hp.
  simpl in Havg. injection Havg as Eavg.
  unfold MonitorStatisticsResource.ping_stability in Hst. simpl in Hst.
  injection Hst as Est.
  rewrite Oavg, Oq, Ost, <- Eavg, <- Est. repeat split.
Qed.

(** * Further properties *)

(** ** Field normalizer *)

Lemma normalized_fixed : forall v, normalized v = true -> clean_value v = v.
Proof.
  induction v using pyval_ind; simpl; intros Hn; try reflexivity;
    try discriminate.
  - destruct (String.eqb s ""); [discriminate | reflexivity].
  - f_equal. induction H as [|x l Hx _ IH]; [reflexivity|].
    simpl in Hn. apply andb_prop in Hn. destruct Hn as [Hn1 Hn2].
    simpl. rewrite Hx, IH by assumption. reflexivity.
  - f_equal. induction H as [|[k x] d Hx _ IH]; [reflexivity|].
    simpl in Hn. apply andb_prop in Hn. destruct Hn as [Hn1 Hn2].
    simpl in Hx. simpl. rewrite Hx, IH by assumption. reflexivity.
Qed.

(** X1.  The values [clean_value] leaves unchanged are exactly the values
    that hold neither None nor the empty string at any depth. *)
Theorem clean_value_fixed_points :
  forall v : pyval, clean_value v = v <-> normalized v = true.
Proof.
  intro v. split.
  - intro H. rewrite <- H. apply clean_value_normalized.
  - apply normalized_fixed.
Qed.

Lemma to_lower_underscore : forall c,
  Ascii.eqb (to_lower c) "_" = Ascii.eqb c "_".
Proof.
  intros [[] [] [] [] [] [] [] []]; vm_compute; reflexivity.
Qed.

Lemma strip_lower : forall s,
  strip_underscores (lower s) = lower (strip_underscores s).
Proof.
  induction s as [|c s IH]; [reflexivity|].
  simpl. rewrite to_lower_underscore.
  destruct (Ascii.eqb c "_"); simpl; rewrite IH; reflexivity.
Qed.

Lemma upper_not_underscore : forall c,
  is_upper c = true -> Ascii.eqb c "_" = false.
Proof.
  intros [[] [] [] [] [] [] [] []]; vm_compute; congruence.
Qed.

Lemma strip_cons : forall c s,
  strip_underscores (String c s)
  = if Ascii.eqb c "_" then strip_underscores s
    else String c (strip_underscores s).
Proof. reflexivity. Qed.

Lemma strip_sub_word_bounded : forall n s inrun,
  (String.length s <= n)%nat ->
  strip_underscores (sub_word inrun s) = strip_underscores s.
Proof.
  induction n as [|n IH]; intros s inrun Hlen.
  - destruct s; [reflexivity | simpl in Hlen; lia].
  - destruct s as [|c s1]; [reflexivity|].
    simpl in Hlen. rewrite sub_word_cons.
    assert (IH1 : forall b, strip_underscores (sub_word b s1)
                            = strip_underscores s1)
      by (intro b; apply IH; lia).
    destruct (inrun && is_lower c).
    + rewrite !strip_cons, IH1. reflexivity.
    + destruct s1 as [|u [|l s3]].
      * reflexivity.
      * rewrite !strip_cons, IH1. reflexivity.
      * destruct (is_dot c && is_upper u && is_lower l) eqn:E.
        -- apply andb_prop in E. destruct E as [E _].
           apply andb_prop in E. destruct E as [_ Eu].
           rewrite (strip_cons c (String "_" _)).
           rewrite (strip_cons "_" _). cbn [Ascii.eqb Bool.eqb].
           rewrite (strip_cons u (sub_word _ _)).
           rewrite (strip_cons c (String u _)), (strip_cons u (String l s3)).
           rewrite (upper_not_underscore u Eu).
           rewrite (IH (String l s3) true) by (simpl in *; lia).
           reflexivity.
        -- rewrite (strip_cons c (sub_word _ _)), IH1. reflexivity.
Qed.

Lemma strip_sub_hump_bounded : forall n s,
  (String.length s <= n)%nat ->
  strip_underscores (sub_hump s) = strip_underscores s.
Proof.
  induction n as [|n IH]; intros s Hlen.
  - destruct s; [reflexivity | simpl in Hlen; lia].
  - destruct s as [|c s1]; [reflexivity|].
    simpl in Hlen. rewrite sub_hump_cons.
    destruct s1 as [|u s2]; [reflexivity|].
    destruct ((is_lower c || is_digit c) && is_upper u) eqn:E.
    + apply andb_prop in E. destruct E as [_ Eu].
      rewrite (strip_cons c (String "_" _)).
      rewrite (strip_cons "_" _). cbn [Ascii.eqb Bool.eqb].
      rewrite (strip_cons u (sub_hump _)).
      rewrite (strip_cons c (String u _)), (strip_cons u s2).
      rewrite (upper_not_underscore u Eu).
      rewrite (IH s2) by (simpl in *; lia). reflexivity.
    + rewrite (strip_cons c (sub_hump _)).
      rewrite (IH (String u s2)) by (simpl in *; lia). reflexivity.
Qed.

(** X2.  [camel_to_snake] only lower-cases letters and inserts
    underscores: without its underscores the result is the lower-cased
    input without its underscores, and no upper-case letter is left. *)
Theorem camel_to_snake_letters :
  forall name : string,
    strip_underscores (camel_to_snake name)
      = lower (strip_underscores name) /\
    no_upper (camel_to_snake name) = true.
Proof.
  intro name. split; [|apply camel_to_snake_no_upper].
  unfold camel_to_snake. destruct (String.eqb_spec name "") as [->|_].
  - reflexivity.
  - rewrite strip_lower.
    rewrite (strip_sub_hump_bounded _ _ (le_n _)).
    rewrite (strip_sub_word_bounded _ _ _ (le_n _)). reflexivity.
Qed.

(** ** Heartbeat transformer *)

Lemma ping_tier_sentinel : forall v,
  ping_tier v = SENTINEL <-> is_number v = false.
Proof.
  intro v. unfold ping_tier, is_number.
  destruct (not_sentinel v) eqn:E.
  - destruct (as_num v) as [n|]; [|split; reflexivity].
    destruct (num_lt n (NInt 100)); [split; discriminate|].
    destruct (num_lt n (NInt 300)); [split; discriminate|].
    destruct (num_lt n (NInt 600)); split; discriminate.
  - apply not_sentinel_false in E. subst v. split; reflexivity.
Qed.

Lemma ping_tier_normalized : forall v, normalized (ping_tier v) = true.
Proof.
  intro v. unfold ping_tier.
  destruct (if not_sentinel v then as_num v else None); [|reflexivity].
  destruct (num_lt n (NInt 100)); [reflexivity|].
  destruct (num_lt n (NInt 300)); [reflexivity|].
  destruct (num_lt n (NInt 600)); reflexivity.
Qed.

Lemma is_number_clean : forall v, is_number (clean_value v) = is_number v.
Proof.
  intros [|b|z|f|s|l|d]; try reflexivity.
  simpl. destruct (String.eqb s ""); reflexivity.
Qed.

(** X3.  [HeartbeatResource.transform] returns the empty record on a falsy
    value and raises AttributeError on any other value that is not a dict.
    On a non-empty dict it returns a record with exactly ten keys, in a
    fixed order, none of whose values holds None or the empty string; its
    [important] is a bool, and its [ping_quality] is the sentinel exactly
    when the ping is not a number. *)
Theorem heartbeat_record :
  forall hb : pyval,
    (truthy hb = false -> HeartbeatResource.transform hb = Ok []) /\
    (truthy hb = true -> is_dict hb = false ->
     HeartbeatResource.transform hb = Raise AttributeError) /\
    (forall h, hb = VDict h -> h <> [] ->
     exists out,
       HeartbeatResource.transform hb = Ok out /\
       map fst out = heartbeat_keys /\
       forallb (fun kv => normalized (snd kv)) out = true /\
       get out "important"
         = VBool (truthy (get_or h "important" (VBool false))) /\
       (get out "ping_quality" = SENTINEL <->
        is_number (get h "ping") = false)).
Proof.
  intro hb. unfold HeartbeatResource.transform. split; [|split].
  - intros ->. reflexivity.
  - intros -> Hd. destruct hb; try reflexivity. discriminate.
  - intros h -> Hne. destruct h as [|kv h]; [congruence|].
    cbn [truthy negb]. eexists. split; [reflexivity|].
    split; [reflexivity|]. split; [|split; [reflexivity|]].
    + cbn -[clean_value ping_tier normalized get get_or truthy].
      cbn [normalized].
      rewrite !clean_value_normalized, ping_tier_normalized. reflexivity.
    + change (get (HeartbeatResource.transform_dict (kv :: h)) "ping_quality")
        with (ping_tier (clean_value (get (kv :: h) "ping"))).
      rewrite ping_tier_sentinel, is_number_clean. reflexivity.
Qed.

Lemma heartbeat_record_witness :
  exists out,
    HeartbeatResource.transform
      (VDict [("monitorID", VInt 3); ("status", VInt 1); ("ping", VNone)])
    = Ok out /\
    map fst out = heartbeat_keys /\
    forallb (fun kv => normalized (snd kv)) out = true /\
    get out "important"
      = VBool (truthy (get_or [("monitorID", VInt 3); ("status", VInt 1);
                               ("ping", VNone)] "important" (VBool false))) /\
    (get out "ping_quality" = SENTINEL <->
     is_number (get [("monitorID", VInt 3); ("status", VInt 1);
                     ("ping", VNone)] "ping") = false).
Proof.
  apply (proj2 (proj2 (heartbeat_record
           (VDict [("monitorID", VInt 3); ("status", VInt 1);
                   ("ping", VNone)])))
           _ eq_refl).
  discriminate.
Defined.

(** ** Uptime transformer *)

Lemma add_percent_raises : forall r p v,
  ratio_ok v = false -> UptimeResource.add_percent r p v = Raise TypeError.
Proof.
  intros r p v Hv. unfold UptimeResource.add_percent.
  unfold ratio_ok in Hv.
  destruct v as [|b|z|f|s|l|d]; try discriminate.
  - simpl in Hv. apply orb_false_elim in Hv. destruct Hv as [H1 H2].
    simpl. rewrite H1.
    assert (Hn : not_sentinel (VStr s) = true).
    { unfold not_sentinel. simpl. rewrite H2. reflexivity. }
    rewrite Hn. reflexivity.
  - reflexivity.
  - reflexivity.
Qed.

Lemma percent_fold_raises : forall l r0,
  percent_entries r0 ->
  Exists (fun kv => ratio_ok (snd kv) = false) l ->
  fold_left (fun acc kv => do r <- acc;
                           UptimeResource.add_percent r (fst kv) (snd kv))
    l (Ok r0) = Raise TypeError.
Proof.
  induction l as [|[p v] l IH]; intros r0 Hr Hex; [inversion Hex|].
  simpl. destruct (ratio_ok v) eqn:Ev.
  - destruct (add_percent_total r0 p v Ev Hr) as (r1 & Hr1 & I1).
    rewrite Hr1. apply IH; [assumption|].
    inversion Hex as [? ? Hbad|]; subst; [|assumption].
    simpl in Hbad. congruence.
  - rewrite (add_percent_raises r0 p v Ev). apply fold_bind_raise.
Qed.

(** X4.  On a mapping, [UptimeResource.transform] returns exactly when every
    ratio is a number or missing (None, the empty string or the sentinel);
    a ratio of any other kind makes it raise TypeError. *)
Theorem uptime_transform_domain :
  forall ud : dict,
    (forallb (fun kv => ratio_ok (snd kv)) ud = true ->
     exists r, UptimeResource.transform (VDict ud) = Ok r) /\
    (forallb (fun kv => ratio_ok (snd kv)) ud = false ->
     UptimeResource.transform (VDict ud) = Raise TypeError).
Proof.
  intro ud. split.
  - intro H. apply uptime_total. unfold uptime_well_formed.
    rewrite H. apply orb_true_r.
  - intro H. unfold UptimeResource.transform.
    destruct ud as [|kv ud]; [discriminate|]. cbn [truthy negb].
    rewrite percent_fold_raises; [reflexivity | |].
    + intros k v Hk. discriminate.
    + apply Exists_exists.
      destruct (forallb_forall (fun kv => ratio_ok (snd kv)) (kv :: ud))
        as [_ Hall].
      destruct (existsb (fun kv => negb (ratio_ok (snd kv))) (kv :: ud))
        eqn:Eex.
      * apply existsb_exists in Eex. destruct Eex as (x & Hx & Hb).
        exists x. split; [assumption|].
        destruct (ratio_ok (snd x)); [discriminate | reflexivity].
      * exfalso. rewrite Hall in H; [discriminate|].
        intros x Hx. destruct (ratio_ok (snd x)) eqn:Ex; [reflexivity|].
        assert (Hcontra : existsb (fun kv => negb (ratio_ok (snd kv)))
                            (kv :: ud) = true).
        { apply existsb_exists. exists x. split; [assumption|].
          rewrite Ex. reflexivity. }
        congruence.
Qed.

Lemma uptime_transform_domain_witness :
  (exists r, UptimeResource.transform
               (VDict [("24", float_lit 999 1000); ("720", VNone)]) = Ok r)
  /\ UptimeResource.transform (VDict [("24", VStr "99%")]) = Raise TypeError.
Proof.
  split.
  - apply (proj1 (uptime_transform_domain
                    [("24", float_lit 999 1000); ("720", VNone)])).
    reflexivity.
  - apply (proj2 (uptime_transform_domain [("24", VStr "99%")])).
    reflexivity.
Defined.

Lemma string_length_append : forall a b,
  String.length (a ++ b) = (String.length a + String.length b)%nat.
Proof. induction a; intro b; simpl; [reflexivity | rewrite IHa; reflexivity]. Qed.

Lemma append_inj_l : forall s a b, (a ++ s)%string = (b ++ s)%string -> a = b.
Proof.
  intros s a. induction a as [|c a IH]; intros [|c' b] H.
  - reflexivity.
  - exfalso. apply (f_equal String.length) in H.
    simpl in H. rewrite string_length_append in H. lia.
  - exfalso. apply (f_equal String.length) in H.
    simpl in H. rewrite string_length_append in H. lia.
  - simpl in H. injection H as -> H. f_equal. apply IH. exact H.
Qed.

Lemma suffix_clash : forall p q s t,
  s <> EmptyString -> t <> EmptyString -> last_char s <> last_char t ->
  (p ++ s)%string <> (q ++ t)%string.
Proof.
  intros p q s t Hs Ht Hne H. apply Hne.
  rewrite <- (last_char_app p s Hs), <- (last_char_app q t Ht). congruence.
Qed.

Lemma eqb_suffix_clash : forall p q s t,
  s <> EmptyString -> t <> EmptyString -> last_char s <> last_char t ->
  String.eqb (p ++ s) (q ++ t) = false.
Proof.
  intros. apply String.eqb_neq. apply suffix_clash; assumption.
Qed.

Lemma eqb_same_suffix : forall p q s,
  p <> q -> String.eqb (p ++ s) (q ++ s) = false.
Proof.
  intros p q s H. apply String.eqb_neq. intro E. apply H.
  eapply append_inj_l. exact E.
Qed.

Lemma add_percent_spec : forall r p v r',
  UptimeResource.add_percent r p v = Ok r' ->
  exists pct,
    percent_of v = Ok pct /\
    r' = dict_set (dict_set r (p ++ "h") (clean_value v))
           (p ++ "h_percent") pct.
Proof.
  intros r p v r' H. unfold UptimeResource.add_percent in H.
  unfold percent_of. destruct (not_sentinel (clean_value v)).
  - bind_inv H. bind_inv H. inversion H; subst. exists x0.
    rewrite E. cbn [bind]. rewrite E0. split; reflexivity.
  - inversion H; subst. eexists. split; reflexivity.
Qed.

Lemma add_quality_spec : forall r p r',
  UptimeResource.add_quality r p = Ok r' ->
  exists q,
    tier_of (lookup r (p ++ "h_percent")) = Ok q /\
    r' = dict_set r (p ++ "h_quality") q.
Proof.
  intros r p r' H. unfold UptimeResource.add_quality in H.
  unfold has_key, get, get_or in H. unfold tier_of.
  destruct (lookup r (p ++ "h_percent")) as [pct|].
  - cbn [andb] in H. destruct (not_sentinel pct).
    + bind_inv H. inversion H; subst. exists x. split; [assumption|reflexivity].
    + inversion H; subst. eexists. split; reflexivity.
  - cbn [andb] in H. inversion H; subst. eexists. split; reflexivity.
Qed.

Lemma percent_fold_entries : forall (l : dict) r0 r,
  fold_left (fun acc kv => do b <- acc;
                           UptimeResource.add_percent b (fst kv) (snd kv))
    l (Ok r0) = Ok r ->
  NoDup (map fst l) ->
  (forall k,
     (forall p, In p (map fst l) ->
                k <> (p ++ "h")%string /\ k <> (p ++ "h_percent")%string) ->
     lookup r k = lookup r0 k) /\
  (forall p v, In (p, v) l ->
     lookup r (p ++ "h") = Some (clean_value v) /\
     exists pct, percent_of v = Ok pct /\
                 lookup r (p ++ "h_percent") = Some pct).
Proof.
  induction l as [|[p0 v0] l IH]; intros r0 r H Hnd.
  - simpl in H. inversion H; subst. split; [reflexivity | contradiction].
  - simpl in H. inversion Hnd as [|? ? Hnotin Hnd']; subst.
    destruct (UptimeResource.add_percent r0 p0 v0) as [r1|e] eqn:E1;
      [|rewrite fold_bind_raise in H; discriminate].
    destruct (IH r1 r H Hnd') as [Hframe Hentries].
    destruct (add_percent_spec _ _ _ _ E1) as (pct0 & Hpct0 & Hr1).
    assert (Hother : forall p, In p (map fst l) -> p0 <> p).
    { intros p Hp Heq. subst. contradiction. }
    split.
    + intros k Hk. rewrite Hframe.
      * rewrite Hr1, !lookup_dict_set.
        destruct (Hk p0 (or_introl eq_refl)) as [K1 K2].
        destruct (String.eqb_spec (p0 ++ "h_percent") k); [congruence|].
        destruct (String.eqb_spec (p0 ++ "h") k); [congruence|]. reflexivity.
      * intros p Hp. apply Hk. right. assumption.
    + intros p v [Heq|Hin].
      * inversion Heq; subst p v. clear Heq.
        rewrite !Hframe.
        -- rewrite Hr1, !lookup_dict_set.
           rewrite String.eqb_refl.
           rewrite (eqb_suffix_clash p0 p0 "h_percent" "h")
             by (discriminate || (simpl; congruence)).
           rewrite String.eqb_refl.
           split; [reflexivity|]. exists pct0. split; [assumption|reflexivity].
        -- intros p Hp. split.
           ++ apply suffix_clash; (discriminate || (simpl; congruence)).
           ++ intro E. apply (Hother p Hp). eapply append_inj_l. exact E.
        -- intros p Hp. split.
           ++ intro E. apply (Hother p Hp). eapply append_inj_l. exact E.
           ++ apply suffix_clash; (discriminate || (simpl; congruence)).
      * apply Hentries. assumption.
Qed.

Lemma quality_fold_entries : forall (l : dict) r1 r,
  fold_left (fun acc kv => do b <- acc;
                           UptimeResource.add_quality b (fst kv))
    l (Ok r1) = Ok r ->
  NoDup (map fst l) ->
  (forall k,
     (forall p, In p (map fst l) -> k <> (p ++ "h_quality")%string) ->
     lookup r k = lookup r1 k) /\
  (forall p, In p (map fst l) ->
     exists q, tier_of (lookup r1 (p ++ "h_percent")) = Ok q /\
               lookup r (p ++ "h_quality") = Some q).
Proof.
  induction l as [|[p0 v0] l IH]; intros r1 r H Hnd.
  - simpl in H. inversion H; subst. split; [reflexivity | contradiction].
  - simpl in H. inversion Hnd as [|? ? Hnotin Hnd']; subst.
    destruct (UptimeResource.add_quality r1 p0) as [r2|e] eqn:E1;
      [|rewrite fold_bind_raise in H; discriminate].
    destruct (IH r2 r H Hnd') as [Hframe Hentries].
    destruct (add_quality_spec _ _ _ E1) as (q0 & Hq0 & Hr2).
    assert (Hother : forall p, In p (map fst l) -> p0 <> p).
    { intros p Hp Heq. subst. contradiction. }
    split.
    + intros k Hk. rewrite Hframe.
      * rewrite Hr2, lookup_dict_set.
        destruct (String.eqb_spec (p0 ++ "h_quality") k); [|reflexivity].
        exfalso. apply (Hk p0 (or_introl eq_refl)). congruence.
      * intros p Hp. apply Hk. right. assumption.
    + intros p [Heq|Hin].
      * simpl in Heq. subst p. exists q0. split; [assumption|].
        rewrite Hframe.
        -- rewrite Hr2, lookup_dict_set, String.eqb_refl. reflexivity.
        -- intros p Hp E. apply (Hother p Hp). eapply append_inj_l. exact E.
      * destruct (Hentries p Hin) as (q & Hq & Hl).
        exists q. split; [|assumption].
        rewrite <- Hq. f_equal. rewrite Hr2, lookup_dict_set.
        rewrite (eqb_suffix_clash p0 p "h_quality" "h_percent")
          by (discriminate || (simpl; congruence)).
        reflexivity.
Qed.

Lemma add_percent_of : forall r p v pct,
  percent_of v = Ok pct ->
  UptimeResource.add_percent r p v
  = Ok (dict_set (dict_set r (p ++ "h") (clean_value v))
          (p ++ "h_percent") pct).
Proof.
  intros r p v pct H. unfold percent_of in H.
  unfold UptimeResource.add_percent.
  destruct (not_sentinel (clean_value v)).
  - bind_inv H. rewrite E. cbn [bind]. rewrite H. reflexivity.
  - inversion H; subst. reflexivity.
Qed.

Lemma add_quality_of : forall r p q,
  tier_of (lookup r (p ++ "h_percent")) = Ok q ->
  UptimeResource.add_quality r p = Ok (dict_set r (p ++ "h_quality") q).
Proof.
  intros r p q H. unfold UptimeResource.add_quality.
  unfold has_key, get, get_or. unfold tier_of in H.
  destruct (lookup r (p ++ "h_percent")) as [pct|]; cbn [andb].
  - destruct (not_sentinel pct).
    + rewrite H. reflexivity.
    + inversion H; subst. reflexivity.
  - inversion H; subst. reflexivity.
Qed.

Lemma percent_of_sentinel : forall v pct,
  percent_of v = Ok pct -> (pct = SENTINEL <-> clean_value v = SENTINEL).
Proof.
  intros v pct H. unfold percent_of in H.
  destruct (not_sentinel (clean_value v)) eqn:E.
  - apply not_sentinel_true in E. bind_inv H.
    apply py_round_number in H. split; [|congruence].
    intros ->. discriminate.
  - apply not_sentinel_false in E. inversion H. split; auto.
Qed.

Lemma quality_not_sentinel : forall pct q,
  UptimeResource.quality pct = Ok q -> q <> SENTINEL.
Proof.
  intros pct q H. unfold UptimeResource.quality in H.
  bind_inv H. destruct x; [inversion H; discriminate|].
  bind_inv H. destruct x; [inversion H; discriminate|].
  bind_inv H. destruct x; inversion H; discriminate.
Qed.

Lemma tier_of_sentinel : forall pct q,
  tier_of (Some pct) = Ok q -> (q = SENTINEL <-> pct = SENTINEL).
Proof.
  intros pct q H. unfold tier_of in H.
  destruct (not_sentinel pct) eqn:E.
  - apply not_sentinel_true in E. apply quality_not_sentinel in H.
    split; congruence.
  - apply not_sentinel_false in E. inversion H. split; auto.
Qed.

(** X5.  In the record [UptimeResource.transform] returns for a mapping,
    the three entries of each window are those the transform gives for that
    window alone, whatever the other windows are: the cleaned ratio, its
    percentage and its tier, of which the last two are the sentinel exactly
    when the ratio is missing. *)
Theorem uptime_windows_independent :
  forall (ud r : dict) (p : string) (v : pyval),
    NoDup (map fst ud) ->
    In (p, v) ud ->
    UptimeResource.transform (VDict ud) = Ok r ->
    get r (p ++ "h") = clean_value v /\
    (get r (p ++ "h_percent") = SENTINEL <-> clean_value v = SENTINEL) /\
    (get r (p ++ "h_quality") = SENTINEL <-> clean_value v = SENTINEL) /\
    UptimeResource.transform (VDict [(p, v)])
    = Ok [((p ++ "h")%string, get r (p ++ "h"));
          ((p ++ "h_percent")%string, get r (p ++ "h_percent"));
          ((p ++ "h_quality")%string, get r (p ++ "h_quality"))].
Proof.
  intros ud r p v Hnd Hin H.
  unfold UptimeResource.transform in H.
  destruct ud as [|kv0 ud0]; [contradiction|]. cbn [truthy negb] in H.
  set (ud := kv0 :: ud0) in *.
  bind_inv H. rename x into r1.
  destruct (percent_fold_entries ud [] r1 E Hnd) as [_ Hentries].
  destruct (quality_fold_entries ud r1 r H Hnd) as [Hframe Hquality].
  destruct (Hentries p v Hin) as (Hh & pct & Hpct & Hp).
  assert (Hkey : In p (map fst ud)) by (apply (in_map fst ud (p, v)); exact Hin).
  destruct (Hquality p Hkey) as (q & Hq & Hlq).
  rewrite Hp in Hq.
  assert (Gh : get r (p ++ "h") = clean_value v).
  { unfold get, get_or. rewrite Hframe, Hh; [reflexivity|].
    intros p' _. apply suffix_clash; (discriminate || (simpl; congruence)). }
  assert (Gp : get r (p ++ "h_percent") = pct).
  { unfold get, get_or. rewrite Hframe, Hp; [reflexivity|].
    intros p' _. apply suffix_clash; (discriminate || (simpl; congruence)). }
  assert (Gq : get r (p ++ "h_quality") = q).
  { unfold get, get_or. rewrite Hlq. reflexivity. }
  rewrite Gh, Gp, Gq.
  split; [reflexivity|].
  split; [apply percent_of_sentinel; assumption|].
  split.
  { rewrite (tier_of_sentinel pct q Hq). apply percent_of_sentinel. assumption. }
  unfold UptimeResource.transform. cbn [truthy negb fold_left bind fst snd].
  rewrite (add_percent_of [] p v pct Hpct). cbn [bind dict_set].
  rewrite (eqb_suffix_clash p p "h" "h_percent")
    by (discriminate || (simpl; congruence)).
  rewrite (add_quality_of _ p q).
  - cbn [dict_set].
    rewrite (eqb_suffix_clash p p "h" "h_quality")
      by (discriminate || (simpl; congruence)).
    rewrite (eqb_suffix_clash p p "h_percent" "h_quality")
      by (discriminate || (simpl; congruence)).
    reflexivity.
  - cbn [lookup].
    rewrite (eqb_suffix_clash p p "h" "h_percent")
      by (discriminate || (simpl; congruence)).
    rewrite String.eqb_refl. exact Hq.
Qed.

Lemma uptime_windows_independent_witness :
  exists r,
    UptimeResource.transform
      (VDict [("24", float_lit 999 1000); ("720", VNone)]) = Ok r /\
    get r "720h" = VStr "-" /\
    (get r "24h_percent" = SENTINEL <->
     clean_value (float_lit 999 1000) = SENTINEL) /\
    UptimeResource.transform (VDict [("24", float_lit 999 1000)])
    = Ok [("24h", get r "24h"); ("24h_percent", get r "24h_percent");
          ("24h_quality", get r "24h_quality")].
Proof.
  eexists. split; [vm_compute; reflexivity|].
  split; [reflexivity|].
  match goal with
  | |- context [get ?r "24h_percent"] =>
      destruct (uptime_windows_independent
                  [("24", float_lit 999 1000); ("720", VNone)] r
                  "24" (float_lit 999 1000))
        as (_ & Hp & _ & Hs)
  end.
  - repeat constructor; simpl; intuition discriminate.
  - left. reflexivity.
  - vm_compute. reflexivity.
  - split; [exact Hp | exact Hs].
Defined.

(** ** Records built key by key *)

Lemma dict_set_Forall : forall (P : string * pyval -> Prop) d k v,
  Forall P d -> P (k, v) -> Forall P (dict_set d k v).
Proof.
  intros P d k v Hd Hkv. induction Hd as [|[k0 v0] d H0 Hd IH]; simpl.
  - constructor; [assumption | constructor].
  - destruct (String.eqb_spec k0 k) as [->|Hne].
    + constructor; assumption.
    + constructor; assumption.
Qed.

Lemma tidy_dict_set : forall d k v,
  tidy d -> no_upper k = true -> normalized v = true -> tidy (dict_set d k v).
Proof.
  intros d k v Hd Hk Hv. apply dict_set_Forall; [exact Hd|]. split; assumption.
Qed.

Lemma lookup_None_keys : forall d k,
  lookup d k = None <-> ~ In k (map fst d).
Proof.
  induction d as [|[k0 v0] d IH]; intros k; simpl.
  - split; [intros _ [] | reflexivity].
  - destruct (String.eqb_spec k0 k) as [->|Hne].
    + split; [discriminate | intros H; exfalso; apply H; left; reflexivity].
    + rewrite IH. split; [intros H [E|I]; [congruence | auto] | auto].
Qed.

Lemma dict_set_keys : forall d k v,
  map fst (dict_set d k v)
  = if has_key d k then map fst d else (map fst d ++ [k])%list.
Proof.
  induction d as [|[k0 v0] d IH]; intros k v; simpl.
  - reflexivity.
  - unfold has_key in *. simpl.
    destruct (String.eqb_spec k0 k) as [->|Hne]; simpl.
    + reflexivity.
    + rewrite IH. destruct (lookup d k); reflexivity.
Qed.

Lemma dict_set_NoDup : forall d k v,
  NoDup (map fst d) -> NoDup (map fst (dict_set d k v)).
Proof.
  intros d k v H. rewrite dict_set_keys. unfold has_key.
  destruct (lookup d k) eqn:E; [exact H|].
  apply lookup_None_keys in E.
  apply NoDup_rev in H. rewrite <- (rev_involutive (map fst d ++ [k])).
  apply NoDup_rev. rewrite rev_app_distr. simpl. constructor; [|exact H].
  rewrite <- in_rev. exact E.
Qed.

Lemma normalize_lookup : forall (m : dict) acc k,
  lookup
    (fold_left
       (fun result kv =>
          dict_set result (camel_to_snake (fst kv)) (clean_value (snd kv)))
       m acc) k
  = match latest m k with Some x => Some x | None => lookup acc k end.
Proof.
  induction m as [|[k0 v0] m IH]; intros acc k; simpl.
  - reflexivity.
  - rewrite IH, lookup_dict_set. destruct (latest m k); [reflexivity|].
    destruct (String.eqb (camel_to_snake k0) k); reflexivity.
Qed.

Lemma normalize_tidy : forall (m : dict) acc,
  tidy acc ->
  tidy
    (fold_left
       (fun result kv =>
          dict_set result (camel_to_snake (fst kv)) (clean_value (snd kv)))
       m acc).
Proof.
  induction m as [|[k0 v0] m IH]; intros acc H; simpl; [exact H|].
  apply IH. apply tidy_dict_set;
    [exact H | apply camel_to_snake_no_upper | apply clean_value_normalized].
Qed.

Lemma normalize_NoDup : forall (m : dict) acc,
  NoDup (map fst acc) ->
  NoDup
    (map fst
       (fold_left
          (fun result kv =>
             dict_set result (camel_to_snake (fst kv)) (clean_value (snd kv)))
          m acc)).
Proof.
  induction m as [|[k0 v0] m IH]; intros acc H; simpl; [exact H|].
  apply IH. apply dict_set_NoDup. exact H.
Qed.

(** ** Monitors *)

Lemma ensure_list_lookup : forall r f k,
  lookup (MonitorResource.ensure_list r f) k
  = if String.eqb f k then option_map as_list (lookup r k) else lookup r k.
Proof.
  intros r f k. unfold MonitorResource.ensure_list, has_key, get, get_or.
  destruct (String.eqb_spec f k) as [->|Hne].
  - destruct (lookup r k) as [v|] eqn:E; simpl.
    + unfold as_list. destruct (is_list v); simpl.
      * rewrite E. reflexivity.
      * rewrite lookup_dict_set, String.eqb_refl. reflexivity.
    + rewrite E. reflexivity.
  - destruct (lookup r f) as [v|]; simpl; [|reflexivity].
    destruct (is_list v); simpl; [reflexivity|].
    rewrite lookup_dict_set.
    destruct (String.eqb_spec f k); [contradiction | reflexivity].
Qed.

Lemma ensure_list_tidy : forall r f,
  tidy r -> no_upper f = true -> tidy (MonitorResource.ensure_list r f).
Proof.
  intros r f H Hf. unfold MonitorResource.ensure_list.
  destruct (has_key r f && negb (is_list (get r f))); [|exact H].
  apply tidy_dict_set; [exact H | exact Hf | reflexivity].
Qed.

Lemma ensure_list_NoDup : forall r f,
  NoDup (map fst r) -> NoDup (map fst (MonitorResource.ensure_list r f)).
Proof.
  intros r f H. unfold MonitorResource.ensure_list.
  destruct (has_key r f && negb (is_list (get r f))); [|exact H].
  apply dict_set_NoDup. exact H.
Qed.

Lemma monitor_lookup : forall (m : dict) k,
  lookup (MonitorResource.transform_dict m) k
  = if existsb (String.eqb k) MonitorResource.list_fields
    then option_map as_list (latest m k)
    else if String.eqb k "active"
    then Some (VBool (truthy (get m "active")))
    else if String.eqb k "force_inactive"
    then Some (VBool (truthy (get m "forceInactive")))
    else if String.eqb k "status"
    then Some (VInt (if truthy (get m "active") then 1 else 0))
    else if String.eqb k "maintenance"
    then Some (VBool (truthy (get m "maintenance")))
    else latest m k.
Proof.
  intros m k. unfold MonitorResource.transform_dict.
  cbn [fold_left MonitorResource.list_fields existsb].
  rewrite !ensure_list_lookup, !lookup_dict_set.
  unfold MonitorResource.normalize. rewrite normalize_lookup.
  cbn [lookup].
  rewrite (String.eqb_sym k "children_ids"),
          (String.eqb_sym k "notification_id_list"),
          (String.eqb_sym k "tags"),
          (String.eqb_sym k "kafka_producer_brokers"),
          (String.eqb_sym k "active"),
          (String.eqb_sym k "force_inactive"),
          (String.eqb_sym k "status"),
          (String.eqb_sym k "maintenance").
  destruct (String.eqb_spec "children_ids" k) as [<-|];
    [cbn; destruct (latest m "children_ids"); reflexivity|].
  destruct (String.eqb_spec "notification_id_list" k) as [<-|];
    [cbn; destruct (latest m "notification_id_list"); reflexivity|].
  destruct (String.eqb_spec "tags" k) as [<-|];
    [cbn; destruct (latest m "tags"); reflexivity|].
  destruct (String.eqb_spec "kafka_producer_brokers" k) as [<-|];
    [cbn; destruct (latest m "kafka_producer_brokers"); reflexivity|].
  cbn [orb].
  destruct (String.eqb_spec "maintenance" k) as [<-|]; [reflexivity|].
  destruct (String.eqb_spec "status" k) as [<-|]; [reflexivity|].
  destruct (String.eqb_spec "force_inactive" k) as [<-|]; [reflexivity|].
  destruct (String.eqb_spec "active" k) as [<-|]; [reflexivity|].
  destruct (latest m k); reflexivity.
Qed.

(** X6.  On a non-empty mapping [MonitorResource.transform] returns a record
    with distinct keys, none of them holding an upper-case letter and no
    value holding None or the empty string.  Its four flags are computed from
    the entries [active], [forceInactive] and [maintenance] of the input,
    whatever the input stores under the flags' own names; each of the four
    list fields, when present, holds a list; and every other key holds the
    cleaned value of the last input entry with that snake-case name. *)
Theorem monitor_record : forall (m : dict),
  m <> [] ->
  exists r,
    MonitorResource.transform (VDict m) = Ok r /\
    tidy r /\
    NoDup (map fst r) /\
    lookup r "active" = Some (VBool (truthy (get m "active"))) /\
    lookup r "force_inactive" = Some (VBool (truthy (get m "forceInactive"))) /\
    lookup r "status" = Some (VInt (if truthy (get m "active") then 1 else 0)) /\
    lookup r "maintenance" = Some (VBool (truthy (get m "maintenance"))) /\
    (forall f, In f MonitorResource.list_fields ->
       lookup r f = option_map as_list (latest m f)) /\
    (forall k, ~ In k flag_keys -> ~ In k MonitorResource.list_fields ->
       lookup r k = latest m k).
Proof.
  intros m Hm. exists (MonitorResource.transform_dict m).
  split.
  { unfold MonitorResource.transform. destruct m; [contradiction | reflexivity]. }
  split.
  { unfold MonitorResource.transform_dict.
    cbn [fold_left MonitorResource.list_fields].
    repeat (apply ensure_list_tidy; [|reflexivity]).
    repeat (apply tidy_dict_set; [|reflexivity|reflexivity]).
    apply normalize_tidy. constructor. }
  split.
  { unfold MonitorResource.transform_dict.
    cbn [fold_left MonitorResource.list_fields].
    repeat apply ensure_list_NoDup. repeat apply dict_set_NoDup.
    apply normalize_NoDup. constructor. }
  split; [rewrite monitor_lookup; reflexivity|].
  split; [rewrite monitor_lookup; reflexivity|].
  split; [rewrite monitor_lookup; reflexivity|].
  split; [rewrite monitor_lookup; reflexivity|].
  split.
  - intros f Hf. rewrite monitor_lookup.
    destruct Hf as [<-|[<-|[<-|[<-|[]]]]]; reflexivity.
  - intros k Hflag Hlist. rewrite monitor_lookup.
    replace (existsb (String.eqb k) MonitorResource.list_fields) with false.
    + unfold flag_keys in Hflag. simpl in Hflag.
      destruct (String.eqb_spec k "active"); [subst; tauto|].
      destruct (String.eqb_spec k "force_inactive"); [subst; tauto|].
      destruct (String.eqb_spec k "status"); [subst; tauto|].
      destruct (String.eqb_spec k "maintenance"); [subst; tauto|].
      reflexivity.
    + symmetry. apply not_true_is_false. intros H.
      apply existsb_exists in H. destruct H as (f & Hf & E).
      apply String.eqb_eq in E. subst. contradiction.
Qed.

Lemma monitor_record_witness :
  exists r,
    MonitorResource.transform
      (VDict [("monitorID", VInt 7); ("status", VStr "paused");
              ("force_inactive", VBool true); ("tags", VNone);
              ("monitor_id", VStr ""); ("active", VInt 1)]) = Ok r /\
    lookup r "status" = Some (VInt 1) /\
    lookup r "force_inactive" = Some (VBool false) /\
    lookup r "tags" = Some (VList []) /\
    lookup r "monitor_id" = Some (VStr "-").
Proof.
  destruct (monitor_record
              [("monitorID", VInt 7); ("status", VStr "paused");
               ("force_inactive", VBool true); ("tags", VNone);
               ("monitor_id", VStr ""); ("active", VInt 1)])
    as (r & Hr & _ & _ & _ & Hf & Hs & _ & Hl & Ho); [discriminate|].
  exists r. split; [exact Hr|].
  split; [exact Hs|]. split; [exact Hf|].
  split.
  - rewrite (Hl "tags"); [reflexivity | simpl; tauto].
  - rewrite (Ho "monitor_id"); [reflexivity | |];
      simpl; intuition discriminate.
Defined.

(** ** Instance information *)

Lemma py_arith_raise : forall op v w e,
  (forall x y e, op x y = Raise e -> arith_exn e) ->
  py_arith op v w = Raise e -> e = TypeError \/ arith_exn e.
Proof.
  intros op v w e Hop H. unfold py_arith in H.
  destruct (as_num v) as [x|]; [|left; congruence].
  destruct (as_num w) as [y|]; [|left; congruence].
  destruct (op x y) as [r|e'] eqn:E; simpl in H; [discriminate|].
  right. inversion H; subst. eapply Hop; eassumption.
Qed.

Lemma py_arith_number : forall op v w r,
  py_arith op v w = Ok r ->
  is_number v = true /\ is_number w = true /\ is_number r = true.
Proof.
  intros op v w r H. unfold py_arith, is_number in *.
  destruct (as_num v) as [x|]; [|discriminate].
  destruct (as_num w) as [y|]; [|discriminate].
  bind_inv H. inversion H; subst.
  split; [reflexivity|]. split; [reflexivity | apply is_number_of_num].
Qed.

Lemma number_normalized : forall v, is_number v = true -> normalized v = true.
Proof. intros [|b|z|f|s|l|d]; simpl; intros H; (reflexivity || discriminate). Qed.

(** X7.  On a mapping [UptimeKumaInfoResource.transform] can only fail with
    an OverflowError, and only when the memory figures are both numbers.
    When it returns, the record has distinct keys without upper-case letters
    and values without None or the empty string; every key but
    [memory_usage_percent] holds the cleaned value of the last input entry
    with that snake-case name; and [memory_usage_percent] is stored, as a
    number or the sentinel, whenever both memory figures have an entry. *)
Theorem info_record : forall (d : dict),
  match UptimeKumaInfoResource.transform (VDict d) with
  | Ok r =>
      tidy r /\
      NoDup (map fst r) /\
      (forall k, k <> "memory_usage_percent"%string -> lookup r k = latest d k) /\
      (has_key r "mem_total" = true -> has_key r "mem_used" = true ->
       exists pct,
         lookup r "memory_usage_percent" = Some pct /\
         (pct = SENTINEL \/ is_number pct = true) /\
         (is_number pct = true ->
          is_number (get r "mem_total") = true /\
          is_number (get r "mem_used") = true))
  | Raise e =>
      e = OverflowError /\
      (exists total, latest d "mem_total" = Some total /\ is_number total = true) /\
      (exists used, latest d "mem_used" = Some used /\ is_number used = true)
  end.
Proof.
  intros d. unfold UptimeKumaInfoResource.transform.
  destruct d as [|kv0 d0].
  { cbn. split; [constructor|]. split; [constructor|].
    split; [reflexivity | discriminate]. }
  cbn [truthy negb]. set (d := kv0 :: d0). clearbody d. clear kv0 d0.
  assert (Hl : forall k, lookup (UptimeKumaInfoResource.normalize d) k = latest d k).
  { intros k. unfold UptimeKumaInfoResource.normalize.
    rewrite normalize_lookup. destruct (latest d k); reflexivity. }
  assert (Ht : tidy (UptimeKumaInfoResource.normalize d))
    by (apply normalize_tidy; constructor).
  assert (Hn : NoDup (map fst (UptimeKumaInfoResource.normalize d)))
    by (apply normalize_NoDup; constructor).
  set (r0 := UptimeKumaInfoResource.normalize d) in *.
  assert (Hother : forall pct k, k <> "memory_usage_percent"%string ->
            lookup (dict_set r0 "memory_usage_percent" pct) k = latest d k).
  { intros pct k Hk. rewrite lookup_dict_set.
    destruct (String.eqb_spec "memory_usage_percent" k); [congruence | apply Hl]. }
  assert (Hget : forall pct k, k <> "memory_usage_percent"%string ->
            get (dict_set r0 "memory_usage_percent" pct) k = get r0 k).
  { intros pct k Hk. rewrite get_dict_set.
    destruct (String.eqb_spec "memory_usage_percent" k); [congruence | reflexivity]. }
  unfold UptimeKumaInfoResource.memory_usage.
  destruct (has_key r0 "mem_total") eqn:Et; cbn [andb];
    [|split; [exact Ht|]; split; [exact Hn|];
      split; [intros k _; apply Hl | intros H1 H2; congruence]].
  destruct (has_key r0 "mem_used") eqn:Eu;
    [|split; [exact Ht|]; split; [exact Hn|];
      split; [intros k _; apply Hl | intros H1 H2; congruence]].
  destruct (not_sentinel (get r0 "mem_total") && not_sentinel (get r0 "mem_used"))
    eqn:Es.
  2:{ cbn [bind]. split; [apply tidy_dict_set; [exact Ht|reflexivity|reflexivity]|].
      split; [apply dict_set_NoDup; exact Hn|].
      split; [apply Hother|].
      intros _ _. exists (VStr "-"). rewrite lookup_dict_set. cbn.
      split; [reflexivity|]. split; [left; reflexivity | discriminate]. }
  destruct (py_truediv (get r0 "mem_used") (get r0 "mem_total")) as [q|e] eqn:Eq.
  - apply py_arith_number in Eq. destruct Eq as (Hu & Htot & Hq).
    rewrite bind_ret.
    destruct (py_arith_cases num_mul q (VInt 100) num_mul_raise Hq eq_refl)
      as [(x & Ex & Hx) | (e & Ex & He)];
      change (py_arith num_mul) with py_mul in Ex; rewrite Ex.
    + rewrite bind_ret.
      destruct (py_round_total x 2 Hx) as (pct & Hp).
      assert (Hpn := py_round_number _ _ _ Hp).
      rewrite Hp. cbn [try_except bind].
      split; [apply tidy_dict_set;
               [exact Ht | reflexivity | apply number_normalized; exact Hpn]|].
      split; [apply dict_set_NoDup; exact Hn|].
      split; [apply Hother|].
      intros _ _. exists pct. rewrite lookup_dict_set. cbn.
      split; [reflexivity|]. split; [right; exact Hpn|].
      intros _. rewrite !Hget by discriminate. split; assumption.
    + cbn [bind try_except].
      destruct He as [-> | ->].
      * cbn. split; [reflexivity|].
        unfold get, get_or in Hu, Htot. rewrite !Hl in *. unfold has_key in *.
        rewrite !Hl in *.
        destruct (latest d "mem_total") as [t|]; [|discriminate].
        destruct (latest d "mem_used") as [u|]; [|discriminate].
        split; eexists; split; (reflexivity || assumption).
      * cbn. split; [apply tidy_dict_set; [exact Ht|reflexivity|reflexivity]|].
        split; [apply dict_set_NoDup; exact Hn|].
        split; [apply Hother|].
        intros _ _. exists (VStr "-"). rewrite lookup_dict_set. cbn.
        split; [reflexivity|]. split; [left; reflexivity | discriminate].
  - cbn [bind try_except].
    assert (Hcase := py_arith_raise _ _ _ _ num_truediv_raise Eq).
    destruct Hcase as [->|[->| ->]].
    + cbn. split; [apply tidy_dict_set; [exact Ht|reflexivity|reflexivity]|].
      split; [apply dict_set_NoDup; exact Hn|].
      split; [apply Hother|].
      intros _ _. exists (VStr "-"). rewrite lookup_dict_set. cbn.
      split; [reflexivity|]. split; [left; reflexivity | discriminate].
    + cbn. split; [reflexivity|].
      unfold py_truediv, py_arith in Eq.
      destruct (as_num (get r0 "mem_used")) as [nu|] eqn:Au; [|discriminate].
      destruct (as_num (get r0 "mem_total")) as [nt|] eqn:At; [|discriminate].
      unfold get, get_or in Au, At. rewrite !Hl in *.
      destruct (latest d "mem_total") as [t|]; [|discriminate].
      destruct (latest d "mem_used") as [u|]; [|discriminate].
      split; eexists; (split; [reflexivity|]); unfold is_number;
        [rewrite At | rewrite Au]; reflexivity.
    + cbn. split; [apply tidy_dict_set; [exact Ht|reflexivity|reflexivity]|].
      split; [apply dict_set_NoDup; exact Hn|].
      split; [apply Hother|].
      intros _ _. exists (VStr "-"). rewrite lookup_dict_set. cbn.
      split; [reflexivity|]. split; [left; reflexivity | discriminate].
Qed.

Lemma info_record_witness :
  exists r pct,
    UptimeKumaInfoResource.transform
      (VDict [("memTotal", VInt 200); ("memUsed", VInt 50)]) = Ok r /\
    lookup r "memory_usage_percent" = Some pct /\
    (pct = SENTINEL \/ is_number pct = true).
Proof.
  pose proof (info_record [("memTotal", VInt 200); ("memUsed", VInt 50)]) as H.
  destruct (UptimeKumaInfoResource.transform
              (VDict [("memTotal", VInt 200); ("memUsed", VInt 50)]))
    as [r|e] eqn:E.
  - destruct H as (_ & _ & Hk & Hm).
    destruct Hm as (pct & Hp & Hkind & _).
    + unfold has_key. rewrite (Hk "mem_total"); [reflexivity | discriminate].
    + unfold has_key. rewrite (Hk "mem_used"); [reflexivity | discriminate].
    + exists r, pct. split; [reflexivity|]. split; assumption.
  - vm_compute in E. discriminate.
Defined.

(** A memory figure too large for a float makes the division raise, and the
    handler does not cover that error. *)
Example info_overflow_escapes :
  UptimeKumaInfoResource.transform
    (VDict [("memTotal", VInt 1); ("memUsed", VInt (10 ^ 400))])
  = Raise OverflowError.
Proof. vm_compute. reflexivity. Qed.

(** ** Monitor statistics: the record as a whole *)

Lemma transform_run : forall rt data out,
  truthy data = true ->
  MonitorStatisticsResource.transform rt data = Ok out ->
  exists d, data = VDict d /\ run rt d out.
Proof.
  intros rt data out Ht H. unfold MonitorStatisticsResource.transform in H.
  rewrite Ht in H. cbn [negb] in H.
  destruct data as [| | | | | |d]; try discriminate H.
  exists d. split; [reflexivity|].
  cbn [py_get_or py_get bind] in H.
  repeat bind_inv H.
  inversion H; subst out; clear H.
  destruct (get_or d "monitor" (VDict [])) eqn:Em; try discriminate.
  match goal with E : as_dict _ = Ok _ |- _ => inversion E; subst; clear E end.
  econstructor; try eassumption; reflexivity.
Qed.

Lemma clean_entries_normalized : forall r,
  clean_entries r -> normalized (VDict r) = true.
Proof.
  intros r H. simpl. apply forallb_forall. intros [k v] Hin.
  unfold clean_entries in H. rewrite Forall_forall in H.
  apply (H (k, v) Hin).
Qed.

Lemma clean_entries_set : forall r k v,
  clean_entries r -> normalized v = true -> clean_entries (dict_set r k v).
Proof. intros r k v H Hv. apply dict_set_Forall; assumption. Qed.

Lemma heartbeat_clean_entries : forall hb r,
  HeartbeatResource.transform hb = Ok r -> clean_entries r.
Proof.
  intros hb r H. unfold HeartbeatResource.transform in H.
  destruct (negb (truthy hb)); [inversion H; constructor|].
  destruct hb as [| | | | | |h]; try discriminate. inversion H; subst.
  unfold HeartbeatResource.transform_dict, dict_of.
  cbn [fold_left fst snd].
  repeat (apply clean_entries_set;
          [| first [apply clean_value_normalized | apply ping_tier_normalized
                   | reflexivity]]).
  constructor.
Qed.

Lemma cert_clean_entries : forall c r,
  CertificateInfoResource.transform c = Ok r -> clean_entries r.
Proof.
  intros c r H. unfold CertificateInfoResource.transform in H.
  destruct (negb (truthy c)); [inversion H; constructor|].
  repeat bind_inv H. injection H as <-. unfold clean_entries.
  repeat (apply Forall_cons;
          [first [apply clean_value_normalized
                 | apply expiry_status_normalized]|]).
  constructor.
Qed.

Lemma quality_normalized : forall pct q,
  UptimeResource.quality pct = Ok q -> normalized q = true.
Proof.
  intros pct q H. unfold UptimeResource.quality in H.
  bind_inv H. destruct x; [inversion H; reflexivity|].
  bind_inv H. destruct x; [inversion H; reflexivity|].
  bind_inv H. destruct x; inversion H; reflexivity.
Qed.

Lemma uptime_clean_entries : forall u r,
  UptimeResource.transform u = Ok r -> clean_entries r.
Proof.
  intros u r H. unfold UptimeResource.transform in H.
  destruct (negb (truthy u)); [inversion H; constructor|].
  destruct u as [| | | | | |ud]; try discriminate.
  bind_inv H.
  eapply (fold_bind_inv _ _ (fun b kv => UptimeResource.add_quality b (fst kv))
            clean_entries); [exact H | |].
  - eapply (fold_bind_inv _ _
              (fun b kv => UptimeResource.add_percent b (fst kv) (snd kv))
              clean_entries); [exact E | constructor |].
    intros b kv b' Hb Hs. apply add_percent_spec in Hs.
    destruct Hs as (pct & Hp & ->).
    apply clean_entries_set;
      [apply clean_entries_set; [exact Hb | apply clean_value_normalized]|].
    unfold percent_of in Hp. destruct (not_sentinel (clean_value (snd kv))).
    + bind_inv Hp. apply py_round_number in Hp.
      apply number_normalized. exact Hp.
    + inversion Hp. reflexivity.
  - intros b kv b' Hb Hs. apply add_quality_spec in Hs.
    destruct Hs as (q & Hq & ->).
    apply clean_entries_set; [exact Hb|].
    unfold tier_of in Hq.
    destruct (lookup b (fst kv ++ "h_percent")) as [pct|];
      [|inversion Hq; reflexivity].
    destruct (not_sentinel pct); [|inversion Hq; reflexivity].
    eapply quality_normalized. exact Hq.
Qed.

Lemma mapM_clean_entries : forall (f : pyval -> res dict) l rs,
  (forall x r, f x = Ok r -> clean_entries r) ->
  mapM f l = Ok rs ->
  normalized (VList (map VDict rs)) = true.
Proof.
  intros f l rs Hf H. apply mapM_Forall2 in H. simpl.
  induction H as [|x r l rs Hx Hrest IH]; [reflexivity|].
  cbn [map forallb]. rewrite IH, andb_true_r.
  apply clean_entries_normalized. eapply Hf. exact Hx.
Qed.

Lemma ping_stability_normalized : forall rt pings s,
  MonitorStatisticsResource.ping_stability rt pings = Ok s ->
  s = SENTINEL \/ is_number s = true.
Proof.
  intros rt pings s H. unfold MonitorStatisticsResource.ping_stability in H.
  destruct (1 <? Z.of_nat (List.length pings)); [|inversion H; left; reflexivity].
  destruct (stdev rt pings) as [sd|e]; cbn [bind try_except] in H.
  - inversion H. right. reflexivity.
  - destruct (existsb (exn_eqb e) [StatisticsError]); inversion H.
    left. reflexivity.
Qed.

Lemma health_score_kind : forall u a s,
  MonitorStatisticsResource.health_score u a = Ok s ->
  s = SENTINEL \/ is_number s = true.
Proof.
  intros u a s H. unfold MonitorStatisticsResource.health_score in H.
  destruct (not_sentinel (get_or u "24h_percent" (VStr "-")) && not_sentinel a);
    [|inversion H; left; reflexivity].
  unfold try_except in H.
  match type of H with
  | match ?m with _ => _ end = _ => destruct m as [x|e] eqn:E
  end.
  - inversion H; subst. right.
    repeat bind_inv E. eapply py_round_number. exact E.
  - destruct (existsb (exn_eqb e) [TypeError; ValueError]); inversion H.
    left. reflexivity.
Qed.

Lemma sentinel_or_number_normalized : forall v,
  v = SENTINEL \/ is_number v = true -> normalized v = true.
Proof. intros v [->|H]; [reflexivity | apply number_normalized; exact H]. Qed.

Lemma lookup_In : forall d k v, lookup d k = Some v -> In (k, v) d.
Proof.
  induction d as [|[k0 v0] d IH]; intros k v H; simpl in H; [discriminate|].
  destruct (String.eqb_spec k0 k) as [->|Hne].
  - inversion H. left. reflexivity.
  - right. apply IH. exact H.
Qed.

(** X8.  In the record [MonitorStatisticsResource.transform] returns, the
    entry [logs] is the only one that can hold None or an empty string:
    every other entry is free of both, at any depth. *)
Theorem statistics_leaves_outside_logs :
  forall (rt : Runtime) (data : pyval) (out : dict) (k : string) (v : pyval),
    MonitorStatisticsResource.transform rt data = Ok out ->
    lookup out k = Some v ->
    k <> "logs"%string ->
    normalized v = true.
Proof.
  intros rt data out k v H Hl Hk.
  destruct (truthy data) eqn:Ht.
  2:{ unfold MonitorStatisticsResource.transform in H. rewrite Ht in H.
      inversion H; subst. discriminate. }
  destruct (transform_run rt data out Ht H) as (d & -> & R).
  destruct R as [monitor hbs ihbs all pings recent important avg uptime_data
                   cert changes last_change stability combined logs score
                   Hm Hh Hi Hrec Himp Hall Hp Havg Hu Hch Hlast Hst Hsort
                   Hlogs Hcert Hscore Hout].
  assert (Hall_entries :
            Forall (fun kv => fst kv = "logs"%string \/ normalized (snd kv) = true)
              out).
  { subst out. unfold MonitorStatisticsResource.result_literal, dict_of.
    cbn [fold_left fst snd].
    repeat (apply dict_set_Forall;
            [| first
                 [ left; reflexivity
                 | right; cbn [snd];
                   first
                     [ apply clean_value_normalized
                     | apply ping_tier_normalized
                     | reflexivity
                     | apply clean_entries_normalized;
                       first [eapply uptime_clean_entries; eassumption
                             | eapply cert_clean_entries; eassumption]
                     | eapply mapM_clean_entries;
                       [apply heartbeat_clean_entries | eassumption]
                     | apply sentinel_or_number_normalized;
                       first [eapply ping_stability_normalized; eassumption
                             | eapply health_score_kind; eassumption] ] ] ]).
    constructor. }
  apply lookup_In in Hl. rewrite Forall_forall in Hall_entries.
  destruct (Hall_entries (k, v) Hl) as [E|E]; [contradiction | exact E].
Qed.

Lemma statistics_leaves_outside_logs_witness :
  exists out,
    MonitorStatisticsResource.transform sample_runtime leaky_bundle = Ok out /\
    has_none (get out "logs") = true /\
    normalized (get out "recent_heartbeats") = true.
Proof.
  eexists. split; [vm_compute; reflexivity|].
  split; [reflexivity|].
  match goal with
  | |- normalized (get ?out _) = true =>
      apply (statistics_leaves_outside_logs sample_runtime leaky_bundle out
               "recent_heartbeats")
  end.
  - vm_compute. reflexivity.
  - reflexivity.
  - discriminate.
Defined.

(** ** Monitor statistics: counts and previews *)

Lemma chars_app : forall s1 s2,
  chars (s1 ++ s2) = (chars s1 ++ chars s2)%list.
Proof.
  induction s1 as [|c s1 IH]; intro s2; simpl; [reflexivity|].
  rewrite IH. reflexivity.
Qed.

Lemma seq_concat_app : forall a b x y all,
  as_seq a = Ok x -> as_seq b = Ok y -> seq_concat a b = Ok all ->
  all = (x ++ y)%list.
Proof.
  intros a b x y all Ha Hb H.
  destruct a; try discriminate; destruct b; try discriminate;
    simpl in *; inversion Ha; inversion Hb; inversion H; subst;
    [apply chars_app | reflexivity].
Qed.

Lemma sort_combined_perm : forall rt all combined,
  MonitorStatisticsResource.sort_combined rt all = Ok combined ->
  Permutation all combined.
Proof.
  intros rt all combined H. unfold MonitorStatisticsResource.sort_combined in H.
  destruct all as [|hb all']; [inversion H; constructor|].
  destruct (list_sort MonitorStatisticsResource.datetime_lt
              (MonitorStatisticsResource.time_key rt) true (hb :: all'))
    as [l|e] eqn:E.
  - inversion H; subst. eapply list_sort_perm. exact E.
  - eapply list_sort_perm. exact H.
Qed.

Lemma status_changes_bound : forall hbs n,
  MonitorStatisticsResource.status_changes hbs = Ok n ->
  0 <= n <= Z.max 0 (Z.of_nat (List.length hbs) - 1).
Proof.
  induction hbs as [|prev rest IH]; intros n H.
  - inversion H. simpl. lia.
  - destruct rest as [|cur rest'].
    + inversion H. simpl. lia.
    + change (MonitorStatisticsResource.status_changes (prev :: cur :: rest'))
        with (do a <- py_get cur "status";
              do b <- py_get prev "status";
              do m <- MonitorStatisticsResource.status_changes (cur :: rest');
              Ok (if py_eq a b then m else m + 1)) in H.
      bind_inv H. bind_inv H. bind_inv H. inversion H; subst.
      specialize (IH _ E1).
      change (List.length (prev :: cur :: rest'))
        with (S (List.length (cur :: rest'))).
      change (List.length (cur :: rest')) with (S (List.length rest')) in *.
      destruct (py_eq x x0); lia.
Qed.

(** X9.  In the record [MonitorStatisticsResource.transform] returns, the
    two counters are the lengths of the two heartbeat sections of the
    bundle, while the previews hold the transforms of at most the first ten
    heartbeats and the first twenty-five important ones; [logs] has one
    entry for each heartbeat of either section, and the number of status
    changes lies between zero and one less than the number of heartbeats. *)
Theorem statistics_counts :
  forall (rt : Runtime) (d out : dict) (hbs ihbs : list pyval),
    d <> [] ->
    MonitorStatisticsResource.transform rt (VDict d) = Ok out ->
    as_seq (get_or d "heartbeats" (VList [])) = Ok hbs ->
    as_seq (get_or d "important_heartbeats" (VList [])) = Ok ihbs ->
    get out "heartbeats_count" = VInt (Z.of_nat (List.length hbs)) /\
    get out "important_heartbeats_count"
      = VInt (Z.of_nat (List.length ihbs)) /\
    (exists recent,
       get out "recent_heartbeats" = VList (map VDict recent) /\
       Forall2 (fun hb r => HeartbeatResource.transform hb = Ok r)
         (firstn 10 hbs) recent /\
       List.length recent = Nat.min 10 (List.length hbs)) /\
    (exists important,
       get out "important_heartbeats" = VList (map VDict important) /\
       Forall2 (fun hb r => HeartbeatResource.transform hb = Ok r)
         (firstn 25 ihbs) important /\
       List.length important = Nat.min 25 (List.length ihbs)) /\
    (exists logs,
       get out "logs" = VList logs /\
       List.length logs = (List.length hbs + List.length ihbs)%nat) /\
    (exists n,
       get out "status_changes_count" = VInt n /\
       0 <= n <= Z.max 0 (Z.of_nat (List.length hbs) - 1)).
Proof.
  intros rt d out hbs ihbs Hne H Hhbs Hihbs.
  assert (Ht : truthy (VDict d) = true) by (destruct d; [congruence | reflexivity]).
  destruct (transform_run rt (VDict d) out Ht H) as (d' & Ed & R).
  inversion Ed; subst d'; clear Ed.
  destruct R as [monitor hbs' ihbs' all pings recent important avg uptime_data
                   cert changes last_change stability combined logs score
                   Hm Hh Hi Hrec Himp Hall Hp Havg Hu Hch Hlast Hst Hsort
                   Hlogs Hcert Hscore Hout].
  rewrite Hhbs in Hh. inversion Hh; subst hbs'; clear Hh.
  rewrite Hihbs in Hi. inversion Hi; subst ihbs'; clear Hi.
  subst out.
  split; [reflexivity|]. split; [reflexivity|].
  split.
  { exists recent. split; [reflexivity|].
    split; [apply mapM_Forall2; exact Hrec|].
    transitivity (List.length (firstn 10 hbs));
      [exact (mapM_length _ _ _ _ _ Hrec) | apply length_firstn]. }
  split.
  { exists important. split; [reflexivity|].
    split; [apply mapM_Forall2; exact Himp|].
    transitivity (List.length (firstn 25 ihbs));
      [exact (mapM_length _ _ _ _ _ Himp) | apply length_firstn]. }
  split.
  { exists logs. split; [reflexivity|].
    rewrite (mapM_length _ _ _ _ _ Hlogs).
    rewrite <- (Permutation_length (sort_combined_perm _ _ _ Hsort)).
    rewrite (seq_concat_app _ _ _ _ _ Hhbs Hihbs Hall).
    apply length_app. }
  exists changes. split; [reflexivity|].
  apply status_changes_bound. exact Hch.
Qed.

Lemma statistics_counts_witness :
  exists out n,
    MonitorStatisticsResource.transform sample_runtime healthy_bundle = Ok out /\
    get out "heartbeats_count" = VInt 2 /\
    get out "status_changes_count" = VInt n /\ 0 <= n <= 1.
Proof.
  unfold healthy_bundle.
  match goal with
  | |- exists out n,
         MonitorStatisticsResource.transform _ (VDict ?d) = _ /\ _ =>
      destruct (MonitorStatisticsResource.transform sample_runtime (VDict d))
        as [out|e] eqn:E; [|vm_compute in E; discriminate];
      destruct (statistics_counts sample_runtime d out _ _
                  ltac:(discriminate) E eq_refl eq_refl)
        as (Hc & _ & _ & _ & _ & n & Hn & Hb)
  end.
  exists out, n. split; [reflexivity|]. split; [exact Hc|].
  split; [exact Hn|]. cbn in Hb. lia.
Defined.

(** ** Monitor statistics: the pings *)

Lemma average_nonempty : forall pings avg,
  pings <> [] ->
  MonitorStatisticsResource.average pings = Ok avg ->
  Forall (fun p => is_number p = true) pings /\ exists f, avg = VFloat f.
Proof.
  intros pings avg Hne H. unfold MonitorStatisticsResource.average in H.
  destruct pings as [|p ps]; [congruence|].
  bind_inv H. split; [eapply py_sum_numbers; exact E|].
  unfold py_truediv, py_arith in H.
  destruct (as_num x) as [nx|]; [|discriminate]. cbn [as_num] in H.
  bind_inv H. inversion H; subst.
  destruct (num_truediv_float _ _ _ E0) as (f & ->). exists f. reflexivity.
Qed.

(** X10.  When [MonitorStatisticsResource.transform] returns, every ping of
    the two heartbeat sections that is not None is a number.  The record's
    [avg_ping_calculated] and [ping_quality] are the sentinel exactly when
    there is no such ping; otherwise the average is a float.  A
    [ping_stability] other than the sentinel takes at least two such
    pings. *)
Theorem statistics_pings :
  forall (rt : Runtime) (d out : dict) (hbs ihbs : list pyval),
    d <> [] ->
    MonitorStatisticsResource.transform rt (VDict d) = Ok out ->
    as_seq (get_or d "heartbeats" (VList [])) = Ok hbs ->
    as_seq (get_or d "important_heartbeats" (VList [])) = Ok ihbs ->
    exists pings,
      MonitorStatisticsResource.valid_pings (hbs ++ ihbs) = Ok pings /\
      Forall (fun p => is_number p = true) pings /\
      (get out "avg_ping_calculated" = SENTINEL <-> pings = []) /\
      (pings <> [] -> exists f, get out "avg_ping_calculated" = VFloat f) /\
      (get out "ping_quality" = SENTINEL <-> pings = []) /\
      (get out "ping_stability" <> SENTINEL -> (2 <= List.length pings)%nat).
Proof.
  intros rt d out hbs ihbs Hne H Hhbs Hihbs.
  assert (Ht : truthy (VDict d) = true) by (destruct d; [congruence | reflexivity]).
  destruct (transform_run rt (VDict d) out Ht H) as (d' & Ed & R).
  inversion Ed; subst d'; clear Ed.
  destruct R as [monitor hbs' ihbs' all pings recent important avg uptime_data
                   cert changes last_change stability combined logs score
                   Hm Hh Hi Hrec Himp Hall Hp Havg Hu Hch Hlast Hst Hsort
                   Hlogs Hcert Hscore Hout].
  rewrite (seq_concat_app _ _ _ _ _ Hhbs Hihbs Hall) in Hp.
  exists pings. split; [exact Hp|].
  assert (Ga : get out "avg_ping_calculated" = clean_value avg)
    by (subst out; reflexivity).
  assert (Gq : get out "ping_quality" = ping_tier (clean_value avg))
    by (subst out; reflexivity).
  assert (Gs : get out "ping_stability" = stability)
    by (subst out; reflexivity).
  rewrite Ga, Gq, Gs. clear Ga Gq Gs Hout.
  destruct pings as [|p ps].
  - inversion Havg; subst avg.
    split; [constructor|].
    split; [split; reflexivity|].
    split; [congruence|].
    split; [split; reflexivity|].
    inversion Hst. intros Hs. exfalso. apply Hs. reflexivity.
  - destruct (average_nonempty (p :: ps) avg ltac:(discriminate) Havg)
      as (Hnum & f & ->).
    split; [exact Hnum|].
    split; [split; discriminate|].
    split; [intros _; exists f; reflexivity|].
    split; [rewrite ping_tier_sentinel; split; discriminate|].
    intros Hs. unfold MonitorStatisticsResource.ping_stability in Hst.
    destruct (1 <? Z.of_nat (List.length (p :: ps))) eqn:El.
    + apply Z.ltb_lt in El. lia.
    + inversion Hst; subst. exfalso. apply Hs. reflexivity.
Qed.

Lemma statistics_pings_witness :
  exists out pings,
    MonitorStatisticsResource.transform sample_runtime healthy_bundle = Ok out /\
    pings = [VInt 50; VInt 50] /\
    (pings <> [] -> exists f, get out "avg_ping_calculated" = VFloat f).
Proof.
  unfold healthy_bundle.
  match goal with
  | |- exists out pings,
         MonitorStatisticsResource.transform _ (VDict ?d) = _ /\ _ =>
      destruct (MonitorStatisticsResource.transform sample_runtime (VDict d))
        as [out|e] eqn:E; [|vm_compute in E; discriminate];
      destruct (statistics_pings sample_runtime d out _ _
                  ltac:(discriminate) E eq_refl eq_refl)
        as (pings & Hp & _ & _ & Hf & _)
  end.
  exists out, pings. split; [reflexivity|].
  split; [vm_compute in Hp; congruence | exact Hf].
Defined.

(** ** Monitor statistics: sections stored as None *)

Lemma none_heartbeats_raise : forall rt (d : dict),
  d <> [] ->
  lookup d "heartbeats" = Some VNone ->
  MonitorStatisticsResource.transform rt (VDict d) = Raise TypeError.
Proof.
  intros rt d Hne Hl. unfold MonitorStatisticsResource.transform.
  destruct d as [|kv d0]; [congruence|]. cbn [truthy negb].
  cbn [py_get_or bind].
  replace (get_or (kv :: d0) "heartbeats" (VList [])) with VNone
    by (unfold get_or; rewrite Hl; reflexivity).
  reflexivity.
Qed.

(** X11.  The defaults of the bundle's sections only stand in for absent
    keys.  A non-empty bundle that stores None under [heartbeats] makes
    [MonitorStatisticsResource.transform] raise TypeError, and one that
    stores None under [important_heartbeats] or under [monitor] never
    returns a record. *)
Theorem statistics_none_sections :
  forall (rt : Runtime) (d : dict),
    d <> [] ->
    (lookup d "heartbeats" = Some VNone ->
     MonitorStatisticsResource.transform rt (VDict d) = Raise TypeError) /\
    (lookup d "important_heartbeats" = Some VNone \/
     lookup d "monitor" = Some VNone ->
     exists e, MonitorStatisticsResource.transform rt (VDict d) = Raise e).
Proof.
  intros rt d Hne. split; [apply none_heartbeats_raise; exact Hne|].
  intros Hcase.
  destruct (MonitorStatisticsResource.transform rt (VDict d)) as [out|e] eqn:H;
    [|exists e; reflexivity].
  exfalso.
  assert (Ht : truthy (VDict d) = true) by (destruct d; [congruence | reflexivity]).
  destruct (transform_run rt (VDict d) out Ht H) as (d' & Ed & R).
  inversion Ed; subst d'; clear Ed.
  destruct R as [monitor hbs' ihbs' all pings recent important avg uptime_data
                   cert changes last_change stability combined logs score
                   Hm Hh Hi Hrec Himp Hall Hp Havg Hu Hch Hlast Hst Hsort
                   Hlogs Hcert Hscore Hout].
  destruct Hcase as [Hl|Hl].
  - unfold get_or in Hi. rewrite Hl in Hi. discriminate.
  - unfold get_or in Hm. rewrite Hl in Hm. discriminate.
Qed.

Lemma statistics_none_sections_witness :
  MonitorStatisticsResource.transform sample_runtime
    (VDict [("monitor", VDict [("name", VStr "api")]); ("heartbeats", VNone)])
  = Raise TypeError /\
  exists e,
    MonitorStatisticsResource.transform sample_runtime
      (VDict [("monitor", VNone); ("heartbeats", VList [])]) = Raise e.
Proof.
  split.
  - apply (proj1 (statistics_none_sections sample_runtime
                    [("monitor", VDict [("name", VStr "api")]);
                     ("heartbeats", VNone)] ltac:(discriminate))).
    reflexivity.
  - apply (proj2 (statistics_none_sections sample_runtime
                    [("monitor", VNone); ("heartbeats", VList [])]
                    ltac:(discriminate))).
    right. reflexivity.
Defined.

(** ** The fleet: its monitors *)

Section SortAscending.
Context {K A : Type}.
Variable ltb : K -> K -> bool.
Hypothesis ltb_asym : forall a b, ltb a b = true -> ltb b a = false.
Hypothesis ltb_negtrans :
  forall a b c, ltb a b = false -> ltb b c = false -> ltb a c = false.

Let lt (a b : K) : res bool := Ok (ltb a b).
Let ascending (x y : K * A) : Prop := ltb (fst y) (fst x) = false.

Lemma insert_asc_sorted : forall (x : K * A) l l',
  StronglySorted ascending l ->
  insert_asc lt x l = Ok l' ->
  StronglySorted ascending l'.
Proof.
  induction l as [|y r IH]; intros l' Hs H; simpl in H.
  - inversion H. repeat constructor.
  - inversion Hs as [|? ? Hsr Hyr]; subst.
    unfold lt in H at 1. cbn [bind] in H.
    destruct (ltb (fst y) (fst x)) eqn:E.
    + bind_inv H. inversion H; subst.
      constructor; [eapply IH; eassumption|].
      apply insert_asc_perm in E0.
      eapply Permutation_Forall; [exact E0|].
      constructor; [apply ltb_asym; exact E | assumption].
    + inversion H; subst.
      constructor; [assumption|].
      constructor; [exact E|].
      eapply Forall_impl; [|exact Hyr].
      intros z Hz. eapply ltb_negtrans; [exact Hz | exact E].
Qed.

Lemma sort_keyed_asc_sorted : forall (l s : list (K * A)),
  sort_keyed lt false l = Ok s -> StronglySorted ascending s.
Proof.
  induction l as [|x l IH]; intros s H; simpl in H.
  - inversion H. constructor.
  - bind_inv H. eapply insert_asc_sorted; [|exact H]. apply IH. exact E.
Qed.

Lemma list_sort_asc_sorted : forall (key : A -> res K) l s,
  list_sort lt key false l = Ok s ->
  Forall (fun x => exists k, key x = Ok k) s /\
  StronglySorted
    (fun x y => forall kx ky, key x = Ok kx -> key y = Ok ky ->
                              ltb ky kx = false) s.
Proof.
  intros key l s H. unfold list_sort in H.
  bind_inv H. bind_inv H. inversion H; subst; clear H.
  destruct (keyed_snd _ _ _ _ _ E) as [_ Hkeys].
  assert (Hk : Forall (fun p => key (snd p) = Ok (fst p)) x0)
    by (eapply Permutation_Forall;
        [eapply sort_keyed_perm; exact E0 | exact Hkeys]).
  split.
  - apply Forall_forall. intros m Hm. apply in_map_iff in Hm.
    destruct Hm as (p & <- & Hp). rewrite Forall_forall in Hk.
    exists (fst p). apply Hk. exact Hp.
  - eapply StronglySorted_map; [|eapply sort_keyed_asc_sorted; exact E0].
    intros p q Hp Hq Hpq kx ky Ex Ey. rewrite Forall_forall in Hk.
    rewrite (Hk p Hp) in Ex. rewrite (Hk q Hq) in Ey.
    inversion Ex; inversion Ey; subst. exact Hpq.
Qed.
End SortAscending.

Lemma name_key_lower_name : forall m k,
  AllMonitorsStatisticsResource.name_key m = Ok k ->
  k = lower_name m /\ exists s, get_or m "name" (VStr "") = VStr s.
Proof.
  intros m k H. unfold AllMonitorsStatisticsResource.name_key in H.
  unfold lower_name.
  destruct (get_or m "name" (VStr "")) as [| | | |s| |]; try discriminate.
  inversion H. split; [reflexivity | exists s; reflexivity].
Qed.

Lemma monitor_entry_of : forall rt item m,
  AllMonitorsStatisticsResource.monitor_entry rt item = Ok m ->
  entry_of rt item m.
Proof.
  intros rt item m H. unfold AllMonitorsStatisticsResource.monitor_entry in H.
  bind_inv H. bind_inv H. inversion H; subst.
  exists x, x0. split; [assumption|]. split; [assumption|].
  split; [reflexivity|]. rewrite get_dict_set, String.eqb_refl. reflexivity.
Qed.

(** X12.  The [monitors] of the fleet statistics are the records of the
    entries of the input's [monitors] mapping, one for each entry and each
    with the integer read from the entry's key as its [id], rearranged so
    that no record is followed by one whose lower-cased name is smaller;
    every name is a string, and [monitors_count] is the number of
    entries. *)
Theorem fleet_monitors_ordered :
  forall (rt : Runtime) (data : pyval) (f : FleetStatistics),
    AllMonitorsStatisticsResource.transform rt data = Ok (Some f) ->
    exists (items : dict) (unsorted : list dict),
      py_get_or data "monitors" (VDict []) = Ok (VDict items) /\
      Forall2 (entry_of rt) items unsorted /\
      Permutation unsorted (monitors f) /\
      Forall (fun m => exists s, get_or m "name" (VStr "") = VStr s)
        (monitors f) /\
      StronglySorted name_ordered (monitors f) /\
      monitors_count f = Z.of_nat (List.length items).
Proof.
  intros rt data f H.
  destruct (fleet_stages rt data f H)
    as [items unsorted Hi Hu Hsort Hup Hdown Hmt Cn Cu Cd Cm Hpct Hresp].
  exists items, unsorted. split; [exact Hi|].
  assert (Hperm := list_sort_perm _ _ _ _ _ _ _ Hsort).
  destruct (list_sort_asc_sorted String.ltb string_ltb_asym string_ltb_negtrans
              AllMonitorsStatisticsResource.name_key unsorted (monitors f) Hsort)
    as [Hkeys Hsorted].
  split.
  { apply mapM_Forall2 in Hu.
    eapply Forall2_impl; [|exact Hu]. intros item m. apply monitor_entry_of. }
  split; [exact Hperm|].
  split.
  { eapply Forall_impl; [|exact Hkeys]. intros m [k Hk].
    apply name_key_lower_name in Hk. tauto. }
  split.
  { eapply StronglySorted_weaken; [|exact Hsorted].
    intros a b Ha Hb Hab. unfold name_ordered.
    rewrite Forall_forall in Hkeys.
    destruct (Hkeys a Ha) as [ka Hka]. destruct (Hkeys b Hb) as [kb Hkb].
    specialize (Hab ka kb Hka Hkb).
    apply name_key_lower_name in Hka. apply name_key_lower_name in Hkb.
    destruct Hka as [-> _]. destruct Hkb as [-> _]. exact Hab. }
  rewrite Cn. f_equal.
  rewrite <- (Permutation_length Hperm).
  eapply mapM_length. exact Hu.
Qed.

Lemma fleet_monitors_ordered_witness :
  exists f,
    AllMonitorsStatisticsResource.transform sample_runtime fleet_of_six
      = Ok (Some f) /\
    map lower_name (monitors f) = ["api"; "cache"; "db"; "mail"; "queue"; "web"] /\
    map (fun m => get m "id") (monitors f)
      = [VInt 1; VInt 5; VInt 3; VInt 4; VInt 6; VInt 2] /\
    StronglySorted name_ordered (monitors f).
Proof.
  exists fleet_of_six_output.
  assert (H : AllMonitorsStatisticsResource.transform sample_runtime fleet_of_six
              = Ok (Some fleet_of_six_output)) by (vm_compute; reflexivity).
  split; [exact H|]. split; [reflexivity|]. split; [reflexivity|].
  destruct (fleet_monitors_ordered sample_runtime fleet_of_six
              fleet_of_six_output H)
    as (items & unsorted & _ & _ & _ & _ & Hs & _).
  exact Hs.
Defined.

(** ** The fleet: failures *)

Lemma mapM_first_raise : forall (A B : Type) (f : A -> res B) before x after e,
  Forall (fun a => exists b, f a = Ok b) before ->
  f x = Raise e ->
  mapM f (before ++ x :: after) = Raise e.
Proof.
  intros A B f before x after e Hb Hx.
  induction Hb as [|a before [b Ha] _ IH]; simpl.
  - rewrite Hx. reflexivity.
  - rewrite Ha, IH. reflexivity.
Qed.

Lemma fleet_entry_raise : forall rt data (items : dict) before item after e,
  truthy data = true ->
  py_get_or data "monitors" (VDict []) = Ok (VDict items) ->
  items = (before ++ item :: after)%list ->
  Forall (fun i => exists m,
            AllMonitorsStatisticsResource.monitor_entry rt i = Ok m) before ->
  AllMonitorsStatisticsResource.monitor_entry rt item = Raise e ->
  AllMonitorsStatisticsResource.transform rt data = Raise e.
Proof.
  intros rt data items before item after e Ht Hi -> Hb He.
  unfold AllMonitorsStatisticsResource.transform.
  rewrite Ht. cbn [negb]. rewrite Hi, bind_ret. cbn [as_dict].
  rewrite bind_ret.
  rewrite (mapM_first_raise _ _ _ before item after e Hb He). reflexivity.
Qed.

(** X13.  One entry of the [monitors] mapping is enough to fail the whole
    fleet: when the entries before it are transformed, the exception raised
    by [MonitorStatisticsResource.transform] on an entry's bundle is raised
    by [AllMonitorsStatisticsResource.transform], and so is the ValueError
    of a key that does not read as an integer. *)
Theorem fleet_fails_with_entry :
  forall (rt : Runtime) (data : pyval) (items before after : dict)
         (key : string) (bundle : pyval),
    truthy data = true ->
    py_get_or data "monitors" (VDict []) = Ok (VDict items) ->
    items = (before ++ (key, bundle) :: after)%list ->
    Forall (fun i => exists m,
              AllMonitorsStatisticsResource.monitor_entry rt i = Ok m) before ->
    (forall e, MonitorStatisticsResource.transform rt bundle = Raise e ->
               AllMonitorsStatisticsResource.transform rt data = Raise e) /\
    (forall stats,
       MonitorStatisticsResource.transform rt bundle = Ok stats ->
       int_of_string key = Raise ValueError ->
       AllMonitorsStatisticsResource.transform rt data = Raise ValueError).
Proof.
  intros rt data items before after key bundle Ht Hi Hitems Hb. split.
  - intros e He.
    apply (fleet_entry_raise rt data items before (key, bundle) after e
             Ht Hi Hitems Hb).
    unfold AllMonitorsStatisticsResource.monitor_entry. cbn [fst snd].
    rewrite He. reflexivity.
  - intros stats Hs Hk.
    apply (fleet_entry_raise rt data items before (key, bundle) after ValueError
             Ht Hi Hitems Hb).
    unfold AllMonitorsStatisticsResource.monitor_entry. cbn [fst snd].
    rewrite Hs, bind_ret, Hk. reflexivity.
Qed.

Lemma fleet_fails_with_entry_witness :
  AllMonitorsStatisticsResource.transform sample_runtime
    (VDict [("monitors",
             VDict [("1", fleet_member "api" true false);
                    ("2", VDict [("monitor", VDict [("name", VStr "web")]);
                                 ("heartbeats", VNone)]);
                    ("3", fleet_member "db" true false)])])
  = Raise TypeError /\
  AllMonitorsStatisticsResource.transform sample_runtime
    (VDict [("monitors",
             VDict [("1", fleet_member "api" true false);
                    ("two", fleet_member "web" true false)])])
  = Raise ValueError.
Proof.
  split.
  - match goal with
    | |- AllMonitorsStatisticsResource.transform _ ?data = _ =>
        apply (proj1 (fleet_fails_with_entry sample_runtime data _
                        [("1", fleet_member "api" true false)]
                        [("3", fleet_member "db" true false)]
                        "2" (VDict [("monitor", VDict [("name", VStr "web")]);
                                    ("heartbeats", VNone)])
                        eq_refl eq_refl eq_refl
                        ltac:(repeat constructor; eexists;
                              vm_compute; reflexivity)))
    end.
    apply none_heartbeats_raise; [discriminate | reflexivity].
  - match goal with
    | |- AllMonitorsStatisticsResource.transform _ ?data = _ =>
        apply (proj2 (fleet_fails_with_entry sample_runtime data _
                        [("1", fleet_member "api" true false)] []
                        "two" (fleet_member "web" true false)
                        eq_refl eq_refl eq_refl
                        ltac:(repeat constructor; eexists;
                              vm_compute; reflexivity))
                 (match MonitorStatisticsResource.transform sample_runtime
                          (fleet_member "web" true false) with
                  | Ok stats => stats
                  | Raise _ => []
                  end))
    end.
    + vm_compute. reflexivity.
    + reflexivity.
Defined.

(** ** The fleet: monitor types *)

Lemma fleet_types : forall rt data f,
  AllMonitorsStatisticsResource.transform rt data = Ok (Some f) ->
  AllMonitorsStatisticsResource.type_set (monitors f) = Ok (monitor_types f) /\
  monitors_by_type f
  = map (fun t => (t, AllMonitorsStatisticsResource.count_of_type (monitors f) t))
      (monitor_types f).
Proof.
  intros rt data f H. unfold AllMonitorsStatisticsResource.transform in H.
  destruct (negb (truthy data)); [discriminate|].
  repeat bind_inv H.
  inversion H; subst f; clear H. cbn [monitors monitor_types monitors_by_type].
  split; [assumption|].
  match goal with
  | E1 : AllMonitorsStatisticsResource.type_set ?ms = Ok ?a,
    E2 : AllMonitorsStatisticsResource.type_set ?ms = Ok ?b |- _ =>
      rewrite E1 in E2; inversion E2; subst
  end.
  reflexivity.
Qed.

Lemma distinct_In : forall l seen t,
  In t (AllMonitorsStatisticsResource.distinct seen l) ->
  In t l /\ existsb (py_eq t) seen = false.
Proof.
  induction l as [|x l IH]; intros seen t H; simpl in H; [contradiction|].
  destruct (existsb (py_eq x) seen) eqn:E.
  - destruct (IH _ _ H) as [Hin Hs]. split; [right; exact Hin | exact Hs].
  - destruct H as [<-|H]; [split; [left; reflexivity | exact E]|].
    destruct (IH _ _ H) as [Hin Hs]. split; [right; exact Hin|].
    simpl in Hs. apply orb_false_iff in Hs. tauto.
Qed.

Lemma distinct_pairwise : forall l seen,
  ForallOrdPairs (fun a b => py_eq b a = false)
    (AllMonitorsStatisticsResource.distinct seen l).
Proof.
  induction l as [|x l IH]; intros seen; simpl; [constructor|].
  destruct (existsb (py_eq x) seen); [apply IH|].
  constructor; [|apply IH].
  apply Forall_forall. intros b Hb. apply distinct_In in Hb.
  destruct Hb as [_ Hs]. simpl in Hs. apply orb_false_iff in Hs. tauto.
Qed.

Lemma py_eq_str : forall s v, py_eq (VStr s) v = true <-> v = VStr s.
Proof.
  intros s v. split.
  - destruct v as [|b|z|f|t|l|d]; simpl; try discriminate.
    intros H. apply String.eqb_eq in H. congruence.
  - intros ->. simpl. apply String.eqb_refl.
Qed.

Lemma distinct_keeps_str : forall l seen s,
  In (VStr s) l ->
  existsb (py_eq (VStr s)) seen = false ->
  In (VStr s) (AllMonitorsStatisticsResource.distinct seen l).
Proof.
  induction l as [|x l IH]; intros seen s Hin Hs; [contradiction|]. simpl.
  destruct (py_eq (VStr s) x) eqn:Ex.
  - apply py_eq_str in Ex. subst x. rewrite Hs. left. reflexivity.
  - destruct Hin as [->|Hin];
      [rewrite (proj2 (py_eq_str s (VStr s)) eq_refl) in Ex; discriminate|].
    destruct (existsb (py_eq x) seen).
    + apply IH; assumption.
    + right. apply IH; [assumption|]. cbn [existsb]. rewrite Ex, Hs. reflexivity.
Qed.

(** X14.  In the fleet statistics every listed monitor type is the type of
    some monitor and is not the sentinel, no two listed types are equal, and
    [monitors_by_type] gives for each listed type, in the same order, the
    number of monitors of that type.  No monitor has a list or a mapping as
    its type, and every type that is a string other than the sentinel is
    listed, with a count of at least one. *)
Theorem fleet_monitor_types :
  forall (rt : Runtime) (data : pyval) (f : FleetStatistics),
    AllMonitorsStatisticsResource.transform rt data = Ok (Some f) ->
    Forall (fun t => t <> SENTINEL /\
                     exists m, In m (monitors f) /\ get m "type" = t)
      (monitor_types f) /\
    ForallOrdPairs (fun a b => py_eq b a = false) (monitor_types f) /\
    monitors_by_type f
    = map (fun t =>
             (t, AllMonitorsStatisticsResource.count_of_type (monitors f) t))
        (monitor_types f) /\
    Forall (fun m => AllMonitorsStatisticsResource.hashable (get m "type") = true)
      (monitors f) /\
    (forall m s,
       In m (monitors f) -> get m "type" = VStr s -> s <> "-"%string ->
       In (VStr s) (monitor_types f) /\
       1 <= AllMonitorsStatisticsResource.count_of_type (monitors f) (VStr s)).
Proof.
  intros rt data f H. destruct (fleet_types rt data f H) as [Ht Hby].
  unfold AllMonitorsStatisticsResource.type_set in Ht.
  set (types := filter not_sentinel (map (fun m => get m "type") (monitors f)))
    in *.
  destruct (forallb AllMonitorsStatisticsResource.hashable types) eqn:Hh;
    [|discriminate].
  inversion Ht as [Hd]. clear Ht.
  split.
  { apply Forall_forall. intros t Hin. apply distinct_In in Hin.
    destruct Hin as [Hin _]. apply filter_In in Hin. destruct Hin as [Hin Hns].
    apply not_sentinel_true in Hns. split; [exact Hns|].
    apply in_map_iff in Hin. destruct Hin as (m & Hm & Hin).
    exists m. split; assumption. }
  split; [apply distinct_pairwise|].
  split; [rewrite Hd; exact Hby|].
  split.
  { apply Forall_forall. intros m Hm.
    destruct (not_sentinel (get m "type")) eqn:Hns.
    - rewrite forallb_forall in Hh. apply Hh. apply filter_In.
      split; [apply (in_map (fun m => get m "type")); exact Hm | exact Hns].
    - apply not_sentinel_false in Hns. rewrite Hns. reflexivity. }
  intros m s Hm Hty Hs. split.
  - apply distinct_keeps_str; [|reflexivity].
    apply filter_In. split.
    + rewrite <- Hty. apply (in_map (fun m => get m "type")). exact Hm.
    + apply not_sentinel_true. unfold SENTINEL. congruence.
  - unfold AllMonitorsStatisticsResource.count_of_type.
    assert (Hin : In m (filter (fun m0 => py_eq (get m0 "type") (VStr s))
                          (monitors f))).
    { apply filter_In. split; [exact Hm|]. rewrite Hty.
      apply py_eq_str. reflexivity. }
    destruct (filter (fun m0 => py_eq (get m0 "type") (VStr s)) (monitors f));
      [contradiction|]. simpl List.length. lia.
Qed.

Lemma fleet_monitor_types_witness :
  exists f,
    AllMonitorsStatisticsResource.transform sample_runtime fleet_of_six
      = Ok (Some f) /\
    monitors_by_type f = [(VStr "http", 6)] /\
    ForallOrdPairs (fun a b => py_eq b a = false) (monitor_types f).
Proof.
  exists fleet_of_six_output.
  assert (H : AllMonitorsStatisticsResource.transform sample_runtime fleet_of_six
              = Ok (Some fleet_of_six_output)) by (vm_compute; reflexivity).
  split; [exact H|]. split; [reflexivity|].
  destruct (fleet_monitor_types sample_runtime fleet_of_six
              fleet_of_six_output H) as (_ & Hp & _).
  exact Hp.
Defined.

(** ** Certificates: the domain of the transformer *)

Lemma nested_raise : forall details outer inner,
  dict_or_absent details outer = false ->
  CertificateInfoResource.nested (VDict details) outer inner
  = Raise AttributeError.
Proof.
  intros details outer inner H.
  unfold CertificateInfoResource.nested, py_get_or, get_or, dict_or_absent in *.
  destruct (lookup details outer) as [[]|]; try discriminate; reflexivity.
Qed.

Lemma nested_not_dict : forall v outer inner,
  is_dict v = false ->
  CertificateInfoResource.nested v outer inner = Raise AttributeError.
Proof.
  intros v outer inner H. destruct v; try reflexivity. discriminate.
Qed.

Lemma expiry_status_sentinel : forall v,
  CertificateInfoResource.expiry_status v = SENTINEL <-> is_number v = false.
Proof.
  intro v. unfold CertificateInfoResource.expiry_status, is_number.
  destruct (not_sentinel v) eqn:E.
  - destruct (as_num v) as [n|]; [|split; reflexivity].
    destruct (num_le n (NInt 0)); [split; discriminate|].
    destruct (num_le n (NInt 7)); [split; discriminate|].
    destruct (num_le n (NInt 30)); split; discriminate.
  - apply not_sentinel_false in E. subst v. split; reflexivity.
Qed.

Lemma cert_raises : forall cert_info,
  cert_well_formed cert_info = false ->
  CertificateInfoResource.transform cert_info = Raise AttributeError.
Proof.
  intros cert_info W. unfold cert_well_formed in W.
  apply orb_false_iff in W. destruct W as [Ht W].
  unfold CertificateInfoResource.transform. rewrite Ht.
  destruct cert_info as [| | | | | |c]; try reflexivity.
  destruct (lookup c "certInfo") as [v|] eqn:El; [|discriminate].
  assert (Hg : get_or c "certInfo" (VDict []) = v)
    by (unfold get_or; rewrite El; reflexivity).
  cbn [py_get_or py_get]. rewrite !bind_ret. cbv beta. rewrite Hg.
  destruct (is_dict v) eqn:Ed.
  - destruct v as [| | | | | |details]; try discriminate.
    apply andb_false_iff in W.
    destruct (dict_or_absent details "subject") eqn:Es.
    + destruct W as [W|W]; [discriminate|].
      destruct (nested_ok details "subject" "CN" Es) as [v1 E1];
        rewrite E1, bind_ret; cbv beta; clear E1.
      destruct (nested_ok details "subject" "C" Es) as [v2 E2];
        rewrite E2, bind_ret; cbv beta; clear E2.
      destruct (nested_ok details "subject" "ST" Es) as [v3 E3];
        rewrite E3, bind_ret; cbv beta; clear E3.
      destruct (nested_ok details "subject" "L" Es) as [v4 E4];
        rewrite E4, bind_ret; cbv beta; clear E4.
      destruct (nested_ok details "subject" "O" Es) as [v5 E5];
        rewrite E5, bind_ret; cbv beta; clear E5.
      rewrite (nested_raise details "issuer" "CN" W). reflexivity.
    + rewrite (nested_raise details "subject" "CN" Es). reflexivity.
  - rewrite (nested_not_dict v "subject" "CN" Ed). reflexivity.
Qed.

(** X15.  [CertificateInfoResource.transform] returns exactly on a falsy
    payload and on a mapping whose [certInfo], and the [subject] and
    [issuer] inside it, are mappings wherever they are present; on any other
    payload it raises AttributeError.  In the record of a mapping,
    [days_remaining] is the cleaned figure of the payload and
    [expiry_status] is the sentinel exactly when that figure is not a
    number. *)
Theorem certificate_domain :
  forall cert_info : pyval,
    match CertificateInfoResource.transform cert_info with
    | Ok r =>
        cert_well_formed cert_info = true /\
        (forall c, cert_info = VDict c -> c <> [] ->
           get r "days_remaining" = clean_value (get c "days_remaining") /\
           (get r "expiry_status" = SENTINEL <->
            is_number (get c "days_remaining") = false))
    | Raise e =>
        e = AttributeError /\ cert_well_formed cert_info = false
    end.
Proof.
  intro cert_info.
  destruct (cert_well_formed cert_info) eqn:W.
  2:{ rewrite (cert_raises cert_info W). split; reflexivity. }
  destruct (cert_transform_returns cert_info W) as (r & Hr). rewrite Hr.
  split; [reflexivity|].
  intros c -> Hne. unfold CertificateInfoResource.transform in Hr.
  destruct c as [|kv c]; [congruence|]. cbn [truthy negb] in Hr.
  repeat bind_inv Hr. injection Hr as <-.
  match goal with
  | E : py_get _ "days_remaining" = Ok ?x |- _ =>
      cbn [py_get py_get_or] in E; injection E as <-
  end.
  split; [reflexivity|].
  match goal with
  | |- get _ "expiry_status" = _ <-> _ =>
      change (CertificateInfoResource.expiry_status
                (clean_value (get (kv :: c) "days_remaining")) = SENTINEL <->
              is_number (get (kv :: c) "days_remaining") = false)
  end.
  rewrite expiry_status_sentinel, is_number_clean. reflexivity.
Qed.

Lemma certificate_domain_witness :
  exists r,
    CertificateInfoResource.transform
      (VDict [("valid", VBool true); ("days_remaining", VInt 5)]) = Ok r /\
    get r "days_remaining" = VInt 5 /\
    get r "expiry_status" <> SENTINEL.
Proof.
  pose proof (certificate_domain
                (VDict [("valid", VBool true); ("days_remaining", VInt 5)]))
    as H.
  destruct (CertificateInfoResource.transform
              (VDict [("valid", VBool true); ("days_remaining", VInt 5)]))
    as [r|e] eqn:E.
  - destruct H as (_ & Hf).
    destruct (Hf _ eq_refl ltac:(discriminate)) as (Hd & Hs).
    exists r. split; [reflexivity|]. split; [exact Hd|].
    intros Hc. apply Hs in Hc. discriminate.
  - destruct H as (_ & W). vm_compute in W. discriminate.
Defined.
